(** * EVE SDE search tool: reconciliation, index and query engine

    A shallow embedding of the Python sources

    - [src/core/eve_SDE.py]    (command line updater),
    - [src/core/eve_db.py]     (SQLite index store, class [EveDB]),
    - [src/core/eve_search.py] (command line search),
    - [src/gui/main_window.py] (workers [IndexWorker], [SearchWorker],
                                [UpdateWorker]; [start_search], the
                                change log viewer, the detail window),
    - [eve_search_gui.py]      (index-less [SearchWorker], first
                                [UpdateWorker]),

    followed by the properties of the specification that concern them.

    Conventions of the embedding.
    - A Python [str] is the list of its Unicode code points.
    - A value produced by [json.loads] is a [json] tree.
    - A raised exception is [None] in the [option] monad; [try/except]
      is a [match] on the result.
    - A text file is the list of its lines, as the UTF-8 decoder gives
      them; a directory is a finite map from file names to files.
    - The items table of the SQLite store is the list of its rows in
      insertion order, on a database on which [init_db] has run. *)

From Stdlib Require Import ZArith NArith List Ascii String DecimalString Permutation Lia.
From stdpp Require Import base option list sorting gmap fin_maps.

#[local] Set Warnings "-register-all".
Local Open Scope N_scope.

(** ** Python strings *)

Module Py.

Abbreviation codepoint := N (only parsing).
Abbreviation pystr := (list N) (only parsing).

(** An ASCII literal of the sources. *)
Definition lit (s : string) : pystr :=
  map N_of_ascii (list_ascii_of_string s).

(** [str.isspace] on one code point: the characters [str.split()] and
    [str.strip()] treat as white space. *)
Definition is_space (c : codepoint) : bool :=
  ((9 <=? c) && (c <=? 13)) || ((28 <=? c) && (c <=? 32))
  || (c =? 133) || (c =? 160) || (c =? 5760)
  || ((8192 <=? c) && (c <=? 8202))
  || (c =? 8232) || (c =? 8233) || (c =? 8239) || (c =? 8287)
  || (c =? 12288).

(** The case folding of ASCII: the letters A-Z are mapped to a-z, every
    other code point is kept.  It is what [LIKE] of SQLite folds, and
    what [str.lower] does on a text without cased letters beyond
    ASCII. *)
Definition lower_cp (c : codepoint) : codepoint :=
  if (65 <=? c) && (c <=? 90) then c + 32 else c.

Definition ascii_lower (s : pystr) : pystr := map lower_cp s.

Fixpoint lstrip (s : pystr) : pystr :=
  match s with
  | c :: s' => if is_space c then lstrip s' else s
  | [] => []
  end.

Definition rstrip (s : pystr) : pystr := rev (lstrip (rev s)).

(** [s.strip()] *)
Definition strip (s : pystr) : pystr := rstrip (lstrip s).

(** [s.split()]: maximal runs of non-space characters.  [cur] holds the
    characters of the run being read, last one first. *)
Fixpoint split_from (cur : pystr) (s : pystr) : list pystr :=
  match s with
  | [] => match cur with [] => [] | _ => [rev cur] end
  | c :: s' =>
      if is_space c
      then match cur with
           | [] => split_from [] s'
           | _ => rev cur :: split_from [] s'
           end
      else split_from (c :: cur) s'
  end.

Definition split (s : pystr) : list pystr := split_from [] s.

(** [s.startswith(p)] *)
Fixpoint startswith (p s : pystr) : bool :=
  match p, s with
  | [], _ => true
  | c :: p', d :: s' => (c =? d) && startswith p' s'
  | _ :: _, [] => false
  end.

(** [p in s] on strings: [p] occurs in [s] as a contiguous block. *)
Fixpoint contains (p s : pystr) : bool :=
  startswith p s
  || match s with
     | [] => false
     | _ :: s' => contains p s'
     end.

(** [c in iterator]: the iterator is advanced past the first
    occurrence of [c]; it is exhausted when there is none. *)
Fixpoint iter_contains (c : codepoint) (it : pystr) : bool * pystr :=
  match it with
  | [] => (false, [])
  | d :: it' => if c =? d then (true, it') else iter_contains c it'
  end.

(** [all(char in iterator for char in kw)] over one shared iterator;
    [all] stops at the first failure. *)
Fixpoint all_in_iterator (kw it : pystr) : bool :=
  match kw with
  | [] => true
  | c :: kw' =>
      let '(found, it') := iter_contains c it in
      if found then all_in_iterator kw' it' else false
  end.

(** [s.endswith(p)] *)
Definition endswith (p s : pystr) : bool := startswith (rev p) (rev s).

(** [s.replace(a, b)] for one-character [a] and [b]. *)
Definition replace_char (a b : codepoint) (s : pystr) : pystr :=
  map (fun c => if c =? a then b else c) s.

(** [s] is empty or white space. *)
Definition spaces (s : pystr) : Prop := Forall (fun c => is_space c = true) s.


(** [p] occurs in [s] as a contiguous block. *)
Definition Substring (p s : pystr) : Prop := exists a b, s = a ++ p ++ b.

(** [s] holds no letter A-Z. *)
Definition no_upper (s : pystr) : Prop := ascii_lower s = s.

(** [str(z)] for an integer. *)
Definition str_of_Z (z : Z) : pystr :=
  lit (NilZero.string_of_int (Z.to_int z)).

(** ** Values of [json.loads] *)

(** A [float]: not a number, an infinity, or the number
    [(-1)^negative * m * 2^e].  The program never computes with a
    float; it tests, compares, prints and stores it. *)
Inductive pyfloat : Type :=
| FNan
| FInf (negative : bool)
| FVal (negative : bool) (m : N) (e : Z).

Definition float_Z (negative : bool) (m : N) : Z :=
  if negative then (- Z.of_N m)%Z else Z.of_N m.

(** [x == y] on floats: by value; a NaN equals nothing. *)
Definition float_eqb (x y : pyfloat) : bool :=
  match x, y with
  | FInf a, FInf b => Bool.eqb a b
  | FVal a m e, FVal b n f =>
      let k := Z.min e f in
      (float_Z a m * 2 ^ (e - k) =? float_Z b n * 2 ^ (f - k))%Z
  | _, _ => false
  end.

(** [x == z] for a float and an integer: by value. *)
Definition float_eq_Z (x : pyfloat) (z : Z) : bool :=
  float_eqb x (FVal (z <? 0)%Z (Z.to_N (Z.abs z)) 0).

Inductive json : Type :=
| JNull
| JBool (b : bool)
| JNum (z : Z)
| JFloat (x : pyfloat)
| JStr (s : pystr)
| JArr (items : list json)
| JObj (fields : list (pystr * json)).

(** Truth value of a Python object in a condition. *)
Definition truthy (v : json) : bool :=
  match v with
  | JNull => false
  | JBool b => b
  | JNum z => negb (z =? 0)%Z
  | JFloat x => match x with FVal _ m _ => negb (m =? 0) | _ => true end
  | JStr s => match s with [] => false | _ => true end
  | JArr l => match l with [] => false | _ => true end
  | JObj l => match l with [] => false | _ => true end
  end.

(** [a or b]: the first operand when it is true, the second otherwise. *)
Definition py_or (a b : json) : json := if truthy a then a else b.

(** Lists and dicts have no hash: they are neither set elements nor
    operands of a set membership test. *)
Definition hashable (v : json) : bool :=
  match v with
  | JArr _ | JObj _ => false
  | _ => true
  end.

Definition str_eqb (a b : pystr) : bool := bool_decide (a = b).

(** First binding of a key in the field list of a dict. *)
Fixpoint dict_get (k : pystr) (fields : list (pystr * json)) : option json :=
  match fields with
  | [] => None
  | (k', v) :: rest => if str_eqb k k' then Some v else dict_get k rest
  end.

(** [d[k] = v] on the field list: an existing key keeps its position, a
    new key goes last. *)
Fixpoint dict_set (k : pystr) (v : json) (fields : list (pystr * json))
  : list (pystr * json) :=
  match fields with
  | [] => [(k, v)]
  | (k', v') :: rest =>
      if str_eqb k k' then (k, v) :: rest else (k', v') :: dict_set k v rest
  end.

(** [a == b].  [True] and [False] compare equal to [1] and [0], numbers
    compare by value; dicts compare as maps. *)
Fixpoint py_eqb (a b : json) {struct a} : bool :=
  match a, b with
  | JNull, JNull => true
  | JBool x, JBool y => Bool.eqb x y
  | JBool x, JNum y => (Z.b2z x =? y)%Z
  | JNum x, JBool y => (x =? Z.b2z y)%Z
  | JNum x, JNum y => (x =? y)%Z
  | JBool x, JFloat y => float_eq_Z y (Z.b2z x)
  | JFloat x, JBool y => float_eq_Z x (Z.b2z y)
  | JNum x, JFloat y => float_eq_Z y x
  | JFloat x, JNum y => float_eq_Z x y
  | JFloat x, JFloat y => float_eqb x y
  | JStr x, JStr y => str_eqb x y
  | JArr x, JArr y =>
      (fix all2 (x y : list json) {struct x} : bool :=
         match x, y with
         | [], [] => true
         | u :: x', v :: y' => py_eqb u v && all2 x' y'
         | _, _ => false
         end) x y
  | JObj x, JObj y =>
      (length x =? length y)%nat
      && (fix sub (x : list (pystr * json)) {struct x} : bool :=
            match x with
            | [] => true
            | (k, u) :: x' =>
                match dict_get k y with
                | Some v => py_eqb u v && sub x'
                | None => false
                end
            end) x
  | _, _ => false
  end.

(** [d.get(k, dflt)]; only a dict has the method. *)
Definition get (d : json) (k : pystr) (dflt : json) : option json :=
  match d with
  | JObj fields => Some (default dflt (dict_get k fields))
  | _ => None
  end.

(** [d[k]] for a string key: [KeyError] on a dict without the key,
    [TypeError] on anything else. *)
Definition subscript (d : json) (k : pystr) : option json :=
  match d with
  | JObj fields => dict_get k fields
  | _ => None
  end.

(** [set(v)]: the elements [v] yields when iterated (the items of a list,
    the characters of a string, the keys of a dict); [TypeError] when [v]
    is not iterable or an element has no hash.  The set is represented by
    the list of the values inserted. *)
Definition set (v : json) : option (list json) :=
  match v with
  | JArr l => if forallb hashable l then Some l else None
  | JStr s => Some (map (fun c => JStr [c]) s)
  | JObj fields => Some (map (fun kv => JStr kv.1) fields)
  | _ => None
  end.

(** Truth value of a set: it has an element. *)
Definition nonempty (s : list json) : bool :=
  match s with
  | [] => false
  | _ => true
  end.

(** [x in s] for a set [s]. *)
Definition set_in (x : json) (s : list json) : option bool :=
  if hashable x then Some (existsb (py_eqb x) s) else None.

(** The distinct elements of a set built from [l]: of equal values the
    first one inserted is the one kept. *)
Fixpoint distinct (l : list json) : list json :=
  match l with
  | [] => []
  | x :: l' => x :: filter (fun y => negb (py_eqb x y)) (distinct l')
  end.

(** [len(s)] for a set built from [l]. *)
Definition len_set (l : list json) : nat := length (distinct l).

(** An integer or a boolean: its hash does not depend on the hash seed
    of the process. *)
Definition unseeded (v : json) : bool :=
  match v with
  | JNum _ | JBool _ => true
  | _ => false
  end.

(** ** Library functions of the interpreter

    [json.loads] and [json.dumps], the [repr] of lists, dicts and
    floats, and [str.lower] are those of the interpreter that runs the
    program.  [loads] is [None] when the text is not JSON.  Of
    [str.lower], which maps every cased letter of Unicode and is not a
    map of single characters (a capital sigma becomes a final sigma by
    its neighbours), the properties use three facts: it keeps white
    space and makes none, its result has no letter A-Z, and it works on
    the two sides of a white space character separately.  [set_order] is the order in
    which a set of integers and booleans is iterated, a function of the
    values inserted. *)
Class Runtime : Type := {
  loads : pystr -> option json;
  dumps : json -> pystr;
  repr : json -> pystr;
  lower : pystr -> pystr;
  lower_spaces : forall s, spaces (lower s) <-> spaces s;
  lower_no_upper : forall s, no_upper (lower s);
  lower_at_whitespace :
    forall a c b, is_space c = true -> lower (a ++ c :: b) = lower a ++ c :: lower b;
  set_order : list json -> list json
}.

(** ** One run of the interpreter

    The hash of a string depends on the hash seed the process draws at
    its start, and with it the order in which a set that holds strings
    is iterated.  The order enumerates the distinct elements; on
    integers and booleans it is that of every process. *)
Class Process `{Runtime} : Type := {
  set_iter : list json -> list json;
  set_iter_distinct : forall l, Permutation (set_iter l) (distinct l);
  set_iter_unseeded : forall l, forallb unseeded l = true -> set_iter l = set_order l
}.

(** [str(v)], also the text an f-string puts for [{v}]. *)
Definition str `{Runtime} (v : json) : pystr :=
  match v with
  | JNull => lit "None"
  | JBool true => lit "True"
  | JBool false => lit "False"
  | JNum z => str_of_Z z
  | JStr s => s
  | JFloat _ | JArr _ | JObj _ => repr v
  end.

End Py.

(** ** The operating system: directories and file names *)

Module Os.
Import Py.

Abbreviation file := (list pystr) (only parsing).
Abbreviation directory := (gmap pystr (list pystr)) (only parsing).

(** [os.listdir] gives the files of a directory in an order of the file
    system's own.  [creatable name] says that [open(name, "w")] in an
    existing directory succeeds; it fails on a name with a slash (the
    directories of the program hold files only) and on a name with a
    null character. *)
Class Platform : Type := {
  listdir : directory -> list (pystr * list pystr);
  listdir_Permutation : forall d, Permutation (listdir d) (map_to_list d);
  creatable : pystr -> bool;
  creatable_flat : forall name, creatable name = true -> (47 ∉ name) /\ (0 ∉ name)
}.

End Os.

(** ** SQLite: the [LIKE] operator, limits and parameter binding *)

Module Sqlite.
Import Py.

Definition percent : codepoint := 37.
Definition underscore : codepoint := 95.

(** Characters of a pattern and of the text are compared without regard
    to the case of ASCII letters. *)
Definition nocase_eqb (c d : codepoint) : bool := lower_cp c =? lower_cp d.

(** The comparison of [LIKE] without [ESCAPE]: [%] stands for any run of
    characters, [_] for any one character. *)
Fixpoint patternCompare (p t : pystr) {struct p} : bool :=
  match p with
  | [] => match t with [] => true | _ => false end
  | c :: p' =>
      if c =? percent
      then (fix any_run (t : pystr) : bool :=
              patternCompare p' t
              || match t with
                 | [] => false
                 | _ :: t' => any_run t'
                 end) t
      else match t with
           | [] => false
           | d :: t' => ((c =? underscore) || nocase_eqb c d) && patternCompare p' t'
           end
  end.

(** The text as the comparison reads it: up to the first null
    character. *)
Fixpoint c_string (s : pystr) : pystr :=
  match s with
  | [] => []
  | c :: s' => if c =? 0 then [] else c :: c_string s'
  end.

(** [t LIKE p] *)
Definition like (p t : pystr) : bool := patternCompare (c_string p) (c_string t).


(** Number of bytes of a character in UTF-8. *)
Definition utf8_len (c : codepoint) : N :=
  if c <? 128 then 1 else if c <? 2048 then 2 else if c <? 65536 then 3 else 4.

Definition bytes (s : pystr) : N := fold_right N.add 0 (map utf8_len s).

(** The string can be encoded in UTF-8: it holds no surrogate. *)
Definition encodable (s : pystr) : bool :=
  forallb (fun c => negb ((55296 <=? c) && (c <=? 57343))) s.

(** The limits of the library as it is built by default: a statement
    whose expression tree is 1000 deep is refused when it is prepared,
    a [LIKE] whose pattern is longer than 50000 bytes when it is
    evaluated. *)
Definition max_expr_depth : nat := 1000.
Definition max_like_pattern_length : N := 50000.

(** A value stored in a column of declared type [TEXT]; [Real x] is the
    text SQLite writes for the number [x]. *)
Inductive value : Type :=
| Null
| Text (s : pystr)
| Real (x : pyfloat).

(** Binding a Python object to a parameter that goes into a [TEXT]
    column: [None] and a NaN are NULL, a string that can be encoded is
    kept, an integer that fits 64 bits ([True] and [False] are 1 and 0)
    is stored as its decimal text, a float as its text; a string with a
    surrogate, a larger integer, a list and a dict are refused with an
    exception. *)
Definition bind (v : json) : option value :=
  match v with
  | JNull => Some Null
  | JBool b => Some (Text (str_of_Z (Z.b2z b)))
  | JNum z =>
      if ((- 2 ^ 63 <=? z) && (z <? 2 ^ 63))%Z
      then Some (Text (str_of_Z z))
      else None
  | JFloat FNan => Some Null
  | JFloat x => Some (Real x)
  | JStr s => if encodable s then Some (Text s) else None
  | JArr _ | JObj _ => None
  end.

End Sqlite.

(** ** [src/core/eve_db.py]: class [EveDB]

    The state of the store is the content of its [items] table, on a
    database on which [init_db] has run. *)

Module EveDB.
Import Py Os.

(** Columns of [items]. *)
Record row : Type := {
  id : pystr;
  source_file : pystr;
  name_zh : Sqlite.value;
  name_en : Sqlite.value;
  search_text : pystr;
  json_data : pystr
}.

(** An element of [batch]: the parameters of one [INSERT]. *)
Record params : Type := {
  p_id : pystr;
  p_source_file : pystr;
  p_name_zh : json;
  p_name_en : json;
  p_search_text : pystr;
  p_json_data : pystr
}.

(** A dict of the list [search] returns. *)
Record result : Type := {
  r_id : pystr;
  r_file_name : pystr;
  r_name_zh : Sqlite.value;
  r_name_en : Sqlite.value;
  r_json_data : pystr
}.

(** [init_db]: [CREATE TABLE IF NOT EXISTS]; the rows are kept. *)
Definition init_db (items : list row) : list row := items.

(** [clear_db]: [DELETE FROM items], committed, then [VACUUM]. *)
Definition clear_db (items : list row) : list row := [].

(** One [INSERT]: the six parameters are bound; the four that are
    strings must be encodable. *)
Definition insert (p : params) : option row :=
  if Sqlite.encodable (p_id p) && Sqlite.encodable (p_source_file p)
     && Sqlite.encodable (p_search_text p) && Sqlite.encodable (p_json_data p)
  then
    zh ← Sqlite.bind (p_name_zh p);
    en ← Sqlite.bind (p_name_en p);
    Some {| id := p_id p; source_file := p_source_file p;
            name_zh := zh; name_en := en;
            search_text := p_search_text p; json_data := p_json_data p |}
  else None.

(** [conn.executemany("INSERT ...", batch)]: the rows are inserted one
    after the other; a parameter that cannot be bound raises and leaves
    the rows already inserted in the open transaction.  The boolean is
    [false] when it raised. *)
Fixpoint executemany (batch : list params) (items : list row)
  : bool * list row :=
  match batch with
  | [] => (true, items)
  | p :: rest =>
      match insert p with
      | Some r => executemany rest (items ++ [r])
      | None => (false, items)
      end
  end.

Section WithRuntime.
Context `{Runtime} `{Platform}.

(** The names of a record: the [en] and [zh] entries of a dict, the
    string itself for both when [name] is a string, empty otherwise.
    Result: [(name_en, name_zh)]. *)
Definition names (name_data : json) : json * json :=
  match name_data with
  | JObj fields =>
      (default (JStr []) (dict_get (lit "en") fields),
       default (JStr []) (dict_get (lit "zh") fields))
  | JStr s => (JStr s, JStr s)
  | _ => (JStr [], JStr [])
  end.

(** [data.get("_key") or data.get("id") or data.get("typeID")] *)
Definition item_id (data : json) : option json :=
  k ← get data (lit "_key") JNull;
  i ← get data (lit "id") JNull;
  t ← get data (lit "typeID") JNull;
  Some (py_or (py_or k i) t).

(** Body of the [try] of [build_index] up to [batch.append]: the
    parameters computed from one line of [file_name]. *)
Definition index_line (file_name line : pystr) : option params :=
  data ← loads line;
  item_id ← item_id data;
  let item_id_str :=
    match item_id with
    | JNull => []
    | _ => str item_id
    end in
  name_data ← get data (lit "name") (JObj []);
  let '(name_en, name_zh) := names name_data in
  let search_text :=
    lower (item_id_str ++ lit " " ++ str name_zh ++ lit " " ++ str name_en) in
  Some {| p_id := item_id_str; p_source_file := file_name;
          p_name_zh := name_zh; p_name_en := name_en;
          p_search_text := search_text; p_json_data := strip line |}.

(** The loop over the lines of one file.  A line whose processing raises
    is passed over; this includes a failed flush of a full batch, after
    which [batch] has not been reset. *)
Fixpoint index_lines (file_name : pystr) (lines : list pystr)
    (batch : list params) (items : list row) : list params * list row :=
  match lines with
  | [] => (batch, items)
  | line :: rest =>
      match index_line file_name line with
      | None => index_lines file_name rest batch items
      | Some p =>
          let batch' := batch ++ [p] in
          if (1000 <=? length batch')%nat
          then let '(ok, items') := executemany batch' items in
               if ok
               then index_lines file_name rest [] items'
               else index_lines file_name rest batch' items'
          else index_lines file_name rest batch' items
      end
  end.

(** One file: its lines, then the flush of what is left in [batch],
    which is outside the [try] of the line loop. *)
Definition index_file (file_name : pystr) (lines : list pystr)
    (items : list row) : option (list row) :=
  let '(batch, items') := index_lines file_name lines [] items in
  match batch with
  | [] => Some items'
  | _ =>
      let '(ok, items'') := executemany batch items' in
      if ok then Some items'' else None
  end.

Fixpoint index_files (files : list (pystr * list pystr)) (items : list row)
  : option (list row) :=
  match files with
  | [] => Some items
  | (file_name, lines) :: rest =>
      items' ← index_file file_name lines items;
      index_files rest items'
  end.

(** [build_index(sde_dir)] on an existing directory: the files come in
    the order of [os.listdir].  Success commits and returns [True]; an
    exception rolls the transaction back to the rows the table had at
    the call and is raised again ([None]). *)
Definition build_index (sde_dir : directory) (items : list row)
  : option bool * list row :=
  let files :=
    filter (fun f => endswith (lit ".jsonl") f.1 = true) (listdir sde_dir) in
  match index_files files items with
  | Some items' => (Some true, items')
  | None => (None, items)
  end.

End WithRuntime.

Definition to_result (r : row) : result :=
  {| r_id := id r; r_file_name := source_file r;
     r_name_zh := name_zh r; r_name_en := name_en r;
     r_json_data := json_data r |}.

(** One condition [search_text LIKE ?] on a row: an exception when the
    pattern is longer than the limit. *)
Definition like_term (p text : pystr) : option bool :=
  if Sqlite.max_like_pattern_length <? Sqlite.bytes p
  then None
  else Some (Sqlite.like p text).

(** The [WHERE] clause on a row: the conditions are evaluated from the
    left, up to the first one that is false. *)
Fixpoint where_clause (params : list pystr) (text : pystr) : option bool :=
  match params with
  | [] => Some true
  | p :: rest =>
      match like_term p text with
      | Some true => where_clause rest text
      | other => other
      end
  end.

(** The rows of the statement: the table is read in order until
    [limit] rows are found. *)
Fixpoint select (params : list pystr) (limit : nat) (items : list row)
  : option (list row) :=
  match limit, items with
  | O, _ => Some []
  | _, [] => Some []
  | S n, r :: rest =>
      match where_clause params (search_text r) with
      | Some true => (r ::.) <$> select params n rest
      | Some false => select params limit rest
      | None => None
      end
  end.

(** What the [WHERE] clause selects when every condition is evaluated
    without an exception. *)
Definition selected (params : list pystr) (r : row) : bool :=
  forallb (fun p => Sqlite.like p (search_text r)) params.

Section Search.
Context `{Runtime}.

(** The tokens of a keyword as [search] computes them. *)
Definition keywords (keyword : pystr) : list pystr :=
  split (strip (lower keyword)).

(** [search(keyword, limit)].  Without a keyword the statement reads
    [SELECT * FROM items WHERE  LIMIT n], which SQLite refuses; with
    1000 conditions it is refused for its depth; a parameter with a
    surrogate cannot be bound.  In each case the call raises, as it
    does when a row makes a condition raise. *)
Definition search (keyword : pystr) (limit : nat) (items : list row)
  : option (list result) :=
  let params :=
    map (fun kw => lit "%" ++ kw ++ lit "%") (keywords keyword) in
  match params with
  | [] => None
  | _ =>
      if (Sqlite.max_expr_depth <=? length params)%nat then None
      else if forallb Sqlite.encodable params
           then map to_result <$> select params limit items
           else None
  end.

End Search.

(** [limit=1000] *)
Definition default_limit : nat := 1000.

(** [get_count] *)
Definition get_count (items : list row) : nat := length items.

End EveDB.

(** ** The publisher and the local disk *)

Module World.
Import Py Os.

(** What the publisher serves: the body of [latest.jsonl], the files of
    the snapshot archive, and the lines of [changes/<build>.jsonl] for
    the build number written in the address. *)
Record upstream : Type := {
  latest_jsonl : pystr;
  archive : directory;
  changes_jsonl : pystr -> list pystr
}.

(** The directories the program owns: the snapshot (absent before the
    first download) and the change logs. *)
Record disk : Type := {
  eve_sde_jsonl : option directory;
  eve_sde_update : directory
}.

(** Commands on the disk; a command that raises leaves the disk as it
    was when it raised. *)
Definition io (A : Type) : Type := disk -> option A * disk.

Definition ret {A} (a : A) : io A := fun d => (Some a, d).

Definition bind {A B} (m : io A) (k : A -> io B) : io B :=
  fun d =>
    match m d with
    | (Some a, d') => k a d'
    | (None, d') => (None, d')
    end.

(** The value of an expression that may raise. *)
Definition try {A} (o : option A) : io A := fun d => (o, d).

Definition read_disk : io disk := fun d => (Some d, d).

(** [zf.extractall("eve_sde_jsonl")]: the files of the archive replace
    those of the same name; the other files stay. *)
Definition extractall (a : directory) : io () :=
  fun d =>
    (Some (),
     {| eve_sde_jsonl := Some (a ∪ default ∅ (eve_sde_jsonl d));
        eve_sde_update := eve_sde_update d |}).

(** [open(name, "w")] in [eve_sde_update], which exists, then writing
    [lines]: the file is created or emptied first; a name the file
    system refuses raises. *)
Definition write_file `{Platform} (name : pystr) (lines : file) : io () :=
  fun d =>
    if creatable name
    then (Some (),
          {| eve_sde_jsonl := eve_sde_jsonl d;
             eve_sde_update := <[name := lines]> (eve_sde_update d) |})
    else (None, d).

(** [open(name, "a")] on a file that exists, then writing [lines]. *)
Definition append_file (name : pystr) (lines : file) : io () :=
  fun d =>
    (Some (),
     {| eve_sde_jsonl := eve_sde_jsonl d;
        eve_sde_update :=
          <[name := default [] (eve_sde_update d !! name) ++ lines]>
            (eve_sde_update d) |}).

End World.

Notation "x <- y ;; z" := (World.bind y (fun x => z))
  (at level 20, y at level 99, z at level 200, only parsing).
Notation "' p <- y ;; z" := (World.bind y (fun p => z))
  (at level 20, p pattern, y at level 99, z at level 200, only parsing).

(** The synthesized payload of a removed record. *)
Definition removed_record (key rid : Py.json) : Py.json :=
  Py.JObj
    [(Py.lit "_key", rid);
     (Py.lit "_source_table", key);
     (Py.lit "_status", Py.JStr (Py.lit "removed"));
     (Py.lit "name",
      Py.JObj
        [(Py.lit "en", Py.JStr (Py.lit "(Item Removed)"));
         (Py.lit "zh", Py.JStr [40; 26465; 30446; 24050; 21024; 38500; 41])])].

(** [data["_source_table"] = key; data["_status"] = status] *)
Definition tagged (key : Py.json) (status : Py.pystr)
    (fields : list (Py.pystr * Py.json)) : Py.json :=
  Py.JObj
    (Py.dict_set (Py.lit "_status") (Py.JStr status)
       (Py.dict_set (Py.lit "_source_table") key fields)).

(** ** [src/core/eve_SDE.py] *)

Module EveSDE.
Import Py Os World.

Section WithRuntime.
Context `{Runtime} `{!Process} `{Platform}.

Definition read_SDE_latest_info (u : upstream) : option (json * json * json) :=
  response ← loads (latest_jsonl u);
  k ← subscript response (lit "_key");
  b ← subscript response (lit "buildNumber");
  r ← subscript response (lit "releaseDate");
  Some (k, b, r).

Definition download_latest_eve_SDE_json (u : upstream) : io () :=
  extractall (archive u).

Definition update_SDE (u : upstream) : io () :=
  '(_, latest_buildNumber, _) <- try (read_SDE_latest_info u) ;;
  d <- read_disk ;;
  match eve_sde_jsonl d with
  | None => download_latest_eve_SDE_json u
  | Some dir =>
      f <- try (dir !! lit "_sde.jsonl") ;;
      data <- try (loads (default [] (head f))) ;;
      current_buildNumber <- try (subscript data (lit "buildNumber")) ;;
      if negb (py_eqb current_buildNumber latest_buildNumber)
      then download_latest_eve_SDE_json u
      else ret ()
  end.

(** Status of a record of the table file. *)
Definition status_of (added_ids changed_ids : list json) (item_id : json)
  : option (option pystr) :=
  match set_in item_id added_ids with
  | None => None
  | Some true => Some (Some (lit "added"))
  | Some false =>
      match set_in item_id changed_ids with
      | None => None
      | Some true => Some (Some (lit "changed"))
      | Some false => Some None
      end
  end.

(** Body of the inner [try]: the lines one line of the table file adds
    to the change log. *)
Definition record_lines (key : json) (added_ids changed_ids : list json)
    (f_line : pystr) : list pystr :=
  match
    (data ← loads f_line;
     item_id ← get data (lit "_key") JNull;
     status ← status_of added_ids changed_ids item_id;
     Some (data, status))
  with
  | Some (JObj fields, Some status) => [dumps (tagged key status fields)]
  | _ => []
  end.

(** Body of the outer [try]: the lines one line of the change manifest
    adds to the change log.  [sde] is the snapshot directory. *)
Definition entry_lines (sde : directory) (line : pystr) : option (list pystr) :=
  line_data ← loads line;
  key ← get line_data (lit "_key") JNull;
  if py_eqb key (JStr (lit "_meta")) then Some []
  else
    added_ids ← get line_data (lit "added") (JArr []) ≫= set;
    changed_ids ← get line_data (lit "changed") (JArr []) ≫= set;
    removed_ids ← get line_data (lit "removed") (JArr []) ≫= set;
    if negb (nonempty added_ids || nonempty changed_ids || nonempty removed_ids)
    then Some []
    else
      let removed :=
        if nonempty removed_ids
        then map (fun rid => dumps (removed_record key rid)) (set_iter removed_ids)
        else [] in
      let present :=
        if nonempty added_ids || nonempty changed_ids
        then match sde !! (str key ++ lit ".jsonl") with
             | Some f => flat_map (record_lines key added_ids changed_ids) f
             | None => []
             end
        else [] in
      Some (removed ++ present).

(** The loop over the lines of the manifest (lines 92 to 144): all the
    lines appended to the change log.  Empty lines are skipped; a line
    whose processing raises before anything is written adds nothing. *)
Definition change_log (sde : directory) (response : list pystr) : list pystr :=
  flat_map
    (fun line =>
       match line with
       | [] => []
       | _ => default [] (entry_lines sde line)
       end)
    response.

Definition get_SDE_update (u : upstream) : io () :=
  '(_, latest_buildNumber, latest_releaseDate) <- try (read_SDE_latest_info u) ;;
  '() <- update_SDE u ;;
  let response := changes_jsonl u (str latest_buildNumber) in
  safe_release_date <-
    try (match latest_releaseDate with
         | JStr s => Some (replace_char 58 45 s)
         | _ => None
         end) ;;
  let changes_file :=
    lit "eve_sde_changes_" ++ safe_release_date ++ lit ".jsonl" in
  '() <- write_file changes_file [] ;;
  d <- read_disk ;;
  append_file changes_file
    (change_log (default ∅ (eve_sde_jsonl d)) response).

End WithRuntime.
End EveSDE.

(** ** [src/gui/main_window.py]: the worker threads

    A worker is modelled by the signals it emits, in order, and by its
    effect on the disk or on the store.  Workers run to their end: the
    flag [is_running] stays set. *)

Module MainWindow.
Import Py Os World.

(** Signals of [SearchWorker]. *)
Inductive search_signal : Type :=
| result_found (res : EveDB.result)
| search_finished (total : nat)
| search_error.

(** The arguments of [result_found] are declared [str]: [emit] takes a
    row whose two names are texts and raises on a name that is NULL. *)
Definition emits (res : EveDB.result) : bool :=
  match EveDB.r_name_zh res, EveDB.r_name_en res with
  | Sqlite.Null, _ | _, Sqlite.Null => false
  | _, _ => true
  end.

(** The loop over [results], then [finished]; an [emit] that raises
    ends the loop with the signal [error]. *)
Fixpoint emit_all (total : nat) (results : list EveDB.result) : list search_signal :=
  match results with
  | [] => [search_finished total]
  | res :: rest =>
      if emits res then result_found res :: emit_all total rest
      else [search_error]
  end.

Section WithRuntime.
Context `{Runtime} `{!Process} `{Platform}.

(** [SearchWorker.run]; [db] is [None] when the database file does not
    exist. *)
Definition SearchWorker_run (db : option (list EveDB.row)) (keyword : pystr)
  : list search_signal :=
  match db with
  | None => [search_error]
  | Some items =>
      match EveDB.search keyword EveDB.default_limit items with
      | Some results => emit_all (length results) results
      | None => [search_error]
      end
  end.

(** [IndexWorker.run]: the signal [finished(ok, _)] and the rows of the
    store when the thread ends.  [sde_dir] is [None] when the snapshot
    directory does not exist. *)
Definition IndexWorker_run (sde_dir : option directory) (items : list EveDB.row)
  : bool * list EveDB.row :=
  let items := EveDB.clear_db (EveDB.init_db items) in
  match sde_dir with
  | None => (false, items)
  | Some dir =>
      match EveDB.build_index dir items with
      | (Some _, items') => (true, items')
      | (None, items') => (false, items')
      end
  end.

Definition read_SDE_latest_info (u : upstream) : option (json * json * json) :=
  response ← loads (latest_jsonl u);
  k ← subscript response (lit "_key");
  b ← subscript response (lit "buildNumber");
  r ← subscript response (lit "releaseDate");
  Some (k, b, r).

Definition download_latest_eve_SDE_json (u : upstream) : io () :=
  extractall (archive u).

(** Status of a record of the table file. *)
Definition status_of (added_ids changed_ids : list json) (is_file_added : json)
    (item_id : json) : option (option pystr) :=
  match set_in item_id added_ids with
  | None => None
  | Some true => Some (Some (lit "added"))
  | Some false =>
      match set_in item_id changed_ids with
      | None => None
      | Some true => Some (Some (lit "changed"))
      | Some false =>
          Some (if truthy is_file_added then Some (lit "added") else None)
      end
  end.

(** Body of the inner [try]. *)
Definition record_lines (key : json) (added_ids changed_ids : list json)
    (is_file_added : json) (f_line : pystr) : list pystr :=
  match
    (data ← loads f_line;
     item_id ← get data (lit "_key") JNull;
     status ← status_of added_ids changed_ids is_file_added item_id;
     Some (data, status))
  with
  | Some (JObj fields, Some status) => [dumps (tagged key status fields)]
  | _ => []
  end.

(** Body of the outer [try]: the lines one line of the change manifest
    adds to the change log. *)
Definition entry_lines (sde : directory) (line : pystr) : option (list pystr) :=
  line_data ← loads line;
  key ← get line_data (lit "_key") JNull;
  if py_eqb key (JStr (lit "_meta")) then Some []
  else
    added_ids ← get line_data (lit "added") (JArr []) ≫= set;
    changed_ids ← get line_data (lit "changed") (JArr []) ≫= set;
    removed_ids ← get line_data (lit "removed") (JArr []) ≫= set;
    is_file_added ← get line_data (lit "fileAdded") (JBool false);
    let total_changes :=
      (len_set added_ids + len_set changed_ids + len_set removed_ids)%nat in
    if (total_changes =? 0)%nat && negb (truthy is_file_added)
    then Some []
    else
      let removed :=
        if nonempty removed_ids
        then map (fun rid => dumps (removed_record key rid)) (set_iter removed_ids)
        else [] in
      let present :=
        if nonempty added_ids || nonempty changed_ids || truthy is_file_added
        then match sde !! (str key ++ lit ".jsonl") with
             | Some f =>
                 flat_map (record_lines key added_ids changed_ids is_file_added) f
             | None => []
             end
        else [] in
      Some (removed ++ present).

(** The loop over [response.iter_lines()] (lines 222 to 292). *)
Definition change_log (sde : directory) (response : list pystr) : list pystr :=
  flat_map
    (fun line =>
       match line with
       | [] => []
       | _ => default [] (entry_lines sde line)
       end)
    response.

Definition get_SDE_update (u : upstream) (latest_buildNumber latest_releaseDate : json)
  : io () :=
  let response := changes_jsonl u (str latest_buildNumber) in
  safe_release_date <-
    try (match latest_releaseDate with
         | JStr s => Some (replace_char 58 45 s)
         | _ => None
         end) ;;
  let changes_file :=
    lit "eve_sde_changes_" ++ safe_release_date ++ lit ".jsonl" in
  '() <- write_file changes_file [] ;;
  d <- read_disk ;;
  append_file changes_file
    (change_log (default ∅ (eve_sde_jsonl d)) response).

(** The build number of the first line of [_sde.jsonl]; [None] (the
    Python value) when it cannot be read. *)
Definition local_buildNumber (d : disk) : json :=
  match eve_sde_jsonl d ≫= (.!! lit "_sde.jsonl") with
  | Some f =>
      default JNull
        (data ← loads (default [] (head f)); get data (lit "buildNumber") JNull)
  | None => JNull
  end.

(** [UpdateWorker.run]: the signal [finished(ok, _)] is [true] when
    the command returns a value. *)
Definition UpdateWorker_run (u : upstream) : io () :=
  '(_, latest_buildNumber, latest_releaseDate) <- try (read_SDE_latest_info u) ;;
  d <- read_disk ;;
  '() <- (if py_eqb (local_buildNumber d) latest_buildNumber
          then ret ()
          else download_latest_eve_SDE_json u) ;;
  get_SDE_update u latest_buildNumber latest_releaseDate.

End WithRuntime.
End MainWindow.

(** ** [eve_search_gui.py]: search without an index *)

Module SearchGui.
Import Py Os World.

(** Signals of [SearchWorker]. *)
Inductive signal : Type :=
| result_found (file_name display_id name_zh name_en json_line : pystr)
| finished (total_found : nat)
| error.

Definition names (name_data : json) : json * json :=
  match name_data with
  | JObj fields =>
      (default (JStr []) (dict_get (lit "en") fields),
       default (JStr []) (dict_get (lit "zh") fields))
  | JStr s => (JStr s, JStr s)
  | _ => (JStr [], JStr [])
  end.

Definition item_id (data : json) : option json :=
  k ← get data (lit "_key") JNull;
  i ← get data (lit "id") JNull;
  t ← get data (lit "typeID") JNull;
  Some (py_or (py_or k i) t).

(** The loop over [keywords_list]: the value of [is_match] after it. *)
Fixpoint is_match (keywords_list : list pystr) (full_text : pystr) : bool :=
  match keywords_list with
  | [] => true
  | kw :: rest =>
      if contains kw full_text then is_match rest full_text
      else if all_in_iterator kw full_text then is_match rest full_text
      else false
  end.

Section WithRuntime.
Context `{Runtime} `{Platform}.

(** [(name_en + " " + name_zh).lower()]; [+] raises unless both are
    strings. *)
Definition full_text (name_en name_zh : json) : option pystr :=
  match name_en, name_zh with
  | JStr en, JStr zh => Some (lower (en ++ lit " " ++ zh))
  | _, _ => None
  end.

(** Body of the [try] for one line: the signal emitted, if any. *)
Definition line_signal (keywords_list : list pystr) (file_name line : pystr)
  : option (option signal) :=
  data ← loads line;
  item_id ← item_id data;
  name_data ← get data (lit "name") (JObj []);
  let '(name_en, name_zh) := names name_data in
  full_text ← full_text name_en name_zh;
  if is_match keywords_list full_text
  then
    let display_id :=
      match item_id with
      | JNull => lit "N/A"
      | _ => str item_id
      end in
    Some (Some (result_found file_name display_id (str name_zh) (str name_en)
                  (strip line)))
  else Some None.

(** The signals of the lines of one file. *)
Definition file_signals (keywords_list : list pystr) (file_name : pystr)
    (lines : file) : list signal :=
  flat_map
    (fun line =>
       match line_signal keywords_list file_name line with
       | Some (Some s) => [s]
       | _ => []
       end)
    lines.

(** [SearchWorker.run]; [sde_dir] is [None] when the directory does not
    exist. *)
Definition SearchWorker_run (sde_dir : option directory) (keyword : pystr)
  : list signal :=
  match sde_dir with
  | None => [error]
  | Some dir =>
      let files :=
        filter (fun f => endswith (lit ".jsonl") f.1 = true) (listdir dir) in
      let keywords_list := split (lower keyword) in
      let found :=
        flat_map (fun f => file_signals keywords_list f.1 f.2) files in
      found ++ [finished (length found)]
  end.

End WithRuntime.
End SearchGui.

(** ** Notions of the specification *)

Module Spec.
Import Py.

(** What the [or] chain of the sources yields: the value of the first of
    [_key], [id] and [typeID] that is true; the value of [typeID] when
    none is. *)
Definition first_true_id (fields : list (pystr * json)) : json :=
  let value k := default JNull (dict_get k fields) in
  match List.find (fun k => truthy (value k)) [lit "_key"; lit "id"; lit "typeID"] with
  | Some k => value k
  | None => value (lit "typeID")
  end.

(** The id values of a record are plain when each of [_key], [id] and
    [typeID] is missing, null or a true value (not 0, not [False], not
    empty). *)
Definition plain_ids (fields : list (pystr * json)) : Prop :=
  Forall (fun k =>
            default JNull (dict_get k fields) = JNull
            \/ truthy (default JNull (dict_get k fields)) = true)
         [lit "_key"; lit "id"; lit "typeID"].

Definition is_null (v : json) : bool :=
  match v with
  | JNull => true
  | _ => false
  end.

(** The id of a record: the value of the first of [_key], [id] and
    [typeID] the record has, a null counting as missing; null when it
    has none of them. *)
Definition resolved_id (fields : list (pystr * json)) : json :=
  let value k := default JNull (dict_get k fields) in
  match List.find (fun k => negb (is_null (value k)))
          [lit "_key"; lit "id"; lit "typeID"] with
  | Some k => value k
  | None => JNull
  end.

(** The text of an id; a record without id has the empty text. *)
Definition id_text `{Runtime} (v : json) : pystr :=
  match v with
  | JNull => []
  | _ => str v
  end.

(** The concatenation of the localized names of a record, in lower
    case; defined for a record whose two names are strings. *)
Definition name_text `{Runtime} (data : json) : option pystr :=
  name_data ← get data (lit "name") (JObj []);
  SearchGui.full_text (SearchGui.names name_data).1 (SearchGui.names name_data).2.

(** A token matches a text as a substring or, failing that, as a
    subsequence. *)
Definition token_matches (ft kw : pystr) : Prop :=
  Substring kw ft \/ kw `sublist_of` ft.


(** The entry of the change log for a removed id: the id, the table,
    the status and the placeholder names "(Item Removed)" and
    "(条目已删除)". *)
Definition placeholder (table rid : json) : json :=
  JObj
    [(lit "_key", rid);
     (lit "_source_table", table);
     (lit "_status", JStr (lit "removed"));
     (lit "name",
      JObj [(lit "en", JStr (lit "(Item Removed)"));
            (lit "zh", JStr [40; 26465; 30446; 24050; 21024; 38500; 41])])].

End Spec.

(** ** Sample data

    An interpreter for the examples: [json.dumps] for strings that need
    no escape, [json.loads] on the sample lines, [str.lower] for texts
    whose cased letters are ASCII, sets iterated in insertion order,
    directories listed in the order of their names.  The samples never
    take the text of a list, of a dict or of a float. *)

Module Demo.
Import Py.

Fixpoint to_text (v : json) : pystr :=
  match v with
  | JNull => lit "null"
  | JBool true => lit "true"
  | JBool false => lit "false"
  | JNum z => str_of_Z z
  | JFloat _ => lit "NaN"
  | JStr s => [34] ++ s ++ [34]
  | JArr l =>
      lit "["
      ++ (fix items (l : list json) : pystr :=
            match l with
            | [] => []
            | x :: l' =>
                match l' with
                | [] => to_text x
                | _ => to_text x ++ lit ", " ++ items l'
                end
            end) l
      ++ lit "]"
  | JObj kv =>
      lit "{"
      ++ (fix fields (kv : list (pystr * json)) : pystr :=
            match kv with
            | [] => []
            | (k, x) :: kv' =>
                match kv' with
                | [] => [34] ++ k ++ [34] ++ lit ": " ++ to_text x
                | _ => [34] ++ k ++ [34] ++ lit ": " ++ to_text x ++ lit ", " ++ fields kv'
                end
            end) kv
      ++ lit "}"
  end.

(** A record of the types table. *)
Definition item (key : json) (name : json) : json :=
  JObj [(lit "_key", key); (lit "name", name)].

Definition tritanium (key : json) : json :=
  item key (JObj [(lit "en", JStr (lit "Tritanium"))]).

(** "高级辟邪" and "高辟邪" *)
Definition gao_ji_bi_xie : pystr := [39640; 32423; 36767; 37034].
Definition gao_bi_xie : pystr := [39640; 36767; 37034].

(** A record without [_key], [id] and [typeID]. *)
Definition nameless_id : json := JObj [(lit "name", JStr (lit "Tritanium"))].

(** A record whose English name is a dict. *)
Definition nested_name : json :=
  item (JNum 7) (JObj [(lit "en", JObj [(lit "text", JStr (lit "Tritanium"))])]).

(** Lines of the change manifest. *)
Definition manifest_entry : json :=
  JObj [(lit "_key", JStr (lit "types"));
        (lit "added", JArr [JNum 1; JNum 2]);
        (lit "changed", JArr [JNum 3]);
        (lit "removed", JArr [JNum 4])].

Definition manifest_new_table : json :=
  JObj [(lit "_key", JStr (lit "types")); (lit "fileAdded", JBool true)].

Definition records : list json :=
  [tritanium (JStr (lit "34")); tritanium (JStr (lit "35"));
   tritanium (JNum 1); tritanium (JNum 2); tritanium (JNum 3); tritanium (JNum 5);
   nameless_id; nested_name; item (JNum 9) (JStr gao_ji_bi_xie);
   manifest_entry; manifest_new_table].

Definition sample_lines : list (pystr * json) :=
  map (fun r => (to_text r, r)) records.

#[local] Ltac not_space :=
  unfold is_space; repeat (apply orb_false_intro);
  try (apply N.eqb_neq; lia);
  apply andb_false_iff;
  first [ right; apply N.leb_gt; lia | left; apply N.leb_gt; lia ].

#[local] Instance runtime : Runtime.
Proof.
  refine {| loads := fun s => dict_get s sample_lines;
            dumps := to_text;
            repr := to_text;
            lower := ascii_lower;
            lower_spaces := _;
            lower_no_upper := _;
            lower_at_whitespace := _;
            set_order := distinct |}.
  - intros s. unfold spaces, ascii_lower. rewrite Forall_map.
    apply Forall_iff. intros c.
    assert (is_space (lower_cp c) = is_space c) as ->; [| done].
    unfold lower_cp. destruct ((65 <=? c) && (c <=? 90)) eqn:Hc; [| done].
    apply andb_true_iff in Hc as [H1%N.leb_le H2%N.leb_le].
    transitivity false; [| symmetry]; not_space.
  - intros s. unfold no_upper, ascii_lower. rewrite map_map.
    apply map_ext. intros c. unfold lower_cp.
    destruct ((65 <=? c) && (c <=? 90)) eqn:Hc; [| by rewrite Hc].
    apply andb_true_iff in Hc as [H1%N.leb_le H2%N.leb_le].
    destruct (N.leb_spec 65 (c + 32)), (N.leb_spec (c + 32) 90); simpl; lia.
  - intros a c b Hc. unfold ascii_lower. rewrite map_app. cbn [map].
    do 2 f_equal. unfold lower_cp.
    destruct ((65 <=? c) && (c <=? 90)) eqn:Hup; [| done].
    apply andb_true_iff in Hup as [H1%N.leb_le H2%N.leb_le].
    assert (is_space c = false) as Hno by not_space. congruence.
Defined.

(** A process that iterates every set in insertion order. *)
#[local] Instance process : Process := {|
  set_iter := distinct;
  set_iter_distinct := fun l => Permutation_refl (distinct l);
  set_iter_unseeded := fun l _ => eq_refl
|}.

#[local] Instance platform : Os.Platform.
Proof.
  refine {| Os.listdir := map_to_list;
            Os.listdir_Permutation := fun d => Permutation_refl _;
            Os.creatable :=
              forallb (fun c => negb (c =? 47) && negb (c =? 0));
            Os.creatable_flat := _ |}.
  intros name Hname. rewrite forallb_forall in Hname.
  split; intros Hin%list_elem_of_In; apply Hname in Hin; done.
Defined.

(** The types table as a file. *)
Definition types_file (keys : list json) : list pystr :=
  map (fun k => to_text (tritanium k)) keys.

(** A snapshot whose types table holds the records 1, 2, 3 and 5. *)
Definition updated_snapshot : gmap (list N) (list (list N)) :=
  {[ lit "types.jsonl" := types_file [JNum 1; JNum 2; JNum 3; JNum 5] ]}.

(** A snapshot whose types table holds the records 1 and 2. *)
Definition new_table_snapshot : gmap (list N) (list (list N)) :=
  {[ lit "types.jsonl" := types_file [JNum 1; JNum 2] ]}.

(** The fields of a Tritanium record. *)
Definition tritanium_fields (key : json) : list (list N * json) :=
  [(lit "_key", key); (lit "name", JObj [(lit "en", JStr (lit "Tritanium"))])].

(** A snapshot with the two Tritanium records of the specification, and
    the index built from it. *)
Definition snapshot : gmap (list N) (list (list N)) :=
  {[ lit "types.jsonl" := types_file [JStr (lit "34"); JStr (lit "35")] ]}.

Definition index : list EveDB.row := (EveDB.build_index snapshot []).2.

(** The row of Tritanium with id 34. *)
Definition row_34 : EveDB.row :=
  {| EveDB.id := lit "34";
     EveDB.source_file := lit "types.jsonl";
     EveDB.name_zh := Sqlite.Text [];
     EveDB.name_en := Sqlite.Text (lit "Tritanium");
     EveDB.search_text := lit "34  tritanium";
     EveDB.json_data := to_text (tritanium (JStr (lit "34"))) |}.

Definition row_35 : EveDB.row :=
  {| EveDB.id := lit "35";
     EveDB.source_file := lit "types.jsonl";
     EveDB.name_zh := Sqlite.Text [];
     EveDB.name_en := Sqlite.Text (lit "Tritanium");
     EveDB.search_text := lit "35  tritanium";
     EveDB.json_data := to_text (tritanium (JStr (lit "35"))) |}.

(** The row of the record without id. *)
Definition row_nameless_id : EveDB.row :=
  {| EveDB.id := [];
     EveDB.source_file := lit "types.jsonl";
     EveDB.name_zh := Sqlite.Text (lit "Tritanium");
     EveDB.name_en := Sqlite.Text (lit "Tritanium");
     EveDB.search_text := lit " tritanium tritanium";
     EveDB.json_data := to_text nameless_id |}.

(** A snapshot whose second record cannot be stored. *)
Definition bad_snapshot : gmap (list N) (list (list N)) :=
  {[ lit "types.jsonl" := [to_text (tritanium (JStr (lit "34"))); to_text nested_name] ]}.

(** An index in which 1001 rows match "tritanium". *)
Definition large_index : list EveDB.row := replicate 1001 row_34.

End Demo.

(** ** [src/gui/main_window.py]: the windows

    Of the windows only what they compute from the data is modelled:
    the keyword a search is started with, the path lookup of the detail
    window, the items of the update history and the cells the change
    log viewer fills. *)

Module EveSearchApp.
Import Py.

(** [start_search]: the text of the input field is stripped; an empty
    keyword gives a warning and no search ([None]), any other is the
    keyword the [SearchWorker] is started with. *)
Definition start_search (text : pystr) : option pystr :=
  let keyword := strip text in
  match keyword with
  | [] => None
  | _ => Some keyword
  end.

End EveSearchApp.

Module DetailWindow.
Import Py.

(** [s.split(sep)] for a one-character separator: the pieces between
    the separators, empty ones included. *)
Fixpoint split_sep (sep : codepoint) (cur : pystr) (s : pystr) : list pystr :=
  match s with
  | [] => [rev cur]
  | c :: s' =>
      if c =? sep
      then rev cur :: split_sep sep [] s'
      else split_sep sep (c :: cur) s'
  end.

(** The loop of [get_value] over the keys; [None] is [JNull]. *)
Fixpoint walk (curr : json) (keys : list pystr) : json :=
  match keys with
  | [] => curr
  | k :: rest =>
      match curr with
      | JObj fields =>
          match dict_get k fields with
          | Some v => walk v rest
          | None => JNull
          end
      | _ => JNull
      end
  end.

(** [get_value(data, path)] *)
Definition get_value (data : json) (path : pystr) : json :=
  walk data (split_sep 46 [] path).

End DetailWindow.

Module ChangeLogViewer.
Import Py.

(** The cells of one row: status, source table, id and name. *)
Record cells : Type := {
  status : json;
  source : json;
  item_id : pystr;
  name : json
}.

(** "新增", "删除", "修改" *)
Definition translate_status (status : json) : json :=
  if py_eqb status (JStr (lit "added")) then JStr [26032; 22686]
  else if py_eqb status (JStr (lit "removed")) then JStr [21024; 38500]
  else if py_eqb status (JStr (lit "changed")) then JStr [20462; 25913]
  else status.

Section WithRuntime.
Context `{Runtime}.

(** Body of the [try] of [load_data] up to [insertRow]: the values read
    from one line of a change log. *)
Definition load_line (line : pystr) : option cells :=
  data ← loads line;
  source ← get data (lit "_source_table") (JStr (lit "Unknown"));
  k ← get data (lit "_key") JNull;
  i ← get data (lit "id") JNull;
  let item_id := str (py_or (py_or k i) (JStr (lit "N/A"))) in
  status ← get data (lit "_status") (JStr (lit "changed"));
  name_data ← get data (lit "name") JNull;
  let name :=
    match name_data with
    | JObj fields =>
        py_or (py_or (default JNull (dict_get (lit "zh") fields))
                     (default JNull (dict_get (lit "en") fields)))
              (JStr (str name_data))
    | JStr s => JStr s
    | _ => JStr []
    end in
  Some {| status := status; source := source; item_id := item_id; name := name |}.

End WithRuntime.
End ChangeLogViewer.

Module UpdateHistoryWindow.
Import Py Os World.

(** [a <= b] on strings, the order [list.sort] uses: code point by code
    point, a prefix first. *)
Fixpoint str_leb (a b : pystr) : bool :=
  match a, b with
  | [], _ => true
  | _ :: _, [] => false
  | c :: a', d :: b' => (c <? d) || ((c =? d) && str_leb a' b')
  end.

(** [a >= b] *)
Definition str_ge (a b : pystr) : Prop := str_leb b a = true.

#[export] Instance str_ge_dec : RelDecision str_ge :=
  fun a b => decide (str_leb b a = true).

(** [files.sort(reverse=True)] *)
Definition sort_reverse (files : list pystr) : list pystr :=
  merge_sort str_ge files.

(** [refresh_logs]: the items of the list.  [update_dir] is [None] when
    the directory does not exist; the list then holds the one item
    "暂无更新记录". *)
Definition refresh_logs `{Platform} (update_dir : option directory) : list pystr :=
  match update_dir with
  | None => [[26242; 26080; 26356; 26032; 35760; 24405]]
  | Some dir =>
      sort_reverse
        (filter (fun f => endswith (lit ".jsonl") f = true) (map fst (listdir dir)))
  end.

(** [open_log]: the name of the file the viewer is opened on, if it is
    opened. *)
Definition open_log (item : pystr) : option pystr :=
  if endswith (lit ".jsonl") item then Some item else None.

End UpdateHistoryWindow.

(** ** [src/core/eve_search.py]: search on the command line *)

Module EveSearch.
Import Py Os World.

(** What one line does to the scan of its file: nothing, one more
    result [(item_id, name_zh, name_en)], or an exception other than a
    JSON decoding error, which ends the scan. *)
Inductive outcome : Type :=
| skip
| hit (item_id name_zh name_en : json)
| stop.

Definition names (name_data : json) : json * json :=
  match name_data with
  | JObj fields =>
      (default (JStr []) (dict_get (lit "en") fields),
       default (JStr []) (dict_get (lit "zh") fields))
  | JStr s => (JStr s, JStr s)
  | _ => (JStr [], JStr [])
  end.

Section WithRuntime.
Context `{Runtime}.

(** Body of the loop of [search_in_file]. *)
Definition line_outcome (keyword_lower line : pystr) : outcome :=
  match loads line with
  | None => skip
  | Some data =>
      match data with
      | JObj fields =>
          let item_id :=
            py_or (py_or (default JNull (dict_get (lit "_key") fields))
                         (default JNull (dict_get (lit "id") fields)))
                  (default JNull (dict_get (lit "typeID") fields)) in
          let '(name_en, name_zh) :=
            names (default (JObj []) (dict_get (lit "name") fields)) in
          if negb (truthy name_en) && negb (truthy name_zh) then skip
          else
            match name_en with
            | JStr en =>
                if contains keyword_lower (lower en)
                then hit item_id name_zh name_en
                else
                  match name_zh with
                  | JStr zh =>
                      if contains keyword_lower (lower zh)
                      then hit item_id name_zh name_en
                      else skip
                  | _ => stop
                  end
            | _ => stop
            end
      | _ => stop
      end
  end.

(** The loop over the lines; the results collected when an exception
    ends it are returned. *)
Fixpoint scan (keyword_lower : pystr) (lines : list pystr) : list outcome :=
  match lines with
  | [] => []
  | line :: rest =>
      match line_outcome keyword_lower line with
      | skip => scan keyword_lower rest
      | stop => []
      | h => h :: scan keyword_lower rest
      end
  end.

(** [search_in_file(keyword, file_name)]; a file that cannot be opened
    gives no result. *)
Definition search_in_file (sde_dir : directory) (keyword file_name : pystr)
  : list outcome :=
  match sde_dir !! file_name with
  | Some lines => scan (lower keyword) lines
  | None => []
  end.

End WithRuntime.
End EveSearch.

(** ** [eve_search_gui.py]: the first [UpdateWorker.get_SDE_update] *)

Module SearchGuiUpdate.
Import Py Os World.

(** [len(v)]: [TypeError] for a number, a boolean and [None]. *)
Definition len (v : json) : option nat :=
  match v with
  | JStr s => Some (length s)
  | JArr l => Some (length l)
  | JObj fields => Some (length fields)
  | _ => None
  end.

Section WithRuntime.
Context `{Runtime}.

(** Body of the inner [try]: a record whose [_key] is listed is written
    with its source table. *)
Definition record_lines (key : json) (changed_set : list json) (f_line : pystr)
  : list pystr :=
  match
    (data ← loads f_line;
     item_id ← get data (lit "_key") JNull;
     listed ← set_in item_id changed_set;
     Some (data, listed))
  with
  | Some (JObj fields, true) =>
      [dumps (JObj (dict_set (lit "_source_table") key fields))]
  | _ => []
  end.

(** Body of the outer [try]. *)
Definition entry_lines (sde : directory) (line : pystr) : option (list pystr) :=
  line_data ← loads line;
  key ← get line_data (lit "_key") JNull;
  if py_eqb key (JStr (lit "_meta")) then Some []
  else
    changeds ← get line_data (lit "changed") (JArr []);
    if negb (truthy changeds) then Some []
    else
      _ ← len changeds;
      match sde !! (str key ++ lit ".jsonl") with
      | None => Some []
      | Some f =>
          changed_set ← set changeds;
          Some (flat_map (record_lines key changed_set) f)
      end.

(** The loop over [response.iter_lines()]. *)
Definition change_log (sde : directory) (response : list pystr) : list pystr :=
  flat_map
    (fun line =>
       match line with
       | [] => []
       | _ => default [] (entry_lines sde line)
       end)
    response.

End WithRuntime.
End SearchGuiUpdate.

(** ** What a rebuild stores

    The rows of a snapshot, read line by line without the batches of
    [build_index]; the properties compare [build_index] with them. *)

Module IndexSpec.
Import Py Os.

(** The parameters can be bound: [INSERT] stores the row. *)
Definition binds (p : EveDB.params) : bool :=
  bool_decide (is_Some (EveDB.insert p)).

Section WithRuntime.
Context `{Runtime} `{Platform}.

(** The row a line of [file_name] gives, when it gives one. *)
Definition line_row (file_name line : pystr) : option EveDB.row :=
  EveDB.index_line file_name line ≫= EveDB.insert.

(** The line is passed over, or its row can be stored. *)
Definition storable (file_name line : pystr) : bool :=
  match EveDB.index_line file_name line with
  | Some p => binds p
  | None => true
  end.

(** The files [build_index] reads. *)
Definition jsonl_files (sde_dir : gmap pystr (list pystr))
  : list (pystr * list pystr) :=
  filter (fun f => endswith (lit ".jsonl") f.1 = true) (listdir sde_dir).

Definition rows_of_files (files : list (pystr * list pystr)) : list EveDB.row :=
  flat_map (fun f => omap (line_row f.1) f.2) files.

Definition all_storable (files : list (pystr * list pystr)) : bool :=
  forallb (fun f => forallb (storable f.1) f.2) files.

End WithRuntime.
End IndexSpec.

(** ** The lines of a change log *)

Module ChangeLogSpec.
Import Py.

(** The two shapes of a line the updaters write for the manifest entry
    of [key]: the placeholder of a removed id, and a record of the
    table tagged as added or changed. *)
Definition written `{Runtime} (key : json) (l : pystr) : Prop :=
  (exists rid, l = dumps (removed_record key rid))
  \/ (exists st fields,
        (st = lit "added" \/ st = lit "changed") /\ l = dumps (tagged key st fields)).

End ChangeLogSpec.

(** ** More sample data: an interpreter that also reads the lines the
    updaters write. *)

Module Demo2.
Import Py.

(** Lines of a change log. *)
Definition added_1 : json :=
  tagged (JStr (lit "types")) (lit "added") (Demo.tritanium_fields (JNum 1)).

Definition removed_4 : json := removed_record (JStr (lit "types")) (JNum 4).

Definition old_changed_3 : json :=
  JObj (dict_set (lit "_source_table") (JStr (lit "types"))
          (Demo.tritanium_fields (JNum 3))).

(** A manifest entry that lists removed ids only, one of them twice. *)
Definition manifest_removed : json :=
  JObj [(lit "_key", JStr (lit "types"));
        (lit "removed", JArr [JNum 4; JNum 6; JNum 4])].

(** A manifest entry with changed ids only. *)
Definition manifest_changed : json :=
  JObj [(lit "_key", JStr (lit "types")); (lit "changed", JArr [JNum 3])].

(** The publisher's [latest.jsonl] and the first line of a local
    [_sde.jsonl] of an older build. *)
Definition latest_info : json :=
  JObj [(lit "_key", JStr (lit "sde")); (lit "buildNumber", JNum 100);
        (lit "releaseDate", JStr (lit "2026-01-01T00:00:00Z"))].

Definition local_info : json :=
  JObj [(lit "_key", JStr (lit "sde")); (lit "buildNumber", JNum 99)].

(** A manifest entry whose removed ids are strings. *)
Definition manifest_removed_strings : json :=
  JObj [(lit "_key", JStr (lit "types"));
        (lit "removed", JArr [JStr (lit "a"); JStr (lit "b")])].

(** A record whose name holds a null character, "a", U+0000, "b", and
    its line, in which the character is escaped. *)
Definition nul_name : json := Demo.item (JNum 7) (JStr [97; 0; 98]).

Definition nul_line : pystr :=
  lit "{" ++ [34] ++ lit "_key" ++ [34] ++ lit ": 7, " ++ [34] ++ lit "name" ++ [34]
    ++ lit ": " ++ [34] ++ lit "a\u0000b" ++ [34] ++ lit "}".

Definition records : list json :=
  Demo.records ++ [added_1; removed_4; old_changed_3; manifest_removed;
                   manifest_changed; JArr [JNum 1]; latest_info; local_info;
                   manifest_removed_strings].

Definition sample_lines : list (pystr * json) :=
  map (fun r => (Demo.to_text r, r)) records ++ [(nul_line, nul_name)].

#[local] Instance runtime : Runtime := {|
  loads := fun s => dict_get s sample_lines;
  dumps := Demo.to_text;
  repr := Demo.to_text;
  lower := ascii_lower;
  lower_spaces := @lower_spaces Demo.runtime;
  lower_no_upper := @lower_no_upper Demo.runtime;
  lower_at_whitespace := @lower_at_whitespace Demo.runtime;
  set_order := distinct
|}.

(** Two processes of this interpreter: the second iterates the sets
    that hold a string the other way round. *)
#[local] Instance process : Process := {|
  set_iter := distinct;
  set_iter_distinct := fun l => Permutation_refl (distinct l);
  set_iter_unseeded := fun l _ => eq_refl
|}.

Definition other_process : Process.
Proof.
  refine {| set_iter := fun l => if forallb unseeded l then distinct l
                                 else rev (distinct l);
            set_iter_distinct := _;
            set_iter_unseeded := _ |}.
  - intros l. destruct (forallb unseeded l); [done|].
    symmetry. apply Permutation_rev.
  - intros l Hl. by rewrite Hl.
Defined.

#[local] Instance platform : Os.Platform := Demo.platform.

(** A publisher at build 100 and a disk at build 99 with a table the
    publisher no longer has. *)
Definition publisher : World.upstream :=
  {| World.latest_jsonl := Demo.to_text latest_info;
     World.archive :=
       {[ lit "_sde.jsonl" := [Demo.to_text latest_info];
          lit "types.jsonl" := Demo.types_file [JNum 1; JNum 2] ]};
     World.changes_jsonl := fun _ => [Demo.to_text Demo.manifest_entry] |}.

Definition old_snapshot : gmap (list N) (list (list N)) :=
  {[ lit "_sde.jsonl" := [Demo.to_text local_info];
     lit "dropped.jsonl" := Demo.types_file [JNum 5] ]}.

Definition local_disk : World.disk :=
  {| World.eve_sde_jsonl := Some old_snapshot; World.eve_sde_update := ∅ |}.

(** A publisher whose manifest lists two removed ids that are strings. *)
Definition publisher_of_strings : World.upstream :=
  {| World.latest_jsonl := Demo.to_text latest_info;
     World.archive := World.archive publisher;
     World.changes_jsonl := fun _ => [Demo.to_text manifest_removed_strings] |}.

(** A snapshot with the record whose name holds a null character, and
    the index built from it. *)
Definition nul_snapshot : gmap (list N) (list (list N)) :=
  {[ lit "types.jsonl" := [nul_line] ]}.

Definition nul_index : list EveDB.row := (EveDB.build_index nul_snapshot []).2.

End Demo2.


(** * Properties *)

(** ** Strings *)

Section Strings.
Import Py.

Lemma startswith_spec p s : startswith p s = true <-> exists b, s = p ++ b.
Proof.
  revert s. induction p as [|c p IH]; intros s; simpl.
  - split; [intros _; by exists s | done].
  - destruct s as [|d s]; simpl.
    + split; [done | intros [b Hb]; discriminate].
    + rewrite andb_true_iff, N.eqb_eq, IH. split.
      * intros [-> [b ->]]. by exists b.
      * intros [b Hb]. injection Hb as -> ->. split; [done | by exists b].
Qed.

Lemma contains_spec p s : contains p s = true <-> Substring p s.
Proof.
  unfold Substring. induction s as [|d s IH].
  - simpl. rewrite orb_false_r, startswith_spec. split.
    + intros [b Hb]. by exists [], b.
    + intros (a & b & Hab). destruct a; [by exists b |]. discriminate.
  - cbn [contains]. rewrite orb_true_iff, startswith_spec, IH. split.
    + intros [[b Hb] | (a & b & ->)].
      * by exists [], b.
      * by exists (d :: a), b.
    + intros (a & b & Hab). destruct a as [|d' a].
      * left. by exists b.
      * right. injection Hab as -> ->. by exists a, b.
Qed.

Lemma iter_contains_found c it rest :
  iter_contains c it = (true, rest) -> exists skipped, it = skipped ++ c :: rest.
Proof.
  induction it as [|d it IH]; simpl; [done |].
  destruct (N.eqb_spec c d) as [-> | _].
  - intros [= ->]. by exists [].
  - intros [skipped ->]%IH. by exists (d :: skipped).
Qed.

Lemma iter_contains_sublist c kw it :
  c :: kw `sublist_of` it ->
  exists rest, iter_contains c it = (true, rest) /\ kw `sublist_of` rest.
Proof.
  induction it as [|d it IH]; intros Hsub.
  - by apply sublist_nil_r in Hsub.
  - simpl. destruct (N.eqb_spec c d) as [-> | Hne].
    + exists it. split; [done |].
      apply sublist_cons_r in Hsub as [Hsub | (l' & [= ->] & Hsub)]; [| done].
      by apply sublist_cons_l in Hsub as (k1 & k2 & -> & ?%(sublist_inserts_l (k1 ++ [d])));
        rewrite <- (assoc_L (++)) in *.
    + apply sublist_cons_r in Hsub as [Hsub | (l' & [= -> ->] & _)]; [auto | done].
Qed.

(** The test over the iterator decides the subsequence relation. *)
Lemma all_in_iterator_spec kw it :
  all_in_iterator kw it = true <-> kw `sublist_of` it.
Proof.
  revert it. induction kw as [|c kw IH]; intros it; simpl.
  - split; [intros _; apply sublist_nil_l | done].
  - destruct (iter_contains c it) as [found rest] eqn:Hit. split.
    + destruct found; [| done]. intros Hall%IH.
      apply iter_contains_found in Hit as [skipped ->].
      by apply sublist_inserts_l, sublist_skip.
    + intros (rest' & Hit' & Hsub)%iter_contains_sublist.
      rewrite Hit in Hit'. injection Hit' as -> ->. by apply IH.
Qed.

Lemma Substring_sublist p s : Substring p s -> p `sublist_of` s.
Proof.
  intros (a & b & ->). by apply sublist_inserts_l, sublist_inserts_r.
Qed.

Lemma ascii_lower_app a b : ascii_lower (a ++ b) = ascii_lower a ++ ascii_lower b.
Proof. apply map_app. Qed.

Lemma lower_cp_idemp c : lower_cp (lower_cp c) = lower_cp c.
Proof.
  unfold lower_cp.
  destruct ((65 <=? c) && (c <=? 90)) eqn:Hc; [| by rewrite Hc].
  apply andb_true_iff in Hc as [H1%N.leb_le H2%N.leb_le].
  destruct (N.leb_spec 65 (c + 32)), (N.leb_spec (c + 32) 90); simpl; lia.
Qed.

Lemma ascii_lower_idemp s : ascii_lower (ascii_lower s) = ascii_lower s.
Proof.
  unfold ascii_lower. rewrite map_map. apply map_ext. intros. apply lower_cp_idemp.
Qed.

Lemma is_space_false_above c : 33 <= c -> c <= 132 -> is_space c = false.
Proof.
  intros H1 H2. unfold is_space.
  repeat (apply orb_false_intro);
    try (apply N.eqb_neq; lia);
    apply andb_false_iff; first [ right; apply N.leb_gt; lia | left; apply N.leb_gt; lia ].
Qed.

Lemma is_space_lower_cp c : is_space (lower_cp c) = is_space c.
Proof.
  unfold lower_cp.
  destruct ((65 <=? c) && (c <=? 90)) eqn:Hc; [| done].
  apply andb_true_iff in Hc as [H1%N.leb_le H2%N.leb_le].
  rewrite !is_space_false_above; lia.
Qed.

Lemma spaces_ascii_lower s : spaces (ascii_lower s) <-> spaces s.
Proof.
  unfold spaces, ascii_lower. rewrite Forall_map.
  apply Forall_iff. intros c. by rewrite is_space_lower_cp.
Qed.

(** What [lstrip] removes is white space. *)
Lemma lstrip_decompose s : exists ws, s = ws ++ lstrip s /\ spaces ws.
Proof.
  induction s as [|c s (ws & Hs & Hws)]; simpl.
  - exists []. split; [done | constructor].
  - destruct (is_space c) eqn:Hc.
    + exists (c :: ws). split; [by rewrite Hs at 1 | by constructor].
    + exists []. split; [done | constructor].
Qed.

Lemma rstrip_decompose s : exists ws, s = rstrip s ++ ws /\ spaces ws.
Proof.
  unfold rstrip. destruct (lstrip_decompose (rev s)) as (ws & Hs & Hws).
  exists (rev ws). split.
  - rewrite <- rev_app_distr, <- Hs. by rewrite rev_involutive.
  - by apply Forall_rev.
Qed.

Lemma split_from_spaces cur ws :
  spaces ws ->
  split_from cur ws = match cur with [] => [] | _ => [rev cur] end.
Proof.
  intros Hws. revert cur. induction Hws as [|c ws Hc _ IH]; intros cur; [done |].
  simpl. rewrite Hc. destruct cur; [apply IH | by rewrite IH].
Qed.

Lemma split_from_app_spaces cur s ws :
  spaces ws -> split_from cur (s ++ ws) = split_from cur s.
Proof.
  intros Hws. revert cur. induction s as [|c s IH]; intros cur; simpl.
  - by apply split_from_spaces.
  - destruct (is_space c); [destruct cur |]; by rewrite ?IH.
Qed.

Lemma split_spaces_app ws s : spaces ws -> split (ws ++ s) = split s.
Proof.
  unfold split. induction 1 as [|c ws Hc _ IH]; [done |].
  simpl. by rewrite Hc.
Qed.

(** [s.strip().split()] is [s.split()]. *)
Lemma split_strip s : split (strip s) = split s.
Proof.
  unfold strip.
  destruct (lstrip_decompose s) as (ws & Hs & Hws).
  destruct (rstrip_decompose (lstrip s)) as (ws' & Hs' & Hws').
  rewrite Hs at 2. rewrite split_spaces_app by done.
  rewrite Hs' at 2. unfold split. by rewrite split_from_app_spaces.
Qed.



Lemma split_from_nil cur s : split_from cur s = [] <-> cur = [] /\ spaces s.
Proof.
  revert cur. induction s as [|c s IH]; intros cur; simpl.
  - destruct cur; split; try done; [by split; [| constructor] | by intros [? _]].
  - destruct (is_space c) eqn:Hc.
    + destruct cur.
      * rewrite IH. split; intros [? Hs]; split; try done; [by constructor | by inversion Hs].
      * split; [done | by intros [? _]].
    + rewrite IH. split; [by intros [? _] |].
      intros [_ Hs]. inversion Hs; congruence.
Qed.

(** [s.split()] is empty exactly when [s] is empty or white space. *)
Lemma split_nil s : split s = [] <-> spaces s.
Proof.
  unfold split. rewrite split_from_nil. split; [by intros [_ ?] | by intros ?].
Qed.



Lemma lstrip_spaces s : spaces s -> lstrip s = [].
Proof.
  induction 1 as [|c s Hc _ IH]; [done|]. cbn. by rewrite Hc.
Qed.

Lemma strip_decompose s :
  exists a b, s = a ++ strip s ++ b /\ spaces a /\ spaces b.
Proof.
  destruct (lstrip_decompose s) as (a & Hs & Ha).
  destruct (rstrip_decompose (lstrip s)) as (b & Hl & Hb).
  exists a, b. split; [| done]. unfold strip. by rewrite <- Hl.
Qed.

Lemma strip_nil s : strip s = [] <-> spaces s.
Proof.
  split.
  - intros Hnil. destruct (strip_decompose s) as (a & b & Hs & Ha & Hb).
    rewrite Hs, Hnil. by apply Forall_app.
  - intros Hs. unfold strip. by rewrite (lstrip_spaces s Hs).
Qed.

(** The tokens of [s.split()] are blocks of [s]. *)
Lemma split_from_Substring cur s :
  Forall (fun tok => Substring tok (rev cur ++ s)) (split_from cur s).
Proof.
  revert cur. induction s as [|c s IH]; intros cur; cbn [split_from].
  - destruct cur as [|d cur]; [done|]. apply Forall_singleton.
    exists [], []. by rewrite app_nil_r.
  - destruct (is_space c).
    + assert (Forall (fun tok => Substring tok (rev cur ++ c :: s)) (split_from [] s))
        as Hrest.
      { eapply Forall_impl; [apply (IH [])|]. intros tok (a & b & Hab).
        cbn in Hab. exists (rev cur ++ c :: a), b. rewrite Hab.
        by rewrite <- app_assoc. }
      destruct cur as [|d cur]; [done|]. apply Forall_cons. split; [| done].
      by exists [], (c :: s).
    + eapply Forall_impl; [apply (IH (c :: cur))|]. intros tok Htok.
      cbn [rev] in Htok. by rewrite <- app_assoc in Htok.
Qed.

Lemma split_Substring s : Forall (fun tok => Substring tok s) (split s).
Proof. apply (split_from_Substring [] s). Qed.

Lemma Substring_trans a b c : Substring a b -> Substring b c -> Substring a c.
Proof.
  intros (x & y & ->) (u & v & ->). exists (u ++ x), (y ++ v).
  by rewrite <- !app_assoc.
Qed.

End Strings.

(** [str.lower] of the interpreter *)

Section Lower.
Import Py.
Context `{Runtime}.

Lemma lower_at_space a b : lower (a ++ 32 :: b) = lower a ++ 32 :: lower b.
Proof. by apply lower_at_whitespace. Qed.

(** White space after and before a text does not change the tokens of
    its lower case. *)
Lemma split_lower_app_spaces s b :
  spaces b -> split (lower (s ++ b)) = split (lower s).
Proof.
  intros Hb. destruct Hb as [|c b Hc Hb]; [by rewrite app_nil_r |].
  rewrite lower_at_whitespace by done. unfold split.
  apply split_from_app_spaces. apply Forall_cons. split; [done |].
  by apply lower_spaces.
Qed.

Lemma split_lower_spaces_app a s :
  spaces a -> split (lower (a ++ s)) = split (lower s).
Proof.
  intros Ha. induction Ha as [|c a Hc _ IH]; [reflexivity |].
  transitivity (split ((lower [] ++ [c]) ++ lower (a ++ s))).
  - f_equal. rewrite <- (assoc_L (++)). apply (lower_at_whitespace [] c (a ++ s) Hc).
  - rewrite split_spaces_app; [done |].
    apply Forall_app. split; [| by apply Forall_singleton].
    apply (lower_spaces []). constructor.
Qed.

Lemma split_lower_strip text : split (lower (strip text)) = split (lower text).
Proof.
  destruct (strip_decompose text) as (a & b & Hs & Ha & Hb).
  rewrite Hs at 2. rewrite split_lower_spaces_app by done.
  by rewrite split_lower_app_spaces.
Qed.

End Lower.

(** ** The [LIKE] operator *)

Section Like.
Import Py Sqlite.

Lemma nocase_eqb_refl c : nocase_eqb c c = true.
Proof. apply N.eqb_refl. Qed.

Lemma compare_percent p t :
  patternCompare (percent :: p) t = true <-> exists a b, t = a ++ b /\ patternCompare p b = true.
Proof.
  cbn [patternCompare]. rewrite N.eqb_refl.
  induction t as [|d t IH].
  - rewrite orb_false_r. split.
    + intros Hp. by exists [], [].
    + intros (a & b & Hab & Hp). by destruct a, b.
  - rewrite orb_true_iff, IH. split.
    + intros [Hp | (a & b & -> & Hp)]; [by exists [], (d :: t) | by exists (d :: a), b].
    + intros (a & b & Hab & Hp). destruct a as [|x a]; simpl in Hab.
      * left. by rewrite Hab.
      * right. injection Hab as _ ->. by exists a, b.
Qed.

(** A pattern that ends in [%] matches the texts of which it matches a
    prefix. *)
Lemma compare_app_percent p t :
  patternCompare (p ++ [percent]) t = true <-> exists m b, t = m ++ b /\ patternCompare p m = true.
Proof.
  revert t. induction p as [|c p IH]; intros t.
  - simpl app. rewrite compare_percent. split.
    + intros _. by exists [], t.
    + intros _. exists t, []. by rewrite app_nil_r.
  - destruct (N.eqb_spec c percent) as [-> | Hc].
    + change ((percent :: p) ++ [percent]) with (percent :: (p ++ [percent])).
      rewrite compare_percent. split.
      * intros (a & b & -> & (m & b' & -> & Hm)%IH).
        exists (a ++ m), b'. split; [by rewrite (assoc_L (++)) |].
        apply compare_percent. by exists a, m.
      * intros (m & b & -> & (a & m' & -> & Hm)%compare_percent).
        exists a, (m' ++ b). split; [by rewrite (assoc_L (++)) |].
        apply IH. by exists m', b.
    + cbn [patternCompare app]. apply N.eqb_neq in Hc. rewrite Hc.
      destruct t as [|d t].
      * split; [done |]. intros (m & b & Hmb & Hm).
        destruct m; [done | discriminate].
      * rewrite andb_true_iff, IH. split.
        -- intros [Hcd (m & b & -> & Hm)]. exists (d :: m), b.
           split; [done |]. by rewrite Hcd, Hm.
        -- intros (m & b & Hmb & Hm). destruct m as [|x m]; [done |].
           injection Hmb as -> ->. apply andb_true_iff in Hm as [Hcd Hm].
           split; [done |]. by exists m, b.
Qed.

(** A text matches itself. *)
Lemma compare_refl t : patternCompare t t = true.
Proof.
  induction t as [|c t IH]; [done |].
  destruct (N.eqb_spec c percent) as [-> | Hc].
  - apply compare_percent. by exists [percent], t.
  - cbn [patternCompare]. apply N.eqb_neq in Hc. by rewrite Hc, nocase_eqb_refl, orb_true_r, IH.
Qed.

(** The parameter [%tok%] matches the texts in which a block matches
    [tok]. *)
Lemma compare_param tok t :
  patternCompare (lit "%" ++ tok ++ lit "%") t = true
  <-> exists a m b, t = a ++ m ++ b /\ patternCompare tok m = true.
Proof.
  change (lit "%" ++ tok ++ lit "%") with (percent :: (tok ++ [percent])).
  rewrite compare_percent. split.
  - intros (a & b & -> & (m & b' & -> & Hm)%compare_app_percent). by exists a, m, b'.
  - intros (a & m & b & -> & Hm). exists a, (m ++ b). split; [done |].
    apply compare_app_percent. by exists m, b.
Qed.

(** Every text that holds [tok] is matched by [%tok%]. *)
Lemma compare_param_Substring tok t :
  Substring tok t -> patternCompare (lit "%" ++ tok ++ lit "%") t = true.
Proof.
  intros (a & b & ->). apply compare_param. exists a, tok, b. split; [done | apply compare_refl].
Qed.






Lemma c_string_id s : 0 ∉ s -> c_string s = s.
Proof.
  induction s as [|c s IH]; [done|]. intros Hs. cbn.
  apply not_elem_of_cons in Hs as [Hc Hs]. apply not_eq_sym in Hc.
  apply N.eqb_neq in Hc. rewrite Hc. by rewrite IH.
Qed.

Lemma c_string_app a b : 0 ∉ a -> c_string (a ++ b) = a ++ c_string b.
Proof.
  induction a as [|c a IH]; [done|]. intros Ha. cbn.
  apply not_elem_of_cons in Ha as [Hc Ha]. apply not_eq_sym in Hc.
  apply N.eqb_neq in Hc. rewrite Hc. by rewrite IH.
Qed.

Lemma c_string_param tok :
  0 ∉ tok -> c_string (lit "%" ++ tok ++ lit "%") = lit "%" ++ tok ++ lit "%".
Proof.
  intros Htok. apply c_string_id. rewrite !not_elem_of_app. split; [| split].
  - by intros [= ]%list_elem_of_singleton.
  - done.
  - by intros [= ]%list_elem_of_singleton.
Qed.


(** [LIKE] with the parameter [%tok%], for a token without null
    character: the text up to its first null character holds a block
    that matches the token. *)
Lemma like_param tok t :
  0 ∉ tok ->
  like (lit "%" ++ tok ++ lit "%") t = true
  <-> exists a m b, c_string t = a ++ m ++ b /\ patternCompare tok m = true.
Proof.
  intros Htok. unfold like. rewrite c_string_param by done. apply compare_param.
Qed.

Lemma like_param_Substring tok t :
  0 ∉ tok -> Substring tok (c_string t) -> like (lit "%" ++ tok ++ lit "%") t = true.
Proof.
  intros Htok Hsub. unfold like. rewrite c_string_param by done.
  by apply compare_param_Substring.
Qed.


End Like.

(** ** The indexed search *)

Section Search.
Import Py Sqlite.
Context `{Runtime}.

Lemma keywords_nil keyword : EveDB.keywords keyword = [] <-> spaces keyword.
Proof.
  unfold EveDB.keywords. by rewrite split_strip, split_nil, lower_spaces.
Qed.

Lemma keywords_split keyword : EveDB.keywords keyword = split (lower keyword).
Proof. unfold EveDB.keywords. apply split_strip. Qed.



Lemma bytes_app a b : bytes (a ++ b) = bytes a + bytes b.
Proof.
  unfold bytes. induction a as [|c a IH]; [done|]. cbn [app map fold_right].
  rewrite IH. lia.
Qed.

Lemma bytes_param tok : bytes (lit "%" ++ tok ++ lit "%") = bytes tok + 2.
Proof. rewrite !bytes_app. change (bytes (lit "%")) with 1. lia. Qed.

Lemma encodable_param tok :
  encodable (lit "%" ++ tok ++ lit "%") = encodable tok.
Proof.
  unfold encodable. rewrite !forallb_app.
  assert (forallb (fun c => negb ((55296 <=? c) && (c <=? 57343))) (lit "%") = true)
    as -> by reflexivity.
  by rewrite andb_true_r.
Qed.

(** The [WHERE] clause, when it raises nothing, is the conjunction of
    its conditions. *)
Lemma where_clause_Some params text b :
  EveDB.where_clause params text = Some b ->
  b = forallb (fun p => like p text) params.
Proof.
  induction params as [|p params IH]; cbn [EveDB.where_clause forallb].
  - by intros [= <-].
  - unfold EveDB.like_term.
    destruct (max_like_pattern_length <? bytes p); [done|].
    destruct (like p text); [done | by intros [= <-]].
Qed.

Lemma where_clause_within params text :
  Forall (fun p => bytes p <= max_like_pattern_length) params ->
  EveDB.where_clause params text = Some (forallb (fun p => like p text) params).
Proof.
  induction 1 as [|p params Hp _ IH]; [done|].
  cbn [EveDB.where_clause forallb]. unfold EveDB.like_term.
  apply N.ltb_ge in Hp. rewrite Hp. by destruct (like p text).
Qed.

(** The statement, when it raises nothing, yields the first [limit]
    selected rows. *)
Lemma select_Some params limit items rows :
  EveDB.select params limit items = Some rows ->
  rows = take limit (filter (fun r => EveDB.selected params r = true) items).
Proof.
  revert limit rows. induction items as [|r items IH]; intros [|n] rows;
    cbn [EveDB.select]; try by intros [= <-].
  destruct (EveDB.where_clause params (EveDB.search_text r)) as [[]|] eqn:Hw;
    [| | done].
  - apply where_clause_Some in Hw.
    destruct (EveDB.select params n items) as [rest|] eqn:Hrest; [| done].
    cbn [fmap option_fmap option_map]. intros [= <-].
    rewrite filter_cons_True by (unfold EveDB.selected; by rewrite <- Hw).
    cbn [take]. f_equal. by apply IH.
  - apply where_clause_Some in Hw. intros Hsel.
    rewrite filter_cons_False.
    + by apply IH.
    + unfold EveDB.selected. by rewrite <- Hw.
Qed.

Lemma select_within params limit items :
  Forall (fun p => bytes p <= max_like_pattern_length) params ->
  EveDB.select params limit items
  = Some (take limit (filter (fun r => EveDB.selected params r = true) items)).
Proof.
  intros Hp. revert limit. induction items as [|r items IH]; intros [|n];
    cbn [EveDB.select]; try done.
  rewrite where_clause_within by done. fold (EveDB.selected params r).
  destruct (EveDB.selected params r) eqn:Hsel.
  - rewrite IH. by rewrite filter_cons_True by done.
  - rewrite IH. rewrite filter_cons_False; [done|]. by rewrite Hsel.
Qed.

Lemma selected_Forall kws r :
  EveDB.selected (map (fun kw => lit "%" ++ kw ++ lit "%") kws) r = true
  <-> Forall (fun kw => like (lit "%" ++ kw ++ lit "%") (EveDB.search_text r) = true) kws.
Proof.
  unfold EveDB.selected. rewrite forallb_forall, List.Forall_forall. split.
  - intros Hall kw Hkw. apply Hall, in_map_iff. by exists kw.
  - intros Hall p (kw & <- & Hkw)%in_map_iff. by apply Hall.
Qed.

(** What [search] returns, when it returns. *)
Lemma search_Some keyword limit items results :
  EveDB.search keyword limit items = Some results ->
  EveDB.keywords keyword <> []
  /\ (length (EveDB.keywords keyword) < 1000)%nat
  /\ results
     = map EveDB.to_result
         (take limit
            (filter (fun r =>
                       EveDB.selected
                         (map (fun kw => lit "%" ++ kw ++ lit "%")
                              (EveDB.keywords keyword)) r = true)
                    items)).
Proof.
  unfold EveDB.search.
  destruct (EveDB.keywords keyword) as [|tok toks]; [done|].
  cbn [map]. cbv iota. cbn [length]. rewrite length_map.
  destruct (max_expr_depth <=? S (length toks))%nat eqn:Hdepth; [done|].
  destruct (forallb encodable _); [| done].
  destruct (EveDB.select _ limit items) as [rows|] eqn:Hsel; [| done].
  cbn [fmap option_fmap option_map]. intros [= <-].
  apply select_Some in Hsel. subst rows.
  split; [done|]. split; [| done].
  apply Nat.leb_gt in Hdepth. unfold max_expr_depth in Hdepth. lia.
Qed.

(** Within the limits of SQLite [search] returns: the first [limit]
    selected rows. *)
Lemma search_within keyword limit items :
  EveDB.keywords keyword <> [] ->
  (length (EveDB.keywords keyword) < 1000)%nat ->
  Forall (fun tok => encodable tok = true /\ bytes tok + 2 <= 50000)
         (EveDB.keywords keyword) ->
  EveDB.search keyword limit items
  = Some (map EveDB.to_result
            (take limit
               (filter (fun r =>
                          EveDB.selected
                            (map (fun kw => lit "%" ++ kw ++ lit "%")
                                 (EveDB.keywords keyword)) r = true)
                       items))).
Proof.
  intros Hkw Hlen Htoks. unfold EveDB.search.
  destruct (EveDB.keywords keyword) as [|tok toks]; [done|].
  cbn [map]. cbv iota. change (?x :: map ?f toks) with (map f (tok :: toks)).
  rewrite length_map.
  assert ((max_expr_depth <=? length (tok :: toks))%nat = false) as ->.
  { apply Nat.leb_gt. unfold max_expr_depth. lia. }
  assert (forallb encodable
            (map (fun kw => lit "%" ++ kw ++ lit "%") (tok :: toks)) = true) as ->.
  { apply forallb_forall. intros q (kw & <- & Hin)%in_map_iff.
    rewrite encodable_param. rewrite List.Forall_forall in Htoks. by apply Htoks. }
  rewrite select_within; [done|].
  apply Forall_map. eapply Forall_impl; [exact Htoks|]. intros kw [_ Hb]. cbn beta.
  rewrite bytes_param. unfold max_like_pattern_length. lia.
Qed.

Lemma search_blank keyword limit items :
  EveDB.keywords keyword = [] -> EveDB.search keyword limit items = None.
Proof. unfold EveDB.search. by intros ->. Qed.


End Search.

(** ** Rebuilding the index *)

Section Rebuild.
Import Py Os Sqlite.
Context `{Runtime} `{Platform}.

Lemma executemany_good batch items :
  forallb IndexSpec.binds batch = true ->
  EveDB.executemany batch items = (true, items ++ omap EveDB.insert batch).
Proof.
  revert items. induction batch as [|p batch IH]; intros items Hok; cbn.
  - by rewrite app_nil_r.
  - cbn [forallb] in Hok. apply andb_prop in Hok as [Hp Hrest].
    apply bool_decide_eq_true_1 in Hp as [r Hr]. rewrite Hr.
    rewrite IH by done. by rewrite <- app_assoc.
Qed.

Lemma executemany_bad batch items :
  forallb IndexSpec.binds batch = false -> (EveDB.executemany batch items).1 = false.
Proof.
  revert items. induction batch as [|p batch IH]; intros items Hbad; cbn in *.
  - done.
  - destruct (EveDB.insert p) as [r|] eqn:Hr; [| done].
    unfold IndexSpec.binds in Hbad at 1.
    rewrite Hr, bool_decide_true in Hbad by by exists r. by apply IH.
Qed.

Lemma index_lines_good f lines batch items :
  forallb IndexSpec.binds batch = true ->
  forallb (IndexSpec.storable f) lines = true ->
  exists b' r',
    EveDB.index_lines f lines batch items = (b', r')
    /\ forallb IndexSpec.binds b' = true
    /\ r' ++ omap EveDB.insert b'
       = items ++ omap EveDB.insert batch ++ omap (IndexSpec.line_row f) lines.
Proof.
  revert batch items.
  induction lines as [|line lines IH]; intros batch items Hb Hl.
  - exists batch, items. cbn. by rewrite app_nil_r.
  - cbn [forallb] in Hl. apply andb_prop in Hl as [Hline Hrest].
    cbn [EveDB.index_lines omap list_omap]. unfold IndexSpec.storable in Hline.
    unfold IndexSpec.line_row at 1.
    destruct (EveDB.index_line f line) as [p|]; cbn [mbind option_bind].
    + destruct (bool_decide_eq_true_1 _ Hline) as [r Hr]. rewrite Hr.
      assert (forallb IndexSpec.binds (batch ++ [p]) = true) as Hb'.
      { rewrite forallb_app, Hb. cbn. by rewrite Hline. }
      assert (omap EveDB.insert (batch ++ [p]) = omap EveDB.insert batch ++ [r]) as Hom.
      { rewrite omap_app. cbn. by rewrite Hr. }
      destruct (1000 <=? length (batch ++ [p]))%nat.
      * rewrite executemany_good by done. cbv iota beta.
        destruct (IH [] (items ++ omap EveDB.insert (batch ++ [p])) eq_refl Hrest)
          as (b' & r' & Hrun & Hok & Hrows).
        exists b', r'. split; [done|]. split; [done|].
        rewrite Hrows, Hom. cbn. by rewrite <- !app_assoc.
      * destruct (IH (batch ++ [p]) items Hb' Hrest) as (b' & r' & Hrun & Hok & Hrows).
        exists b', r'. split; [done|]. split; [done|].
        rewrite Hrows, Hom. by rewrite <- !app_assoc.
    + by apply IH.
Qed.

Lemma index_lines_bad_batch f lines batch items :
  forallb IndexSpec.binds batch = false ->
  forallb IndexSpec.binds (EveDB.index_lines f lines batch items).1 = false.
Proof.
  revert batch items.
  induction lines as [|line lines IH]; intros batch items Hb; [done|].
  cbn [EveDB.index_lines].
  destruct (EveDB.index_line f line) as [p|]; [| by apply IH].
  assert (forallb IndexSpec.binds (batch ++ [p]) = false) as Hb'.
  { by rewrite forallb_app, Hb. }
  destruct (1000 <=? length (batch ++ [p]))%nat; [| by apply IH].
  pose proof (executemany_bad (batch ++ [p]) items Hb') as Hex.
  destruct (EveDB.executemany (batch ++ [p]) items) as [ok items'].
  cbn in Hex. subst ok. by apply IH.
Qed.

Lemma index_lines_bad_line f lines batch items :
  forallb IndexSpec.binds batch = true ->
  forallb (IndexSpec.storable f) lines = false ->
  forallb IndexSpec.binds (EveDB.index_lines f lines batch items).1 = false.
Proof.
  revert batch items.
  induction lines as [|line lines IH]; intros batch items Hb Hl; [done|].
  cbn [forallb] in Hl. cbn [EveDB.index_lines].
  unfold IndexSpec.storable in Hl at 1.
  destruct (EveDB.index_line f line) as [p|]; [| by apply IH].
  destruct (IndexSpec.binds p) eqn:Hp.
  - cbn in Hl.
    assert (forallb IndexSpec.binds (batch ++ [p]) = true) as Hb'.
    { rewrite forallb_app, Hb. cbn. by rewrite Hp. }
    destruct (1000 <=? length (batch ++ [p]))%nat; [| by apply IH].
    rewrite executemany_good by done. by apply IH.
  - assert (forallb IndexSpec.binds (batch ++ [p]) = false) as Hb'.
    { rewrite forallb_app. cbn. rewrite Hp. by destruct (forallb _ batch). }
    destruct (1000 <=? length (batch ++ [p]))%nat;
      [| by apply index_lines_bad_batch].
    pose proof (executemany_bad (batch ++ [p]) items Hb') as Hex.
    destruct (EveDB.executemany (batch ++ [p]) items) as [ok items'].
    cbn in Hex. subst ok. by apply index_lines_bad_batch.
Qed.

Lemma index_file_rows f lines items :
  EveDB.index_file f lines items
  = if forallb (IndexSpec.storable f) lines
    then Some (items ++ omap (IndexSpec.line_row f) lines)
    else None.
Proof.
  unfold EveDB.index_file.
  destruct (forallb (IndexSpec.storable f) lines) eqn:Hl.
  - destruct (index_lines_good f lines [] items eq_refl Hl)
      as (b' & r' & -> & Hok & Hrows).
    cbn in Hrows. destruct b' as [|p b'].
    + cbn in Hrows. rewrite app_nil_r in Hrows. by rewrite Hrows.
    + rewrite executemany_good by done. by rewrite Hrows.
  - pose proof (index_lines_bad_line f lines [] items eq_refl Hl) as Hbad.
    destruct (EveDB.index_lines f lines [] items) as [b' r']. cbn [fst] in Hbad.
    destruct b' as [|p b']; [done|].
    pose proof (executemany_bad (p :: b') r' Hbad) as Hex.
    destruct (EveDB.executemany (p :: b') r') as [ok items']. cbn in Hex. by subst ok.
Qed.

Lemma index_files_rows files items :
  EveDB.index_files files items
  = if IndexSpec.all_storable files
    then Some (items ++ IndexSpec.rows_of_files files)
    else None.
Proof.
  revert items. induction files as [|[f lines] files IH]; intros items.
  - cbn. by rewrite app_nil_r.
  - cbn [EveDB.index_files IndexSpec.all_storable forallb
         IndexSpec.rows_of_files flat_map fst snd].
    rewrite index_file_rows.
    destruct (forallb (IndexSpec.storable f) lines); cbn [mbind option_bind andb];
      [| done].
    rewrite IH. unfold IndexSpec.all_storable, IndexSpec.rows_of_files.
    destruct (forallb _ files); [| done]. by rewrite <- app_assoc.
Qed.

Lemma build_index_rows sde_dir items :
  EveDB.build_index sde_dir items
  = if IndexSpec.all_storable (IndexSpec.jsonl_files sde_dir)
    then (Some true, items ++ IndexSpec.rows_of_files (IndexSpec.jsonl_files sde_dir))
    else (None, items).
Proof.
  unfold EveDB.build_index. fold (IndexSpec.jsonl_files sde_dir).
  rewrite index_files_rows.
  by destruct (IndexSpec.all_storable (IndexSpec.jsonl_files sde_dir)).
Qed.

Lemma IndexWorker_run_rows sde_dir items :
  MainWindow.IndexWorker_run sde_dir items
  = match sde_dir with
    | Some dir =>
        if IndexSpec.all_storable (IndexSpec.jsonl_files dir)
        then (true, IndexSpec.rows_of_files (IndexSpec.jsonl_files dir))
        else (false, [])
    | None => (false, [])
    end.
Proof.
  unfold MainWindow.IndexWorker_run, EveDB.clear_db.
  destruct sde_dir as [dir|]; [| done]. rewrite build_index_rows.
  by destruct (IndexSpec.all_storable (IndexSpec.jsonl_files dir)).
Qed.

Lemma rebuilt_rows sde_dir items rows :
  MainWindow.IndexWorker_run sde_dir items = (true, rows) ->
  exists dir,
    sde_dir = Some dir /\ rows = IndexSpec.rows_of_files (IndexSpec.jsonl_files dir).
Proof.
  rewrite IndexWorker_run_rows. destruct sde_dir as [dir|]; [| done].
  destruct (IndexSpec.all_storable _); [| done].
  intros [= <-]. by exists dir.
Qed.

Lemma rows_of_files_elem r files :
  r ∈ IndexSpec.rows_of_files files
  <-> exists f lines line,
        (f, lines) ∈ files /\ line ∈ lines /\ IndexSpec.line_row f line = Some r.
Proof.
  unfold IndexSpec.rows_of_files. rewrite list_elem_of_In, in_flat_map. split.
  - intros ([f lines] & Hin & Hr). apply list_elem_of_In in Hin, Hr.
    apply list_elem_of_omap in Hr as (line & Hline & Hrow).
    by exists f, lines, line.
  - intros (f & lines & line & Hin & Hline & Hrow). exists (f, lines).
    rewrite <- !list_elem_of_In. split; [done|].
    apply list_elem_of_omap. by exists line.
Qed.

Lemma jsonl_files_elem (f : list N) (lines : list (list N)) (sde_dir : gmap (list N) (list (list N))) :
  (f, lines) ∈ IndexSpec.jsonl_files sde_dir
  <-> endswith (lit ".jsonl") f = true /\ sde_dir !! f = Some lines.
Proof.
  unfold IndexSpec.jsonl_files.
  rewrite list_elem_of_filter, (listdir_Permutation sde_dir), elem_of_map_to_list.
  done.
Qed.

Lemma index_line_texts f line p :
  EveDB.index_line f line = Some p ->
  EveDB.p_search_text p
  = lower (EveDB.p_id p ++ lit " " ++ str (EveDB.p_name_zh p)
             ++ lit " " ++ str (EveDB.p_name_en p))
  /\ EveDB.p_source_file p = f
  /\ EveDB.p_json_data p = strip line.
Proof.
  unfold EveDB.index_line.
  destruct (loads line) as [data|]; [| done]. cbn [mbind option_bind].
  destruct (EveDB.item_id data) as [i|]; [| done]. cbn [mbind option_bind].
  destruct (get data (lit "name") (JObj [])) as [name_data|]; [| done].
  cbn [mbind option_bind]. destruct (EveDB.names name_data) as [en zh].
  by intros [= <-].
Qed.

Lemma insert_columns p r :
  EveDB.insert p = Some r ->
  EveDB.id r = EveDB.p_id p
  /\ EveDB.source_file r = EveDB.p_source_file p
  /\ EveDB.search_text r = EveDB.p_search_text p
  /\ EveDB.json_data r = EveDB.p_json_data p.
Proof.
  unfold EveDB.insert. destruct (_ && _); [| done].
  destruct (bind (EveDB.p_name_zh p)) as [z|]; [| done]. cbn [mbind option_bind].
  destruct (bind (EveDB.p_name_en p)) as [e|]; [| done]. cbn [mbind option_bind].
  by intros [= <-].
Qed.

Lemma line_row_params f line r :
  IndexSpec.line_row f line = Some r ->
  exists p, EveDB.index_line f line = Some p /\ EveDB.insert p = Some r.
Proof.
  unfold IndexSpec.line_row.
  destruct (EveDB.index_line f line) as [p|]; [| done]. by exists p.
Qed.

Lemma line_row_search_text f line r :
  IndexSpec.line_row f line = Some r ->
  exists rest,
    EveDB.search_text r = lower (EveDB.id r) ++ 32 :: rest
    /\ EveDB.source_file r = f
    /\ EveDB.json_data r = strip line.
Proof.
  intros (p & Hp & Hr)%line_row_params.
  destruct (index_line_texts _ _ _ Hp) as (Htext & Hf & Hdata).
  destruct (insert_columns _ _ Hr) as (-> & -> & -> & ->).
  rewrite Htext. change (lit " " ++ ?x) with (32 :: x).
  rewrite lower_at_space. eauto.
Qed.


End Rebuild.

Section SearchProperties.
Import Py Sqlite.
Context `{Runtime}.


Lemma emit_all_named total results :
  forallb MainWindow.emits results = true ->
  MainWindow.emit_all total results
  = map MainWindow.result_found results ++ [MainWindow.search_finished total].
Proof.
  induction results as [|res results IH]; [done|]. cbn [forallb].
  intros [Hres Hrest]%andb_prop. cbn [MainWindow.emit_all map app].
  rewrite Hres. by rewrite IH.
Qed.

(** C10, as the code has it: [search] raises for the keywords without a
    token, which are the empty and the white space keywords; with at
    least one token it returns a list of results, the first [limit]
    selected rows, when the statement is within the limits of SQLite:
    fewer than 1000 tokens, each of them encodable in UTF-8 and of at
    most 49998 bytes. *)
Theorem C10_search_needs_a_token (keyword : pystr) (limit : nat)
    (items : list EveDB.row) :
  (spaces keyword <-> EveDB.keywords keyword = [])
  /\ (EveDB.keywords keyword = [] -> EveDB.search keyword limit items = None)
  /\ (EveDB.keywords keyword <> [] ->
      (length (EveDB.keywords keyword) < 1000)%nat ->
      Forall (fun tok => encodable tok = true /\ bytes tok + 2 <= 50000)
             (EveDB.keywords keyword) ->
      exists results,
        EveDB.search keyword limit items = Some results
        /\ results
           = map EveDB.to_result
               (take limit
                  (filter (fun r =>
                             EveDB.selected
                               (map (fun kw => lit "%" ++ kw ++ lit "%")
                                    (EveDB.keywords keyword)) r = true)
                          items))).
Proof.
  split; [by rewrite keywords_nil |]. split; [apply search_blank |].
  intros Hkw Hlen Htoks. eexists. split; [| reflexivity].
  by apply search_within.
Qed.

(** C6, as the code has it: when the search returns, it returns at most
    1000 rows, their number is the smaller of 1000 and the number of
    rows that match, and the worker, which emits every row that has its
    two names, reports that number when it finishes; when the search
    raises the worker signals an error. *)
Theorem C6_reported_count_is_the_page_size (keyword : pystr)
    (items : list EveDB.row) :
  match EveDB.search keyword EveDB.default_limit items with
  | Some results =>
      (length results <= 1000)%nat
      /\ length results
         = (1000 `min`
              length
                (filter (fun r =>
                           EveDB.selected
                             (map (fun kw => lit "%" ++ kw ++ lit "%")
                                  (EveDB.keywords keyword)) r = true)
                        items))%nat
      /\ (forallb MainWindow.emits results = true ->
          MainWindow.SearchWorker_run (Some items) keyword
          = map MainWindow.result_found results
              ++ [MainWindow.search_finished (length results)])
  | None => MainWindow.SearchWorker_run (Some items) keyword = [MainWindow.search_error]
  end.
Proof.
  unfold MainWindow.SearchWorker_run.
  destruct (EveDB.search keyword EveDB.default_limit items) as [results|] eqn:Hs; [| done].
  split; [| split].
  - apply search_Some in Hs as (_ & _ & ->).
    rewrite length_map, length_take. unfold EveDB.default_limit. lia.
  - apply search_Some in Hs as (_ & _ & ->).
    rewrite length_map, length_take. unfold EveDB.default_limit. lia.
  - apply emit_all_named.
Qed.

End SearchProperties.

Section SearchExamples.
Import Py Sqlite.
#[local] Existing Instance Demo.runtime.
#[local] Existing Instance Demo.platform.

Lemma demo_index : Demo.index = [Demo.row_34; Demo.row_35].
Proof. vm_compute. reflexivity. Qed.

(** The example of the specification: of the two Tritanium rows the
    query "34 tritanium" returns the one with id 34 only. *)
Lemma search_34_tritanium :
  EveDB.search (lit "34 tritanium") EveDB.default_limit Demo.index
  = Some [EveDB.to_result Demo.row_34].
Proof. vm_compute. reflexivity. Qed.

(** C4, at the failing input: the token "t_itanium" is no substring of
    the search text of the Tritanium rows, and the indexed search for it
    returns them: [_] in a token stands for any character. *)
Theorem C4_wildcard_token_is_not_a_substring :
  EveDB.keywords (lit "t_itanium") = [lit "t_itanium"]
  /\ Forall (fun r => contains (lit "t_itanium") (EveDB.search_text r) = false)
            Demo.index
  /\ EveDB.search (lit "t_itanium") EveDB.default_limit Demo.index
     = Some (map EveDB.to_result Demo.index).
Proof.
  rewrite demo_index. split; [| split].
  - vm_compute. reflexivity.
  - repeat constructor.
  - vm_compute. reflexivity.
Qed.

(** C10, counterexample: a keyword of 1000 tokens has a token, and the
    search raises: the statement has 1000 conditions, which SQLite
    refuses for the depth of the expression. *)
Lemma C10_a_thousand_tokens_raise :
  EveDB.keywords (concat (replicate 1000 (lit "a "))) = replicate 1000 (lit "a")
  /\ EveDB.search (concat (replicate 1000 (lit "a "))) EveDB.default_limit Demo.index
     = None.
Proof. split; vm_compute; reflexivity. Qed.

(** C6, counterexample: on an index in which 1001 rows match, the worker
    reports 1000. *)
Lemma C6_true_total_is_not_reported :
  length (filter (fun r => EveDB.selected [lit "%tritanium%"] r = true) Demo.large_index)
  = 1001%nat
  /\ MainWindow.SearchWorker_run (Some Demo.large_index) (lit "tritanium")
     = map MainWindow.result_found (replicate 1000 (EveDB.to_result Demo.row_34))
         ++ [MainWindow.search_finished 1000].
Proof. split; vm_compute; reflexivity. Qed.

End SearchExamples.

(** ** The index builder *)

Section Index.
Import Py Os.
Context `{Runtime} `{Platform}.

Lemma item_id_first_true fields :
  EveDB.item_id (JObj fields) = Some (Spec.first_true_id fields).
Proof.
  unfold EveDB.item_id, Spec.first_true_id, py_or. cbn [get mbind option_bind List.find].
  set (k := default JNull (dict_get (lit "_key") fields)).
  set (i := default JNull (dict_get (lit "id") fields)).
  set (t := default JNull (dict_get (lit "typeID") fields)).
  destruct (truthy k) eqn:Hk; cbv iota; [by rewrite Hk |].
  destruct (truthy i) eqn:Hi; cbv iota; [done |].
  by destruct (truthy t).
Qed.

(** The parameters computed from a line that parses to a JSON object. *)
Lemma index_line_object (file_name line : pystr) (fields : list (pystr * json)) :
  loads line = Some (JObj fields) ->
  exists p,
    EveDB.index_line file_name line = Some p
    /\ EveDB.p_id p = Spec.id_text (Spec.first_true_id fields)
    /\ (forall m, dict_get (lit "name") fields = Some (JObj m) ->
          EveDB.p_name_en p = default (JStr []) (dict_get (lit "en") m)
          /\ EveDB.p_name_zh p = default (JStr []) (dict_get (lit "zh") m))
    /\ (forall s, dict_get (lit "name") fields = Some (JStr s) ->
          EveDB.p_name_en p = JStr s /\ EveDB.p_name_zh p = JStr s)
    /\ EveDB.p_search_text p
       = lower (EveDB.p_id p ++ lit " " ++ str (EveDB.p_name_zh p)
                  ++ lit " " ++ str (EveDB.p_name_en p))
    /\ EveDB.p_source_file p = file_name
    /\ EveDB.p_json_data p = strip line.
Proof.
  intros Hline. unfold EveDB.index_line. rewrite Hline. cbn [mbind option_bind].
  rewrite item_id_first_true. cbn [mbind option_bind get].
  destruct (EveDB.names _) as [name_en name_zh] eqn:Hnames.
  eexists. split; [reflexivity |].
  cbn [EveDB.p_id EveDB.p_name_en EveDB.p_name_zh EveDB.p_search_text
       EveDB.p_source_file EveDB.p_json_data].
  split; [by destruct (Spec.first_true_id fields) |].
  split; [| split; [| done]].
  - intros m Hm. rewrite Hm in Hnames. injection Hnames as <- <-. done.
  - intros s Hs. rewrite Hs in Hnames. injection Hnames as <- <-. done.
Qed.

(** On plain id values the [or] chain yields the first value present. *)
Lemma first_true_id_resolved fields :
  Spec.plain_ids fields -> Spec.first_true_id fields = Spec.resolved_id fields.
Proof.
  unfold Spec.plain_ids, Spec.first_true_id, Spec.resolved_id.
  intros Hplain. cbn [List.find].
  inversion Hplain as [|? ? Hk Hplain1]; subst.
  inversion Hplain1 as [|? ? Hi Hplain2]; subst.
  inversion Hplain2 as [|? ? Ht _]; subst.
  set (k := default JNull (dict_get (lit "_key") fields)) in *.
  set (i := default JNull (dict_get (lit "id") fields)) in *.
  set (t := default JNull (dict_get (lit "typeID") fields)) in *.
  destruct Hk as [-> | Hk]; [| rewrite Hk; by destruct k]; cbn [truthy Spec.is_null negb].
  destruct Hi as [-> | Hi]; [| rewrite Hi; by destruct i]; cbn [truthy Spec.is_null negb].
  destruct Ht as [-> | Ht]; [done | rewrite Ht; by destruct t].
Qed.

Lemma insert_names p r :
  EveDB.insert p = Some r ->
  Sqlite.bind (EveDB.p_name_zh p) = Some (EveDB.name_zh r)
  /\ Sqlite.bind (EveDB.p_name_en p) = Some (EveDB.name_en r).
Proof.
  unfold EveDB.insert. destruct (_ && _); [| done].
  destruct (Sqlite.bind (EveDB.p_name_zh p)) as [z|]; [| done]. cbn [mbind option_bind].
  destruct (Sqlite.bind (EveDB.p_name_en p)) as [e|]; [| done]. cbn [mbind option_bind].
  by intros [= <-].
Qed.

(** The rows of a build that succeeds hold a row for every line of a
    [.jsonl] file for which [index_line] computes parameters. *)
Lemma build_index_row sde_dir items rows file_name lines line p :
  EveDB.build_index sde_dir items = (Some true, rows) ->
  sde_dir !! file_name = Some lines ->
  endswith (lit ".jsonl") file_name = true ->
  line ∈ lines ->
  EveDB.index_line file_name line = Some p ->
  exists r, EveDB.insert p = Some r /\ r ∈ rows.
Proof.
  rewrite build_index_rows.
  destruct (IndexSpec.all_storable (IndexSpec.jsonl_files sde_dir)) eqn:Hall; [| done].
  intros [= <-] Hfile Hext Hline Hp.
  assert ((file_name, lines) ∈ IndexSpec.jsonl_files sde_dir) as Hin
    by by apply jsonl_files_elem.
  unfold IndexSpec.all_storable in Hall. rewrite forallb_forall in Hall.
  specialize (Hall (file_name, lines)). cbn [fst snd] in Hall.
  rewrite <- list_elem_of_In in Hall. specialize (Hall Hin).
  rewrite forallb_forall in Hall. specialize (Hall line).
  rewrite <- list_elem_of_In in Hall. specialize (Hall Hline).
  unfold IndexSpec.storable in Hall. rewrite Hp in Hall.
  apply bool_decide_eq_true_1 in Hall as [r Hr].
  exists r. split; [done |]. apply elem_of_app. right.
  apply rows_of_files_elem. exists file_name, lines, line.
  split; [done |]. split; [done |].
  unfold IndexSpec.line_row. by rewrite Hp.
Qed.

(** C5, as the code has it: every line that parses to a JSON object
    gives the parameters of one row, and a build that succeeds has
    inserted that row.  On plain id values the id is the text of the
    first of [_key], [id], [typeID] the record has, and the empty
    string when it has none: the record is not excluded.  A name that
    is a mapping gives its [en] and [zh] entries, a name that is a
    string gives that string for both.  The search text is the lower
    case of id, zh name and en name separated by single spaces. *)
Theorem C5_index_row (file_name line : pystr) (fields : list (pystr * json)) :
  loads line = Some (JObj fields) ->
  Spec.plain_ids fields ->
  exists p,
    EveDB.index_line file_name line = Some p
    /\ EveDB.p_id p = Spec.id_text (Spec.resolved_id fields)
    /\ (forall m, dict_get (lit "name") fields = Some (JObj m) ->
          EveDB.p_name_en p = default (JStr []) (dict_get (lit "en") m)
          /\ EveDB.p_name_zh p = default (JStr []) (dict_get (lit "zh") m))
    /\ (forall s, dict_get (lit "name") fields = Some (JStr s) ->
          EveDB.p_name_en p = JStr s /\ EveDB.p_name_zh p = JStr s)
    /\ EveDB.p_search_text p
       = lower (EveDB.p_id p ++ lit " " ++ str (EveDB.p_name_zh p)
                  ++ lit " " ++ str (EveDB.p_name_en p))
    /\ EveDB.p_source_file p = file_name
    /\ EveDB.p_json_data p = strip line
    /\ forall (sde_dir : directory) (lines : file) (items rows : list EveDB.row),
         EveDB.build_index sde_dir items = (Some true, rows) ->
         sde_dir !! file_name = Some lines ->
         endswith (lit ".jsonl") file_name = true ->
         line ∈ lines ->
         exists r,
           r ∈ rows
           /\ EveDB.id r = EveDB.p_id p
           /\ EveDB.source_file r = file_name
           /\ Sqlite.bind (EveDB.p_name_zh p) = Some (EveDB.name_zh r)
           /\ Sqlite.bind (EveDB.p_name_en p) = Some (EveDB.name_en r)
           /\ EveDB.search_text r = EveDB.p_search_text p
           /\ EveDB.json_data r = strip line.
Proof.
  intros Hline Hplain.
  destruct (index_line_object file_name line fields Hline)
    as (p & Hp & Hid & Hm & Hs & Htext & Hfile & Hdata).
  exists p. split; [done |]. split; [by rewrite Hid, first_true_id_resolved |].
  do 5 (split; [done |]).
  intros sde_dir lines items rows Hbuild Hdir Hext Hin.
  destruct (build_index_row _ _ _ _ _ _ _ Hbuild Hdir Hext Hin Hp) as (r & Hr & Hrows).
  destruct (insert_columns _ _ Hr) as (Hi & Hf & Ht & Hd).
  destruct (insert_names _ _ Hr) as (Hzh & Hen).
  exists r. rewrite Hi, Hf, Ht, Hd, Hfile, Hdata. done.
Qed.

(** A rebuild that fails leaves the table empty. *)
Lemma IndexWorker_run_failed sde_dir items :
  (MainWindow.IndexWorker_run sde_dir items).1 = false ->
  (MainWindow.IndexWorker_run sde_dir items).2 = [].
Proof.
  unfold MainWindow.IndexWorker_run, EveDB.build_index, EveDB.clear_db.
  destruct sde_dir as [dir|]; [| done].
  by destruct (EveDB.index_files _ _).
Qed.

End Index.

(** C9, as the code has it: [clear_db] has committed the deletion when
    the rebuild can fail, and a failed [build_index] rolls back what it
    inserted: after a rebuild that ends with an error the Index Store is
    empty. *)
Theorem C9_failed_rebuild_leaves_an_empty_store `{Py.Runtime} `{Os.Platform}
    (sde_dir : option (gmap (list N) (list (list N)))) (items : list EveDB.row) :
  (MainWindow.IndexWorker_run sde_dir items).1 = false ->
  (MainWindow.IndexWorker_run sde_dir items).2 = [].
Proof. apply IndexWorker_run_failed. Qed.

Section IndexExamples.
Import Py.
#[local] Existing Instance Demo.runtime.
#[local] Existing Instance Demo.platform.

(** C5 on the Tritanium record with [_key] 3, in a snapshot of one
    file. *)
Lemma C5_index_row_witness :
  exists p r,
    EveDB.index_line (lit "types.jsonl") (Demo.to_text (Demo.tritanium (JNum 3))) = Some p
    /\ EveDB.p_id p = lit "3"
    /\ EveDB.p_search_text p = lit "3  tritanium"
    /\ EveDB.build_index
         {[ lit "types.jsonl" := [Demo.to_text (Demo.tritanium (JNum 3))] ]} []
       = (Some true, [r])
    /\ EveDB.id r = lit "3"
    /\ EveDB.search_text r = lit "3  tritanium".
Proof.
  destruct (C5_index_row (lit "types.jsonl") (Demo.to_text (Demo.tritanium (JNum 3)))
              [(lit "_key", JNum 3); (lit "name", JObj [(lit "en", JStr (lit "Tritanium"))])])
    as (p & Hp & Hid & Hmap & _ & Htext & _ & _ & Hrow).
  - vm_compute. reflexivity.
  - repeat (apply List.Forall_cons; [first [left; reflexivity | right; reflexivity] |]).
    apply List.Forall_nil.
  - destruct (Hmap [(lit "en", JStr (lit "Tritanium"))]) as [Hen Hzh]; [reflexivity |].
    assert (EveDB.p_search_text p = lit "3  tritanium") as Htext'.
    { rewrite Htext, Hid, Hen, Hzh. vm_compute. reflexivity. }
    assert (EveDB.build_index
              {[ lit "types.jsonl" := [Demo.to_text (Demo.tritanium (JNum 3))] ]} []
            = (Some true,
               [{| EveDB.id := lit "3"; EveDB.source_file := lit "types.jsonl";
                   EveDB.name_zh := Sqlite.Text []; EveDB.name_en := Sqlite.Text (lit "Tritanium");
                   EveDB.search_text := lit "3  tritanium";
                   EveDB.json_data := Demo.to_text (Demo.tritanium (JNum 3)) |}]))
      as Hbuild by (vm_compute; reflexivity).
    destruct (Hrow _ [Demo.to_text (Demo.tritanium (JNum 3))] [] _ Hbuild)
      as (r & Hr & Hrid & _ & _ & _ & Hrtext & _).
    + vm_compute. reflexivity.
    + vm_compute. reflexivity.
    + apply list_elem_of_here.
    + apply list_elem_of_singleton in Hr. exists p, r. subst r.
      repeat split; done.
Defined.

(** C5, counterexample: a record without [_key], [id] and [typeID] is
    indexed, under the empty id. *)
Lemma C5_record_without_id_is_indexed :
  Spec.resolved_id [(lit "name", JStr (lit "Tritanium"))] = JNull
  /\ EveDB.build_index {[ lit "types.jsonl" := [Demo.to_text Demo.nameless_id] ]} []
     = (Some true, [Demo.row_nameless_id]).
Proof. split; vm_compute; reflexivity. Qed.

(** C9 on a rebuild without snapshot directory. *)
Lemma C9_failed_rebuild_witness :
  (MainWindow.IndexWorker_run None Demo.index).1 = false
  /\ (MainWindow.IndexWorker_run None Demo.index).2 = [].
Proof.
  split; [reflexivity |].
  apply (C9_failed_rebuild_leaves_an_empty_store None Demo.index). reflexivity.
Defined.

(** C9, counterexample: a rebuild that ends with an error, because the
    snapshot directory is missing or because a record cannot be stored,
    does not leave the rows the store had before. *)
Lemma C9_failed_rebuild_loses_the_rows :
  Demo.index = [Demo.row_34; Demo.row_35]
  /\ MainWindow.IndexWorker_run None Demo.index = (false, [])
  /\ MainWindow.IndexWorker_run (Some Demo.bad_snapshot) Demo.index = (false, []).
Proof. repeat split; vm_compute; reflexivity. Qed.

End IndexExamples.

(** ** The search without an index *)

Section Fallback.
Import Py Os Sqlite.
Context `{Runtime} `{Platform}.

(** The loop over the tokens keeps a text exactly when every token
    matches it, as a substring or as a subsequence. *)
Lemma is_match_spec keywords_list ft :
  SearchGui.is_match keywords_list ft = true
  <-> Forall (Spec.token_matches ft) keywords_list.
Proof.
  induction keywords_list as [|kw rest IH]; simpl.
  - split; [constructor | done].
  - rewrite Forall_cons. unfold Spec.token_matches at 1.
    rewrite <- contains_spec, <- all_in_iterator_spec, <- IH.
    destruct (contains kw ft); [tauto |].
    destruct (all_in_iterator kw ft); [tauto |].
    split; [done | by intros [[|] _]].
Qed.

(** A line gives a result exactly when it parses to a record whose
    names are strings and every token matches their concatenation. *)
Lemma line_signal_kept keywords_list file_name line :
  (exists s, SearchGui.line_signal keywords_list file_name line = Some (Some s))
  <-> exists data ft,
        loads line = Some data
        /\ Spec.name_text data = Some ft
        /\ Forall (Spec.token_matches ft) keywords_list.
Proof.
  unfold SearchGui.line_signal, Spec.name_text. split.
  - intros [s Hs]. destruct (loads line) as [data|]; [| done].
    cbn [mbind option_bind] in Hs.
    destruct data as [| | | | | |fields]; try done.
    cbn [SearchGui.item_id get mbind option_bind] in Hs.
    destruct (SearchGui.names _) as [name_en name_zh] eqn:Hnames.
    destruct (SearchGui.full_text name_en name_zh) as [ft|] eqn:Hft; [| done].
    cbn [mbind option_bind] in Hs.
    destruct (SearchGui.is_match keywords_list ft) eqn:Hm; [| done].
    exists (JObj fields), ft. split; [done |]. split.
    + cbn [get mbind option_bind]. by rewrite Hnames.
    + by apply is_match_spec.
  - intros (data & ft & -> & Hft & Hm%is_match_spec).
    destruct data as [| | | | | |fields]; try done.
    cbn [SearchGui.item_id get mbind option_bind] in *.
    destruct (SearchGui.names _) as [name_en name_zh].
    cbn [fst snd] in Hft. rewrite Hft. cbn [mbind option_bind]. rewrite Hm. eauto.
Qed.

(** The results of a run are the signals of the lines of the [.jsonl]
    files of the directory. *)
Lemma SearchWorker_run_found (dir : directory) keyword :
  exists found,
    SearchGui.SearchWorker_run (Some dir) keyword
    = found ++ [SearchGui.finished (length found)]
    /\ forall s,
         s ∈ found
         <-> exists file_name lines line,
               dir !! file_name = Some lines
               /\ endswith (lit ".jsonl") file_name = true
               /\ line ∈ lines
               /\ SearchGui.line_signal (split (lower keyword)) file_name line
                  = Some (Some s).
Proof.
  unfold SearchGui.SearchWorker_run. eexists. split; [reflexivity |].
  intros s. fold (IndexSpec.jsonl_files dir).
  rewrite list_elem_of_In, in_flat_map. split.
  - intros ([f lines] & Hf%list_elem_of_In & Hs). cbn [fst snd] in Hs.
    apply jsonl_files_elem in Hf as [Hext Hdir].
    unfold SearchGui.file_signals in Hs. apply in_flat_map in Hs as (line & Hline & Hs).
    exists f, lines, line. split; [done |]. split; [done |].
    split; [by apply list_elem_of_In |].
    destruct (SearchGui.line_signal _ f line) as [[s' |] |]; try done.
    destruct Hs as [-> | []]. done.
  - intros (f & lines & line & Hdir & Hext & Hline & Hs). exists (f, lines).
    split; [apply list_elem_of_In; by apply jsonl_files_elem |].
    cbn [fst snd]. unfold SearchGui.file_signals. apply in_flat_map.
    exists line. split; [by apply list_elem_of_In |]. rewrite Hs. by left.
Qed.

Lemma lower_at_lit_space a b : lower (a ++ lit " " ++ b) = lower a ++ lit " " ++ lower b.
Proof. apply lower_at_space. Qed.


Lemma Substring_app_l tok a b : Substring tok a -> Substring tok (a ++ b).
Proof. intros (x & y & ->). exists x, (y ++ b). by rewrite <- !app_assoc. Qed.

Lemma Substring_app_r tok a b : Substring tok b -> Substring tok (a ++ b).
Proof. intros (x & y & ->). exists (a ++ x), y. by rewrite <- !app_assoc. Qed.


(** C7: the results of a run are the signals of the lines of the
    [.jsonl] files, and a line gives a signal, that is its record is
    kept, exactly when its names are strings and every token of the
    lower case keyword is a substring of their concatenation or,
    failing that, one of its subsequences.  The keyword "高辟邪" is no
    substring of the name "高级辟邪" and the run keeps the record, by
    the subsequence rule. *)
Theorem C7_fallback_matching (dir : directory) (keyword : pystr) :
  (exists found,
     SearchGui.SearchWorker_run (Some dir) keyword
     = found ++ [SearchGui.finished (length found)]
     /\ forall s,
          s ∈ found
          <-> exists file_name lines line,
                dir !! file_name = Some lines
                /\ endswith (lit ".jsonl") file_name = true
                /\ line ∈ lines
                /\ SearchGui.line_signal (split (lower keyword)) file_name line
                   = Some (Some s))
  /\ (forall file_name line,
        (exists s, SearchGui.line_signal (split (lower keyword)) file_name line
                   = Some (Some s))
        <-> exists data ft,
              loads line = Some data
              /\ Spec.name_text data = Some ft
              /\ Forall (fun kw => Substring kw ft \/ kw `sublist_of` ft)
                        (split (lower keyword)))
  /\ (exists ft,
        @Spec.name_text Demo.runtime (Demo.item (JNum 9) (JStr Demo.gao_ji_bi_xie))
        = Some ft
        /\ contains Demo.gao_bi_xie ft = false
        /\ Demo.gao_bi_xie `sublist_of` ft
        /\ @SearchGui.SearchWorker_run Demo.runtime Demo.platform
             (Some {[ lit "types.jsonl"
                      := [Demo.to_text (Demo.item (JNum 9) (JStr Demo.gao_ji_bi_xie))] ]})
             Demo.gao_bi_xie
           = [SearchGui.result_found (lit "types.jsonl") (lit "9")
                Demo.gao_ji_bi_xie Demo.gao_ji_bi_xie
                (Demo.to_text (Demo.item (JNum 9) (JStr Demo.gao_ji_bi_xie)));
              SearchGui.finished 1]).
Proof.
  split; [apply SearchWorker_run_found |].
  split; [intros file_name line; apply line_signal_kept |].
  eexists. split; [reflexivity |]. split; [vm_compute; reflexivity |].
  split; [| vm_compute; reflexivity].
  apply all_in_iterator_spec. vm_compute. reflexivity.
Qed.


End Fallback.

Section FallbackExamples.
Import Py.
#[local] Existing Instance Demo.runtime.
#[local] Existing Instance Demo.platform.



(** A name with a null character: [LIKE] reads the search text up to
    that character, the search without index reads all of it. *)
Lemma null_character_hides_the_rest_of_the_name :
  @SearchGui.SearchWorker_run Demo2.runtime Demo2.platform (Some Demo2.nul_snapshot) (lit "b")
  = [SearchGui.result_found (lit "types.jsonl") (lit "7") [97; 0; 98] [97; 0; 98]
       Demo2.nul_line;
     SearchGui.finished 1]
  /\ map EveDB.search_text Demo2.nul_index = [lit "7 a" ++ [0] ++ lit "b a" ++ [0] ++ lit "b"]
  /\ @EveDB.search Demo2.runtime (lit "b") EveDB.default_limit Demo2.nul_index = Some []
  /\ @EveDB.search Demo2.runtime (lit "a") EveDB.default_limit Demo2.nul_index
     = Some (map EveDB.to_result Demo2.nul_index).
Proof. repeat split; vm_compute; reflexivity. Qed.

End FallbackExamples.
(** ** The change log *)

Section Reconcile.
Import Py Os World.
Context `{Runtime} `{!Process} `{Platform}.


Lemma dict_get_set_eq k v fields : dict_get k (dict_set k v fields) = Some v.
Proof.
  induction fields as [|[k' v'] fields IH]; cbn.
  - unfold str_eqb. by rewrite bool_decide_true.
  - destruct (str_eqb k k') eqn:E; cbn.
    + unfold str_eqb. by rewrite bool_decide_true.
    + by rewrite E.
Qed.

Lemma dict_get_set_ne k k' v fields :
  k <> k' -> dict_get k' (dict_set k v fields) = dict_get k' fields.
Proof.
  intros Hne. induction fields as [|[k0 v0] fields IH]; cbn.
  - unfold str_eqb. by rewrite bool_decide_false.
  - unfold str_eqb in *. destruct (decide (k = k0)) as [->|Hk].
    + rewrite bool_decide_true by done. cbn. unfold str_eqb.
      by rewrite !bool_decide_false by done.
    + rewrite bool_decide_false by done. cbn. unfold str_eqb.
      destruct (bool_decide (k' = k0)); [done|]. apply IH.
Qed.



Lemma gui_record_lines key added_ids changed_ids is_file_added f_line fields
    item_id status :
  loads f_line = Some (JObj fields) ->
  dict_get (lit "_key") fields = Some item_id ->
  MainWindow.status_of added_ids changed_ids is_file_added item_id = Some status ->
  MainWindow.record_lines key added_ids changed_ids is_file_added f_line
  = match status with
    | Some s => [dumps (tagged key s fields)]
    | None => []
    end.
Proof.
  intros Hline Hkey Hstatus. unfold MainWindow.record_lines.
  rewrite Hline. cbn [mbind option_bind get]. rewrite Hkey. cbn [from_option id mbind option_bind].
  rewrite Hstatus. by destruct status.
Qed.


(** C2, on both updaters: for a manifest entry with [fileAdded] set and
    no id listed, [UpdateWorker.get_SDE_update] writes every record of
    the table file with status added, and [get_SDE_update] of
    [eve_SDE.py], which does not read [fileAdded], writes nothing. *)
Theorem C2_fileAdded_is_ignored_by_the_script (T : pystr) (X Y : json)
    (entry : pystr) (fields recX recY : list (pystr * json)) (lX lY : pystr)
    (sde : gmap (list N) (list (list N))) :
  entry <> [] ->
  loads entry = Some (JObj fields) ->
  dict_get (lit "_key") fields = Some (JStr T) ->
  T <> lit "_meta" ->
  default (JArr []) (dict_get (lit "added") fields) = JArr [] ->
  default (JArr []) (dict_get (lit "changed") fields) = JArr [] ->
  default (JArr []) (dict_get (lit "removed") fields) = JArr [] ->
  dict_get (lit "fileAdded") fields = Some (JBool true) ->
  sde !! (T ++ lit ".jsonl") = Some [lX; lY] ->
  loads lX = Some (JObj recX) -> dict_get (lit "_key") recX = Some X ->
  loads lY = Some (JObj recY) -> dict_get (lit "_key") recY = Some Y ->
  hashable X = true -> hashable Y = true ->
  MainWindow.change_log sde [entry]
  = [dumps (tagged (JStr T) (lit "added") recX);
     dumps (tagged (JStr T) (lit "added") recY)]
  /\ EveSDE.change_log sde [entry] = [].
Proof.
  intros Hentry Hloads Hkey HT Hadded Hchanged Hremoved Hfile Hsde
    HlX HkX HlY HkY hX hY.
  assert (Hmeta : py_eqb (JStr T) (JStr (lit "_meta")) = false).
  { simpl. unfold str_eqb. by apply bool_decide_eq_false. }
  destruct entry as [|c entry']; [done |]. set (entry := c :: entry') in *.
  split.
  - unfold MainWindow.change_log. cbn [flat_map]. rewrite app_nil_r.
    unfold MainWindow.entry_lines. rewrite Hloads. cbn [mbind option_bind get].
    rewrite Hkey, Hadded, Hchanged, Hremoved, Hfile. cbn [from_option id]. rewrite Hmeta.
    cbn [set forallb mbind option_bind len_set distinct length Nat.add Nat.eqb
         truthy andb nonempty negb orb from_option id str app].
    rewrite Hsde. cbn [flat_map].
    rewrite (gui_record_lines _ _ _ _ lX recX X (Some (lit "added"))); try done.
    2: { unfold MainWindow.status_of, set_in. by rewrite hX. }
    rewrite (gui_record_lines _ _ _ _ lY recY Y (Some (lit "added"))); try done.
    unfold MainWindow.status_of, set_in. by rewrite hY.
  - unfold EveSDE.change_log. cbn [flat_map]. rewrite app_nil_r.
    unfold EveSDE.entry_lines. rewrite Hloads. cbn [mbind option_bind get].
    rewrite Hkey, Hadded, Hchanged, Hremoved. cbn [from_option id]. by rewrite Hmeta.
Qed.

(** *** The runs of the updaters *)

Lemma bind_Some {A B} (m : io A) (k : A -> io B) d a d' :
  m d = (Some a, d') -> World.bind m k d = k a d'.
Proof. unfold World.bind. by intros ->. Qed.

Lemma bind_None {A B} (m : io A) (k : A -> io B) d d' :
  m d = (None, d') -> World.bind m k d = (None, d').
Proof. unfold World.bind. by intros ->. Qed.

Lemma extractall_twice (a x : gmap (list N) (list (list N))) : a ∪ (a ∪ x) = a ∪ x.
Proof. by rewrite (assoc_L (∪)), (idemp_L (∪)). Qed.

Lemma update_SDE_unfold u d :
  EveSDE.update_SDE u d
  = match EveSDE.read_SDE_latest_info u with
    | None => (None, d)
    | Some (_, b, _) =>
        match eve_sde_jsonl d with
        | None =>
            (Some (),
             {| eve_sde_jsonl := Some (archive u ∪ ∅);
                eve_sde_update := eve_sde_update d |})
        | Some dir =>
            match
              (f ← dir !! lit "_sde.jsonl";
               data ← loads (default [] (head f));
               subscript data (lit "buildNumber"))
            with
            | None => (None, d)
            | Some cur =>
                if py_eqb cur b then (Some (), d)
                else (Some (),
                      {| eve_sde_jsonl := Some (archive u ∪ dir);
                         eve_sde_update := eve_sde_update d |})
            end
        end
    end.
Proof.
  unfold EveSDE.update_SDE, EveSDE.download_latest_eve_SDE_json, World.bind,
    World.try, read_disk, World.ret, extractall.
  destruct (EveSDE.read_SDE_latest_info u) as [[[k b] r]|]; [| done].
  destruct d as [[dir|] files]; cbn [eve_sde_jsonl eve_sde_update from_option id];
    [| done].
  destruct (dir !! lit "_sde.jsonl") as [f|]; [| done]. cbn [mbind option_bind].
  destruct (loads (default [] (head f))) as [data|]; [| done].
  cbn [mbind option_bind].
  destruct (subscript data (lit "buildNumber")) as [cur|]; [| done].
  by destruct (py_eqb cur b).
Qed.

(** [get_SDE_update] in one step: the change log of the release date is
    replaced by the lines of this run. *)
Lemma get_SDE_update_unfold u d :
  EveSDE.get_SDE_update u d
  = match EveSDE.read_SDE_latest_info u with
    | None => (None, d)
    | Some (_, b, r) =>
        match EveSDE.update_SDE u d with
        | (None, d') => (None, d')
        | (Some _, d') =>
            match r with
            | JStr date =>
                let changes_file :=
                  lit "eve_sde_changes_" ++ replace_char 58 45 date ++ lit ".jsonl" in
                if creatable changes_file
                then (Some (),
                      {| eve_sde_jsonl := eve_sde_jsonl d';
                         eve_sde_update :=
                           <[changes_file
                             := EveSDE.change_log (default ∅ (eve_sde_jsonl d'))
                                  (changes_jsonl u (str b))]>
                             (eve_sde_update d') |})
                else (None, d')
            | _ => (None, d')
            end
        end
    end.
Proof.
  unfold EveSDE.get_SDE_update, World.bind, World.try.
  destruct (EveSDE.read_SDE_latest_info u) as [[[k b] r]|]; [| done].
  destruct (EveSDE.update_SDE u d) as [[[]|] d']; [| done].
  destruct r; try done. cbv zeta.
  unfold write_file, read_disk, append_file.
  destruct (creatable _); [| done]. cbn [eve_sde_jsonl eve_sde_update].
  rewrite lookup_insert_eq. cbn [from_option id app].
  by rewrite insert_insert_eq.
Qed.

(** [UpdateWorker.run] in one step. *)
Lemma UpdateWorker_run_unfold u d :
  MainWindow.UpdateWorker_run u d
  = match MainWindow.read_SDE_latest_info u with
    | None => (None, d)
    | Some (_, b, r) =>
        let sde :=
          if py_eqb (MainWindow.local_buildNumber d) b
          then eve_sde_jsonl d
          else Some (archive u ∪ default ∅ (eve_sde_jsonl d)) in
        let d' := {| eve_sde_jsonl := sde; eve_sde_update := eve_sde_update d |} in
        match r with
        | JStr date =>
            let changes_file :=
              lit "eve_sde_changes_" ++ replace_char 58 45 date ++ lit ".jsonl" in
            if creatable changes_file
            then (Some (),
                  {| eve_sde_jsonl := sde;
                     eve_sde_update :=
                       <[changes_file
                         := MainWindow.change_log (default ∅ sde)
                              (changes_jsonl u (str b))]>
                         (eve_sde_update d) |})
            else (None, d')
        | _ => (None, d')
        end
    end.
Proof.
  unfold MainWindow.UpdateWorker_run, MainWindow.get_SDE_update,
    MainWindow.download_latest_eve_SDE_json, World.bind, World.try, read_disk,
    World.ret, extractall, write_file, append_file.
  destruct (MainWindow.read_SDE_latest_info u) as [[[k b] r]|]; [| done].
  destruct d as [sde0 files0]. cbv zeta.
  destruct (py_eqb _ b), r; cbn [eve_sde_jsonl eve_sde_update]; try done.
  all: destruct (creatable _); [| done]; cbn [eve_sde_jsonl eve_sde_update].
  all: rewrite lookup_insert_eq; cbn [from_option id app]; by rewrite insert_insert_eq.
Qed.

End Reconcile.

Section ReconcileExamples.
Import Py World.

(** C3, at the failing input: the manifest lists the removed ids "a"
    and "b", and the script runs twice against the same publisher, in
    two processes that iterate a set of strings in different orders, as
    the hash seed of each process decides.  Both runs return; the
    second finds the snapshot up to date and leaves it, and writes the
    two placeholders the other way round: the change log is not the
    same byte for byte. *)
Theorem C3_hash_seed_orders_the_placeholders :
  let changes_file := lit "eve_sde_changes_2026-01-01T00-00-00Z.jsonl" in
  let a := Demo.to_text (Spec.placeholder (JStr (lit "types")) (JStr (lit "a"))) in
  let b := Demo.to_text (Spec.placeholder (JStr (lit "types")) (JStr (lit "b"))) in
  exists d1 d2,
    @EveSDE.get_SDE_update Demo2.runtime Demo2.process Demo2.platform
      Demo2.publisher_of_strings Demo2.local_disk
    = (Some (), d1)
    /\ @EveSDE.get_SDE_update Demo2.runtime Demo2.other_process Demo2.platform
         Demo2.publisher_of_strings d1
       = (Some (), d2)
    /\ eve_sde_jsonl d2 = eve_sde_jsonl d1
    /\ eve_sde_update d1 !! changes_file = Some [a; b]
    /\ eve_sde_update d2 !! changes_file = Some [b; a]
    /\ @MainWindow.UpdateWorker_run Demo2.runtime Demo2.process Demo2.platform
         Demo2.publisher_of_strings Demo2.local_disk
       = (Some (), d1)
    /\ @MainWindow.UpdateWorker_run Demo2.runtime Demo2.other_process Demo2.platform
         Demo2.publisher_of_strings d1
       = (Some (), d2).
Proof.
  cbv zeta. eexists _, _.
  split; [vm_compute; reflexivity |].
  split; [vm_compute; reflexivity |].
  repeat split; vm_compute; reflexivity.
Qed.

End ReconcileExamples.

(** ** The properties on the sample data *)

Section Samples.
Import Py World.
#[local] Existing Instance Demo.runtime.
#[local] Existing Instance Demo.process.
#[local] Existing Instance Demo.platform.

#[local] Ltac evaluate :=
  first [ reflexivity
        | vm_compute; reflexivity
        | intros ?; discriminate ].


(** C2 on the sample entry of a new table with the records 1 and 2. *)
Lemma C2_fileAdded_witness :
  MainWindow.change_log Demo.new_table_snapshot [Demo.to_text Demo.manifest_new_table]
  = [dumps (tagged (JStr (lit "types")) (lit "added") (Demo.tritanium_fields (JNum 1)));
     dumps (tagged (JStr (lit "types")) (lit "added") (Demo.tritanium_fields (JNum 2)))]
  /\ EveSDE.change_log Demo.new_table_snapshot [Demo.to_text Demo.manifest_new_table] = [].
Proof.
  apply (C2_fileAdded_is_ignored_by_the_script (lit "types") (JNum 1) (JNum 2)
           (Demo.to_text Demo.manifest_new_table)
           [(lit "_key", JStr (lit "types")); (lit "fileAdded", JBool true)]
           (Demo.tritanium_fields (JNum 1)) (Demo.tritanium_fields (JNum 2))
           (Demo.to_text (Demo.tritanium (JNum 1)))
           (Demo.to_text (Demo.tritanium (JNum 2)))
           Demo.new_table_snapshot); evaluate.
Defined.

End Samples.

(** ** Keywords and tokens *)

Section Tokens.
Import Py Sqlite.
Context `{Runtime}.

Lemma keywords_strip text : EveDB.keywords (strip text) = EveDB.keywords text.
Proof. rewrite !keywords_split. apply split_lower_strip. Qed.

Lemma search_keywords k1 k2 limit items :
  EveDB.keywords k1 = EveDB.keywords k2 ->
  EveDB.search k1 limit items = EveDB.search k2 limit items.
Proof. unfold EveDB.search. by intros ->. Qed.

(** X1.  [start_search] strips the text of the input field and refuses
    an empty keyword: it starts no search exactly when the text is
    empty or white space.  The keyword it hands to the worker has a
    token; its tokens are those of the text as typed, and [search]
    does on it what it does on the text as typed. *)
Theorem start_search_hands_over_a_token (text : pystr) (limit : nat)
    (items : list EveDB.row) :
  match EveSearchApp.start_search text with
  | None => spaces text
  | Some keyword =>
      ~ spaces text
      /\ keyword = strip text
      /\ EveDB.keywords keyword <> []
      /\ EveDB.keywords keyword = EveDB.keywords text
      /\ EveDB.search keyword limit items = EveDB.search text limit items
  end.
Proof.
  unfold EveSearchApp.start_search.
  destruct (strip text) as [|c kw] eqn:Hstrip.
  - by apply strip_nil.
  - assert (~ spaces text) as Hno.
    { intros Hs. apply strip_nil in Hs. congruence. }
    split; [done|]. split; [done|]. rewrite <- Hstrip.
    split; [| split].
    + rewrite keywords_strip. by rewrite keywords_nil.
    + apply keywords_strip.
    + apply search_keywords, keywords_strip.
Qed.

(** X2.  When [search] returns for two keywords with the same set of
    tokens, whatever their order, their repetitions, the case of their
    letters and the white space around them, it returns the same
    rows. *)
Theorem search_depends_on_the_token_set (k1 k2 : pystr) (limit : nat)
    (items : list EveDB.row) :
  EveDB.keywords k1 ⊆ EveDB.keywords k2 ->
  EveDB.keywords k2 ⊆ EveDB.keywords k1 ->
  is_Some (EveDB.search k1 limit items) ->
  is_Some (EveDB.search k2 limit items) ->
  EveDB.search k1 limit items = EveDB.search k2 limit items.
Proof.
  intros H12 H21 [r1 Hr1] [r2 Hr2]. rewrite Hr1, Hr2. f_equal.
  apply search_Some in Hr1 as (_ & _ & ->).
  apply search_Some in Hr2 as (_ & _ & ->).
  do 2 f_equal. apply list_filter_iff. intros r.
  rewrite !selected_Forall, !Forall_forall.
  split; intros Hall tok Htok; apply Hall; auto.
Qed.

End Tokens.

Section TokensSamples.
Import Py.
#[local] Existing Instance Demo.runtime.

Lemma search_depends_on_the_token_set_witness :
  EveDB.search (lit "  Tritanium 34 TRITANIUM") EveDB.default_limit Demo.index
  = EveDB.search (lit "34 tritanium") EveDB.default_limit Demo.index.
Proof.
  assert (EveDB.keywords (lit "  Tritanium 34 TRITANIUM")
          = [lit "tritanium"; lit "34"; lit "tritanium"]) as E1
    by (vm_compute; reflexivity).
  assert (EveDB.keywords (lit "34 tritanium") = [lit "34"; lit "tritanium"]) as E2
    by (vm_compute; reflexivity).
  apply search_depends_on_the_token_set.
  - rewrite E1, E2. intros tok; rewrite !elem_of_cons, !elem_of_nil; tauto.
  - rewrite E1, E2. intros tok; rewrite !elem_of_cons, !elem_of_nil; tauto.
  - eexists. vm_compute. reflexivity.
  - eexists. vm_compute. reflexivity.
Defined.

End TokensSamples.

(** ** Rebuilding the index and searching it *)

Section RebuildProperties.
Import Py Os Sqlite.
Context `{Runtime} `{Platform}.

(** X3.  The batches of [build_index] are invisible.  When the row of
    every line that is not passed over can be stored, the call returns
    [True] and has added, after the rows the table had, the rows of the
    lines of the [.jsonl] files in the order of the files and of their
    lines; when one row cannot be stored (a name that is a list, a dict
    or an integer beyond 64 bits, a text with a surrogate) the call raises and the table is as
    it was, wherever the record stands in its batch. *)
Theorem build_index_is_the_rows_of_the_lines
    (sde_dir : gmap (list N) (list (list N))) (items : list EveDB.row) :
  EveDB.build_index sde_dir items
  = if IndexSpec.all_storable (IndexSpec.jsonl_files sde_dir)
    then (Some true, items ++ IndexSpec.rows_of_files (IndexSpec.jsonl_files sde_dir))
    else (None, items).
Proof. apply build_index_rows. Qed.

(** X5.  A rebuilt index holds the rows of the snapshot and no other:
    the rows the store had before are gone, and a row is in the store
    exactly when it is the row of a line of a [.jsonl] file of the
    snapshot directory; its source file is the name of that file and
    its JSON text the stripped line. *)
Theorem rebuilt_index_holds_the_snapshot
    (dir : gmap (list N) (list (list N))) (items rows : list EveDB.row)
    (r : EveDB.row) :
  MainWindow.IndexWorker_run (Some dir) items = (true, rows) ->
  r ∈ rows
  <-> exists lines line,
        dir !! EveDB.source_file r = Some lines
        /\ endswith (lit ".jsonl") (EveDB.source_file r) = true
        /\ line ∈ lines
        /\ EveDB.json_data r = strip line
        /\ EveDB.index_line (EveDB.source_file r) line ≫= EveDB.insert = Some r.
Proof.
  intros (dir' & [= <-] & ->)%rebuilt_rows. rewrite rows_of_files_elem. split.
  - intros (f & lines & line & [Hf Hlines]%jsonl_files_elem & Hline & Hrow).
    destruct (line_row_search_text _ _ _ Hrow) as (_ & _ & <- & Hdata).
    by exists lines, line.
  - intros (lines & line & Hlines & Hf & Hline & _ & Hrow).
    exists (EveDB.source_file r), lines, line.
    split; [by apply jsonl_files_elem|]. done.
Qed.
(** X6.  Index and search round trip: on a rebuilt index, the
    conditions of the search for the id of a row select that row, when
    the id in lower case holds no null character (the tokens of the id
    are blocks of the search text, which starts with the id in lower
    case); when the search returns, the result is the first [limit]
    selected rows. *)
Theorem search_for_the_id_of_a_row
    (sde_dir : option (gmap (list N) (list (list N))))
    (items rows : list EveDB.row) (r : EveDB.row) (limit : nat) :
  MainWindow.IndexWorker_run sde_dir items = (true, rows) ->
  r ∈ rows ->
  0 ∉ lower (EveDB.id r) ->
  let params :=
    map (fun kw => lit "%" ++ kw ++ lit "%") (EveDB.keywords (EveDB.id r)) in
  r ∈ filter (fun r' => EveDB.selected params r' = true) rows
  /\ forall results,
       EveDB.search (EveDB.id r) limit rows = Some results ->
       results
       = map EveDB.to_result
           (take limit (filter (fun r' => EveDB.selected params r' = true) rows)).
Proof.
  intros Hrun Hr Hnul params. split.
  - apply list_elem_of_filter. split; [| done].
    apply selected_Forall.
    apply rebuilt_rows in Hrun as (dir & -> & ->).
    apply rows_of_files_elem in Hr as (f & lines & line & _ & _ & Hrow).
    destruct (line_row_search_text _ _ _ Hrow) as (rest & Htext & _).
    rewrite keywords_split.
    eapply Forall_impl; [apply split_Substring|]. intros tok Htok. cbn beta in Htok.
    apply like_param_Substring.
    + destruct Htok as (a & b & Hab). rewrite Hab in Hnul.
      by apply not_elem_of_app in Hnul as [_ [? _]%not_elem_of_app].
    + rewrite Htext, c_string_app by done.
      eapply Substring_trans; [exact Htok|]. by exists [], (c_string (32 :: rest)).
  - intros results Hs. by apply search_Some in Hs as (_ & _ & ->).
Qed.

End RebuildProperties.

Section RebuildSamples.
Import Py Sqlite.
#[local] Existing Instance Demo.runtime.
#[local] Existing Instance Demo.platform.


Lemma rebuilt_index_holds_the_snapshot_witness :
  Demo.row_34 ∈ [Demo.row_34; Demo.row_35]
  <-> exists lines line,
        Demo.snapshot !! EveDB.source_file Demo.row_34 = Some lines
        /\ endswith (lit ".jsonl") (EveDB.source_file Demo.row_34) = true
        /\ line ∈ lines
        /\ EveDB.json_data Demo.row_34 = strip line
        /\ EveDB.index_line (EveDB.source_file Demo.row_34) line ≫= EveDB.insert
           = Some Demo.row_34.
Proof.
  apply (rebuilt_index_holds_the_snapshot Demo.snapshot []).
  vm_compute. reflexivity.
Defined.

Lemma search_for_the_id_of_a_row_witness :
  let params :=
    map (fun kw => lit "%" ++ kw ++ lit "%") (EveDB.keywords (EveDB.id Demo.row_34)) in
  Demo.row_34
    ∈ filter (fun r' => EveDB.selected params r' = true) [Demo.row_34; Demo.row_35]
  /\ forall results,
       EveDB.search (EveDB.id Demo.row_34) 1000 [Demo.row_34; Demo.row_35]
       = Some results ->
       results
       = map EveDB.to_result
           (take 1000
              (filter (fun r' => EveDB.selected params r' = true)
                 [Demo.row_34; Demo.row_35])).
Proof.
  apply (search_for_the_id_of_a_row (Some Demo.snapshot) []
           [Demo.row_34; Demo.row_35] Demo.row_34 1000).
  - vm_compute. reflexivity.
  - apply list_elem_of_here.
  - intros Hin. repeat (apply elem_of_cons in Hin as [Hin | Hin]; [done |]).
    by apply elem_of_nil in Hin.
Defined.

End RebuildSamples.

(** ** Search without an index: the window and the command line *)

Section Paths.
Import Py Os World.
Context `{Runtime} `{Platform}.

(** X7.  In the search without an index the substring test is a short
    cut only: a line gives a result exactly when it parses to a record
    whose two names are strings and every token of the keyword is a
    subsequence of the lower-case name text. *)
Theorem fallback_keeps_the_subsequences (keyword file_name line : pystr) :
  (exists s, SearchGui.line_signal (split (lower keyword)) file_name line
             = Some (Some s))
  <-> exists data ft,
        loads line = Some data
        /\ Spec.name_text data = Some ft
        /\ Forall (fun kw => kw `sublist_of` ft) (split (lower keyword)).
Proof.
  rewrite line_signal_kept. split.
  - intros (data & ft & Hl & Hn & Hall). exists data, ft.
    split; [done|]. split; [done|].
    eapply Forall_impl; [exact Hall|]. intros kw [Hsub|Hseq]; [| done].
    by apply Substring_sublist.
  - intros (data & ft & Hl & Hn & Hall). exists data, ft.
    split; [done|]. split; [done|].
    eapply Forall_impl; [exact Hall|]. intros kw Hseq. by right.
Qed.

Lemma names_agree name_data : EveSearch.names name_data = SearchGui.names name_data.
Proof. done. Qed.

(** What a result of the command line search says of its line. *)
Lemma line_outcome_hit keyword_lower line i zh en :
  EveSearch.line_outcome keyword_lower line = EveSearch.hit i zh en ->
  exists fields,
    loads line = Some (JObj fields)
    /\ SearchGui.names (default (JObj []) (dict_get (lit "name") fields)) = (en, zh)
    /\ ((exists e, en = JStr e /\ contains keyword_lower (lower e) = true)
        \/ (exists z, zh = JStr z /\ contains keyword_lower (lower z) = true)).
Proof.
  unfold EveSearch.line_outcome.
  destruct (loads line) as [[| | | | | |fields]|]; try done.
  rewrite names_agree.
  destruct (SearchGui.names (default (JObj []) (dict_get (lit "name") fields)))
    as [en' zh'] eqn:Hnames.
  destruct (negb (truthy en') && negb (truthy zh')); [done|].
  destruct en' as [| | | |e| |]; try done.
  destruct (contains keyword_lower (lower e)) eqn:He.
  - intros [= <- <- <-]. exists fields. split; [done|]. split; [done|].
    left. by exists e.
  - destruct zh' as [| | | |z| |]; try done.
    destruct (contains keyword_lower (lower z)) eqn:Hz; [| done].
    intros [= <- <- <-]. exists fields. split; [done|]. split; [done|].
    right. by exists z.
Qed.

(** X8.  A result of the command line search whose two names are
    strings is a result of the search window without an index, for the
    same keyword: the keyword, taken whole by the command line, is a
    block of one name, so each of its tokens is a block of the name
    text. *)
Theorem command_line_hit_is_kept_by_the_window
    (keyword file_name line : pystr) (i : json) (zh en : pystr) :
  EveSearch.line_outcome (lower keyword) line = EveSearch.hit i (JStr zh) (JStr en) ->
  exists s,
    SearchGui.line_signal (split (lower keyword)) file_name line = Some (Some s).
Proof.
  intros (fields & Hl & Hnames & Hblock)%line_outcome_hit.
  apply line_signal_kept. exists (JObj fields), (lower (en ++ lit " " ++ zh)).
  split; [done|]. split.
  { unfold Spec.name_text. cbn [get mbind option_bind]. by rewrite Hnames. }
  assert (Substring (lower keyword) (lower (en ++ lit " " ++ zh))) as Hkw.
  { rewrite lower_at_lit_space.
    destruct Hblock as [(e & [= <-] & He)|(z & [= <-] & Hz)].
    - apply contains_spec in He. by apply Substring_app_l.
    - apply contains_spec in Hz. by do 2 apply Substring_app_r. }
  eapply Forall_impl; [apply split_Substring|]. intros tok Htok. cbn beta in Htok.
  left. by eapply Substring_trans.
Qed.

Lemma line_outcome_stop keyword_lower line v :
  loads line = Some v ->
  (forall fields, v <> JObj fields) ->
  EveSearch.line_outcome keyword_lower line = EveSearch.stop.
Proof.
  unfold EveSearch.line_outcome. intros -> Hv.
  destruct v; try done. by destruct (Hv fields).
Qed.

Lemma line_signal_not_an_object kws file_name line v :
  loads line = Some v ->
  (forall fields, v <> JObj fields) ->
  SearchGui.line_signal kws file_name line = None.
Proof.
  unfold SearchGui.line_signal. intros -> Hv.
  destruct v; try done. by destruct (Hv fields).
Qed.

(** X9.  A line that is JSON but not an object (a number, a string, a
    list, [null]) ends the scan of its file on the command line, where
    only a decoding error is caught per line: the results are those of
    the lines before it.  The search window passes over the line and
    goes on with the lines after it. *)
Theorem a_line_that_is_no_object_ends_the_scan
    (keyword_lower file_name bad : pystr) (v : json) (kws : list pystr)
    (before after : list pystr) :
  loads bad = Some v ->
  (forall fields, v <> JObj fields) ->
  EveSearch.scan keyword_lower (before ++ bad :: after)
  = EveSearch.scan keyword_lower before
  /\ SearchGui.file_signals kws file_name (before ++ bad :: after)
     = SearchGui.file_signals kws file_name before
         ++ SearchGui.file_signals kws file_name after.
Proof.
  intros Hl Hv. split.
  - induction before as [|line before IH]; cbn [app EveSearch.scan].
    + by rewrite (line_outcome_stop _ _ _ Hl Hv).
    + destruct (EveSearch.line_outcome keyword_lower line); [done| |done].
      by rewrite IH.
  - unfold SearchGui.file_signals. rewrite flat_map_app. cbn [flat_map].
    by rewrite (line_signal_not_an_object _ _ _ _ Hl Hv).
Qed.

End Paths.

Section PathsSamples.
Import Py World.
#[local] Existing Instance Demo.platform.

Lemma command_line_hit_witness :
  exists s,
    SearchGui.line_signal (H := Demo.runtime) (split (@lower Demo.runtime (lit "Trit")))
      (lit "types.jsonl") (Demo.to_text Demo.nameless_id)
    = Some (Some s).
Proof.
  apply (command_line_hit_is_kept_by_the_window (H := Demo.runtime) (lit "Trit")
           (lit "types.jsonl") (Demo.to_text Demo.nameless_id) JNull
           (lit "Tritanium") (lit "Tritanium")).
  vm_compute. reflexivity.
Defined.

Lemma a_line_that_is_no_object_witness :
  EveSearch.scan (H := Demo2.runtime) (lit "tritanium")
    ([Demo.to_text (Demo.tritanium (JNum 1))]
       ++ Demo.to_text (JArr [JNum 1]) :: [Demo.to_text (Demo.tritanium (JNum 2))])
  = EveSearch.scan (H := Demo2.runtime) (lit "tritanium")
      [Demo.to_text (Demo.tritanium (JNum 1))]
  /\ SearchGui.file_signals (H := Demo2.runtime) [lit "tritanium"] (lit "types.jsonl")
       ([Demo.to_text (Demo.tritanium (JNum 1))]
          ++ Demo.to_text (JArr [JNum 1]) :: [Demo.to_text (Demo.tritanium (JNum 2))])
     = SearchGui.file_signals (H := Demo2.runtime) [lit "tritanium"] (lit "types.jsonl")
         [Demo.to_text (Demo.tritanium (JNum 1))]
         ++ SearchGui.file_signals (H := Demo2.runtime) [lit "tritanium"]
              (lit "types.jsonl") [Demo.to_text (Demo.tritanium (JNum 2))].
Proof.
  apply (a_line_that_is_no_object_ends_the_scan (H := Demo2.runtime) (lit "tritanium")
           (lit "types.jsonl") (Demo.to_text (JArr [JNum 1])) (JArr [JNum 1])).
  - vm_compute. reflexivity.
  - discriminate.
Defined.

End PathsSamples.

(** ** The updaters: script and worker *)

Section Updaters.
Import Py Os World.
Context `{Runtime} `{!Process} `{Platform}.

(** X10.  Tagging a record of a table for the change log: the line
    written has the status and the table of its manifest entry, whatever
    [_status] or [_source_table] the record had, and every other field
    of the record with its value. *)
Theorem tagged_record_keeps_the_fields (key : json) (status : pystr)
    (fields : list (pystr * json)) :
  exists written,
    tagged key status fields = JObj written
    /\ dict_get (lit "_status") written = Some (JStr status)
    /\ dict_get (lit "_source_table") written = Some key
    /\ forall k,
         k <> lit "_status" -> k <> lit "_source_table" ->
         dict_get k written = dict_get k fields.
Proof.
  eexists. split; [reflexivity|]. split; [apply dict_get_set_eq|]. split.
  - rewrite dict_get_set_ne by done. apply dict_get_set_eq.
  - intros k Hk1 Hk2. by rewrite !dict_get_set_ne.
Qed.

Lemma status_of_agree a c fa i :
  truthy fa = false -> MainWindow.status_of a c fa i = EveSDE.status_of a c i.
Proof.
  intros Hfa. unfold MainWindow.status_of, EveSDE.status_of.
  destruct (set_in i a) as [[]|]; try done.
  destruct (set_in i c) as [[]|]; try done. by rewrite Hfa.
Qed.

Lemma record_lines_agree key a c fa f_line :
  truthy fa = false ->
  MainWindow.record_lines key a c fa f_line = EveSDE.record_lines key a c f_line.
Proof.
  intros Hfa. unfold MainWindow.record_lines, EveSDE.record_lines.
  destruct (loads f_line) as [data|]; [| done]. cbn [mbind option_bind].
  destruct (get data (lit "_key") JNull) as [i|]; [| done]. cbn [mbind option_bind].
  by rewrite status_of_agree.
Qed.

Lemma len_set_zero a c r :
  ((len_set a + len_set c + len_set r =? 0)%nat)
  = negb (nonempty a || nonempty c || nonempty r).
Proof.
  unfold len_set. destruct a as [|x a]; cbn [distinct length nonempty orb].
  - destruct c as [|y c]; cbn [distinct length nonempty orb Nat.add].
    + by destruct r.
    + done.
  - done.
Qed.

Lemma entry_lines_agree sde line :
  match loads line with
  | Some (JObj fields) =>
      truthy (default (JBool false) (dict_get (lit "fileAdded") fields)) = false
  | _ => True
  end ->
  MainWindow.entry_lines sde line = EveSDE.entry_lines sde line.
Proof.
  unfold MainWindow.entry_lines, EveSDE.entry_lines.
  destruct (loads line) as [[| | | | | |fields]|]; try done.
  intros Hfa. cbn [get mbind option_bind].
  destruct (py_eqb _ (JStr (lit "_meta"))); [done|].
  destruct (set (default (JArr []) (dict_get (lit "added") fields))) as [a|];
    [| done]. cbn [mbind option_bind].
  destruct (set (default (JArr []) (dict_get (lit "changed") fields))) as [c|];
    [| done]. cbn [mbind option_bind].
  destruct (set (default (JArr []) (dict_get (lit "removed") fields))) as [r|];
    [| done]. cbn [mbind option_bind].
  rewrite Hfa, len_set_zero, andb_true_r, orb_false_r.
  destruct (negb (nonempty a || nonempty c || nonempty r)); [done|].
  do 2 f_equal. destruct (nonempty a || nonempty c); [| done].
  destruct (sde !! _) as [f|]; [| done].
  apply flat_map_ext. intros f_line. by apply record_lines_agree.
Qed.

Lemma change_logs_agree
    (sde : gmap (list N) (list (list N))) (response : list pystr) :
  Forall (fun line =>
            match loads line with
            | Some (JObj fields) =>
                truthy (default (JBool false) (dict_get (lit "fileAdded") fields))
                = false
            | _ => True
            end)
         response ->
  MainWindow.change_log sde response = EveSDE.change_log sde response.
Proof.
  unfold MainWindow.change_log, EveSDE.change_log.
  induction 1 as [|line response Hline _ IH]; [done|].
  cbn [flat_map]. rewrite IH. f_equal.
  destruct line; [done|]. by rewrite entry_lines_agree.
Qed.

(** X11.  The script and the worker write the same change log for a
    manifest in which no entry has a true [fileAdded], whatever the
    snapshot holds: the two copies of the loop differ in the treatment
    of [fileAdded] only. *)
Theorem script_and_worker_write_the_same_log
    (sde : gmap (list N) (list (list N))) (response : list pystr) :
  Forall (fun line =>
            match loads line with
            | Some (JObj fields) =>
                truthy (default (JBool false) (dict_get (lit "fileAdded") fields))
                = false
            | _ => True
            end)
         response ->
  MainWindow.change_log sde response = EveSDE.change_log sde response.
Proof. apply change_logs_agree. Qed.


Lemma replace_char_other c old new s :
  c <> old -> c ∈ s -> c ∈ replace_char old new s.
Proof.
  intros Hc Hin. unfold replace_char. apply list_elem_of_fmap. exists c.
  split; [| done]. destruct (N.eqb_spec c old); done.
Qed.

(** A release date with a slash gives a file name that cannot be
    created in the directory of the change logs. *)
Lemma slash_is_not_creatable date :
  47 ∈ date ->
  creatable (lit "eve_sde_changes_" ++ replace_char 58 45 date ++ lit ".jsonl") = false.
Proof.
  intros Hin. destruct (creatable _) eqn:Hc; [| done].
  apply creatable_flat in Hc as [Hslash _]. destruct Hslash.
  apply elem_of_app. right. apply elem_of_app. left.
  by apply replace_char_other.
Qed.

(** X13.  When the updaters return.  The script returns exactly when
    [latest.jsonl] gives the three fields with a release date that is a
    string, the change log named after that date can be created and,
    if the snapshot directory exists, the first line of its
    [_sde.jsonl] gives a build number; the worker asks the first two
    only: a snapshot whose build number cannot be read is not an error
    for it.  Of the release date only the colons are replaced: with a
    slash in it both raise.  A run that raises has written no change
    log. *)
Theorem when_the_updaters_return (u : upstream) (d : disk) :
  ((EveSDE.get_SDE_update u d).1 = Some ()
   <-> (exists k b date,
          EveSDE.read_SDE_latest_info u = Some (k, b, JStr date)
          /\ creatable (lit "eve_sde_changes_" ++ replace_char 58 45 date ++ lit ".jsonl")
             = true)
       /\ match eve_sde_jsonl d with
          | None => True
          | Some dir =>
              exists f data cur,
                dir !! lit "_sde.jsonl" = Some f
                /\ loads (default [] (head f)) = Some data
                /\ subscript data (lit "buildNumber") = Some cur
          end)
  /\ ((MainWindow.UpdateWorker_run u d).1 = Some ()
      <-> exists k b date,
            MainWindow.read_SDE_latest_info u = Some (k, b, JStr date)
            /\ creatable (lit "eve_sde_changes_" ++ replace_char 58 45 date ++ lit ".jsonl")
               = true)
  /\ (forall k b date,
        EveSDE.read_SDE_latest_info u = Some (k, b, JStr date) ->
        47 ∈ date ->
        (EveSDE.get_SDE_update u d).1 = None
        /\ (MainWindow.UpdateWorker_run u d).1 = None)
  /\ ((EveSDE.get_SDE_update u d).1 = None ->
      eve_sde_update (EveSDE.get_SDE_update u d).2 = eve_sde_update d)
  /\ ((MainWindow.UpdateWorker_run u d).1 = None ->
      eve_sde_update (MainWindow.UpdateWorker_run u d).2 = eve_sde_update d).
Proof.
  assert (Hscript :
    (EveSDE.get_SDE_update u d).1 = Some ()
    <-> (exists k b date,
           EveSDE.read_SDE_latest_info u = Some (k, b, JStr date)
           /\ creatable (lit "eve_sde_changes_" ++ replace_char 58 45 date ++ lit ".jsonl")
              = true)
        /\ match eve_sde_jsonl d with
           | None => True
           | Some dir =>
               exists f data cur,
                 dir !! lit "_sde.jsonl" = Some f
                 /\ loads (default [] (head f)) = Some data
                 /\ subscript data (lit "buildNumber") = Some cur
           end).
  { rewrite get_SDE_update_unfold, update_SDE_unfold.
    destruct (EveSDE.read_SDE_latest_info u) as [[[k b] r]|].
    2: { split; [done|]. by intros [(? & ? & ? & ? & _) _]. }
    destruct d as [sde files]. cbn [eve_sde_jsonl eve_sde_update].
    destruct sde as [dir|].
    - destruct (dir !! lit "_sde.jsonl") as [f|] eqn:Hf; cbn [mbind option_bind].
      2: { split; [done|]. by intros [_ (? & ? & ? & ? & _)]. }
      destruct (loads (default [] (head f))) as [data|] eqn:Hdata;
        cbn [mbind option_bind].
      2: { split; [done|]. intros [_ (? & ? & ? & [= <-] & ? & _)]. congruence. }
      destruct (subscript data (lit "buildNumber")) as [cur|] eqn:Hcur.
      2: { split; [done|]. intros [_ (? & ? & ? & [= <-] & ? & ?)]. congruence. }
      destruct (py_eqb cur b), r; cbn [fst]; cbv zeta;
        try (split; [done | by intros [(? & ? & ? & ? & _) _]]).
      all: destruct (creatable _) eqn:Hc; cbn [fst].
      all: try (split; [done | intros [(? & ? & ? & [= <- <- <-] & ?) _]; congruence]).
      all: split; [intros _ | done]; split; [by eexists _, _, _ | by eexists _, _, _].
    - destruct r; cbn [fst]; cbv zeta;
        try (split; [done | by intros [(? & ? & ? & ? & _) _]]).
      destruct (creatable _) eqn:Hc; cbn [fst].
      + split; [intros _ | done]. split; [by eexists _, _, _ | done].
      + split; [done | intros [(? & ? & ? & [= <- <- <-] & ?) _]; congruence]. }
  assert (Hworker :
    (MainWindow.UpdateWorker_run u d).1 = Some ()
    <-> exists k b date,
          MainWindow.read_SDE_latest_info u = Some (k, b, JStr date)
          /\ creatable (lit "eve_sde_changes_" ++ replace_char 58 45 date ++ lit ".jsonl")
             = true).
  { rewrite UpdateWorker_run_unfold.
    destruct (MainWindow.read_SDE_latest_info u) as [[[k b] r]|].
    2: { split; [done|]. by intros (? & ? & ? & ? & _). }
    cbv zeta. destruct r; cbn [fst];
      try (split; [done | by intros (? & ? & ? & ? & _)]).
    destruct (creatable _) eqn:Hc; cbn [fst].
    - split; [intros _ | done]. by eexists _, _, _.
    - split; [done | intros (? & ? & ? & [= <- <- <-] & ?); congruence]. }
  split; [exact Hscript |]. split; [exact Hworker |]. split; [| split].
  - intros k b date Hlatest Hslash.
    pose proof (slash_is_not_creatable date Hslash) as Hno. split.
    + destruct ((EveSDE.get_SDE_update u d).1) as [[]|]; [| done].
      destruct (proj1 Hscript eq_refl) as [(k' & b' & date' & Hl & Hc) _].
      rewrite Hlatest in Hl. injection Hl as <- <- <-. congruence.
    + destruct ((MainWindow.UpdateWorker_run u d).1) as [[]|]; [| done].
      destruct (proj1 Hworker eq_refl) as (k' & b' & date' & Hl & Hc).
      change (MainWindow.read_SDE_latest_info u) with (EveSDE.read_SDE_latest_info u) in Hl.
      rewrite Hlatest in Hl. injection Hl as <- <- <-. congruence.
  - rewrite get_SDE_update_unfold, update_SDE_unfold.
    destruct (EveSDE.read_SDE_latest_info u) as [[[k b] r]|]; [| done].
    destruct d as [sde files]. cbn [eve_sde_jsonl eve_sde_update].
    destruct sde as [dir|].
    + destruct (dir !! lit "_sde.jsonl") as [f|]; cbn [mbind option_bind]; [| done].
      destruct (loads (default [] (head f))) as [data|]; cbn [mbind option_bind];
        [| done].
      destruct (subscript data (lit "buildNumber")) as [cur|]; [| done].
      destruct (py_eqb cur b), r; cbv zeta; try done.
      all: by destruct (creatable _).
    + destruct r; cbv zeta; try done. by destruct (creatable _).
  - rewrite UpdateWorker_run_unfold.
    destruct (MainWindow.read_SDE_latest_info u) as [[[k b] r]|]; [| done].
    cbv zeta. destruct r; try done. by destruct (creatable _).
Qed.

(** X14.  The snapshot after an update.  With a snapshot whose
    [_sde.jsonl] gives a build number, script and worker leave the
    snapshot directory as it is when that number equals the latest one,
    and otherwise unpack the archive over it: a file the archive does
    not hold is never deleted, so a table the publisher has dropped
    stays in the snapshot. *)
Theorem snapshot_after_an_update (u : upstream) (d : disk)
    (dir : gmap (list N) (list (list N))) (f : list pystr)
    (data : list (pystr * json)) (cur k b r : json) :
  eve_sde_jsonl d = Some dir ->
  dir !! lit "_sde.jsonl" = Some f ->
  loads (default [] (head f)) = Some (JObj data) ->
  dict_get (lit "buildNumber") data = Some cur ->
  EveSDE.read_SDE_latest_info u = Some (k, b, r) ->
  let after := if py_eqb cur b then dir else archive u ∪ dir in
  eve_sde_jsonl (EveSDE.get_SDE_update u d).2 = Some after
  /\ eve_sde_jsonl (MainWindow.UpdateWorker_run u d).2 = Some after
  /\ forall name, archive u !! name = None -> after !! name = dir !! name.
Proof.
  intros Hd Hf Hdata Hcur Hlatest after. destruct d as [sde files].
  cbn [eve_sde_jsonl] in Hd. subst sde. split; [| split].
  - rewrite get_SDE_update_unfold, update_SDE_unfold, Hlatest.
    cbn [eve_sde_jsonl eve_sde_update]. rewrite Hf. cbn [mbind option_bind].
    rewrite Hdata. cbn [mbind option_bind subscript]. rewrite Hcur.
    unfold after. destruct (py_eqb cur b), r; cbv zeta; try done.
    all: by destruct (creatable _).
  - rewrite UpdateWorker_run_unfold.
    change (MainWindow.read_SDE_latest_info u) with (EveSDE.read_SDE_latest_info u).
    rewrite Hlatest. unfold MainWindow.local_buildNumber.
    cbn [eve_sde_jsonl eve_sde_update mbind option_bind]. rewrite Hf, Hdata.
    cbn [mbind option_bind get from_option id]. rewrite Hcur.
    cbn [from_option id]. unfold after. cbv zeta.
    destruct (py_eqb cur b), r; try done.
    all: by destruct (creatable _).
  - intros name Hnone. unfold after. destruct (py_eqb cur b); [done|].
    by apply lookup_union_r.
Qed.

End Updaters.

Section UpdatersSamples.
Import Py World.
#[local] Existing Instance Demo.process.
#[local] Existing Instance Demo2.process.
#[local] Existing Instance Demo.platform.

Lemma script_and_worker_witness :
  MainWindow.change_log (H := Demo.runtime) Demo.updated_snapshot
    [Demo.to_text Demo.manifest_entry]
  = EveSDE.change_log (H := Demo.runtime) Demo.updated_snapshot
      [Demo.to_text Demo.manifest_entry].
Proof.
  apply (script_and_worker_write_the_same_log (H := Demo.runtime)).
  apply Forall_singleton. vm_compute. reflexivity.
Defined.


Lemma snapshot_after_an_update_witness :
  eve_sde_jsonl (EveSDE.get_SDE_update (H := Demo2.runtime) Demo2.publisher
                   Demo2.local_disk).2
  = Some (archive Demo2.publisher ∪ Demo2.old_snapshot)
  /\ eve_sde_jsonl (MainWindow.UpdateWorker_run (H := Demo2.runtime) Demo2.publisher
                      Demo2.local_disk).2
     = Some (archive Demo2.publisher ∪ Demo2.old_snapshot)
  /\ forall name,
       archive Demo2.publisher !! name = None ->
       (archive Demo2.publisher ∪ Demo2.old_snapshot) !! name
       = Demo2.old_snapshot !! name.
Proof.
  apply (snapshot_after_an_update (H := Demo2.runtime) Demo2.publisher
           Demo2.local_disk Demo2.old_snapshot [Demo.to_text Demo2.local_info]
           [(lit "_key", JStr (lit "sde")); (lit "buildNumber", JNum 99)]
           (JNum 99) (JStr (lit "sde")) (JNum 100)
           (JStr (lit "2026-01-01T00:00:00Z"))).
  - reflexivity.
  - vm_compute. reflexivity.
  - vm_compute. reflexivity.
  - reflexivity.
  - vm_compute. reflexivity.
Defined.

End UpdatersSamples.

(** ** The change log viewer and the detail window *)

Section Windows.
Import Py Os World.
Context `{Runtime} `{!Process} `{Platform}.

Lemma gui_status_values a c fa i st :
  MainWindow.status_of a c fa i = Some (Some st) ->
  st = lit "added" \/ st = lit "changed".
Proof.
  unfold MainWindow.status_of.
  destruct (set_in i a) as [[]|]; [by intros [= <-]; left| |done].
  destruct (set_in i c) as [[]|]; [by intros [= <-]; right| |done].
  destruct (truthy fa); [by intros [= <-]; left | done].
Qed.

Lemma core_status_values a c i st :
  EveSDE.status_of a c i = Some (Some st) ->
  st = lit "added" \/ st = lit "changed".
Proof.
  unfold EveSDE.status_of.
  destruct (set_in i a) as [[]|]; [by intros [= <-]; left| |done].
  destruct (set_in i c) as [[]|]; [by intros [= <-]; right|done|done].
Qed.

Lemma gui_record_line key a c fa f_line l :
  In l (MainWindow.record_lines key a c fa f_line) -> ChangeLogSpec.written key l.
Proof.
  unfold MainWindow.record_lines.
  destruct (loads f_line) as [data|]; [| done]. cbn [mbind option_bind].
  destruct (get data (lit "_key") JNull) as [i|]; [| done]. cbn [mbind option_bind].
  destruct (MainWindow.status_of a c fa i) as [[st|]|] eqn:Hst;
    cbn [mbind option_bind]; destruct data; try done.
  intros [<-|[]]. right. exists st, fields. split; [| done].
  by eapply gui_status_values.
Qed.

Lemma core_record_line key a c f_line l :
  In l (EveSDE.record_lines key a c f_line) -> ChangeLogSpec.written key l.
Proof.
  unfold EveSDE.record_lines.
  destruct (loads f_line) as [data|]; [| done]. cbn [mbind option_bind].
  destruct (get data (lit "_key") JNull) as [i|]; [| done]. cbn [mbind option_bind].
  destruct (EveSDE.status_of a c i) as [[st|]|] eqn:Hst;
    cbn [mbind option_bind]; destruct data; try done.
  intros [<-|[]]. right. exists st, fields. split; [| done].
  by eapply core_status_values.
Qed.

Lemma gui_entry_line sde entry lines l :
  MainWindow.entry_lines sde entry = Some lines ->
  In l lines ->
  exists fields,
    loads entry = Some (JObj fields)
    /\ ChangeLogSpec.written (default JNull (dict_get (lit "_key") fields)) l.
Proof.
  unfold MainWindow.entry_lines.
  destruct (loads entry) as [[| | | | | |fields]|]; try done.
  cbn [get mbind option_bind].
  destruct (py_eqb _ (JStr (lit "_meta"))); [by intros [= <-]|].
  destruct (set (default (JArr []) (dict_get (lit "added") fields))) as [a|];
    [| done]. cbn [mbind option_bind].
  destruct (set (default (JArr []) (dict_get (lit "changed") fields))) as [c|];
    [| done]. cbn [mbind option_bind].
  destruct (set (default (JArr []) (dict_get (lit "removed") fields))) as [r|];
    [| done]. cbn [mbind option_bind].
  destruct (_ && _); [by intros [= <-]|].
  intros [= <-] Hin. exists fields. split; [done|].
  apply in_app_or in Hin as [Hin|Hin].
  - destruct (nonempty r); [| done].
    apply in_map_iff in Hin as (rid & <- & _). left. by exists rid.
  - destruct (_ || _); [| done]. destruct (sde !! _) as [f|]; [| done].
    apply in_flat_map in Hin as (f_line & _ & Hin).
    by eapply gui_record_line.
Qed.

Lemma core_entry_line sde entry lines l :
  EveSDE.entry_lines sde entry = Some lines ->
  In l lines ->
  exists fields,
    loads entry = Some (JObj fields)
    /\ ChangeLogSpec.written (default JNull (dict_get (lit "_key") fields)) l.
Proof.
  unfold EveSDE.entry_lines.
  destruct (loads entry) as [[| | | | | |fields]|]; try done.
  cbn [get mbind option_bind].
  destruct (py_eqb _ (JStr (lit "_meta"))); [by intros [= <-]|].
  destruct (set (default (JArr []) (dict_get (lit "added") fields))) as [a|];
    [| done]. cbn [mbind option_bind].
  destruct (set (default (JArr []) (dict_get (lit "changed") fields))) as [c|];
    [| done]. cbn [mbind option_bind].
  destruct (set (default (JArr []) (dict_get (lit "removed") fields))) as [r|];
    [| done]. cbn [mbind option_bind].
  destruct (negb _); [by intros [= <-]|].
  intros [= <-] Hin. exists fields. split; [done|].
  apply in_app_or in Hin as [Hin|Hin].
  - destruct (nonempty r); [| done].
    apply in_map_iff in Hin as (rid & <- & _). left. by exists rid.
  - destruct (_ || _); [| done]. destruct (sde !! _) as [f|]; [| done].
    apply in_flat_map in Hin as (f_line & _ & Hin).
    by eapply core_record_line.
Qed.

Lemma change_log_line sde response l :
  In l (MainWindow.change_log sde response) \/ In l (EveSDE.change_log sde response) ->
  exists entry fields,
    In entry response
    /\ loads entry = Some (JObj fields)
    /\ ChangeLogSpec.written (default JNull (dict_get (lit "_key") fields)) l.
Proof.
  unfold MainWindow.change_log, EveSDE.change_log.
  intros [Hin|Hin]; apply in_flat_map in Hin as (entry & Hentry & Hin);
    destruct entry as [|ch entry]; try done.
  - destruct (MainWindow.entry_lines sde (ch :: entry)) as [lines|] eqn:Hlines;
      [| done].
    destruct (gui_entry_line _ _ _ _ Hlines Hin) as (fields & ? & ?).
    by exists (ch :: entry), fields.
  - destruct (EveSDE.entry_lines sde (ch :: entry)) as [lines|] eqn:Hlines;
      [| done].
    destruct (core_entry_line _ _ _ _ Hlines Hin) as (fields & ? & ?).
    by exists (ch :: entry), fields.
Qed.

(** The viewer on a tagged record. *)
Lemma load_line_tagged l key st fields :
  loads l = Some (tagged key st fields) ->
  exists c,
    ChangeLogViewer.load_line l = Some c
    /\ ChangeLogViewer.status c = JStr st
    /\ ChangeLogViewer.source c = key
    /\ ChangeLogViewer.item_id c
       = str (py_or (py_or (default JNull (dict_get (lit "_key") fields))
                           (default JNull (dict_get (lit "id") fields)))
                    (JStr (lit "N/A"))).
Proof.
  intros Hl. unfold ChangeLogViewer.load_line. rewrite Hl. unfold tagged.
  cbn [get mbind option_bind]. eexists. split; [reflexivity|].
  cbn [ChangeLogViewer.status ChangeLogViewer.source ChangeLogViewer.item_id].
  rewrite dict_get_set_eq.
  rewrite (dict_get_set_ne (lit "_status") (lit "_source_table")) by done.
  rewrite dict_get_set_eq.
  rewrite !(dict_get_set_ne (lit "_status")) by done.
  by rewrite !(dict_get_set_ne (lit "_source_table")) by done.
Qed.

(** The viewer on the placeholder of a removed record: an id that is
    0 or empty is shown as N/A. *)
Lemma load_line_removed l key rid :
  loads l = Some (removed_record key rid) ->
  ChangeLogViewer.load_line l
  = Some {| ChangeLogViewer.status := JStr (lit "removed");
            ChangeLogViewer.source := key;
            ChangeLogViewer.item_id :=
              str (py_or (py_or rid JNull) (JStr (lit "N/A")));
            ChangeLogViewer.name := JStr [40; 26465; 30446; 24050; 21024; 38500; 41] |}.
Proof.
  intros Hl. unfold ChangeLogViewer.load_line. rewrite Hl. reflexivity.
Qed.

(** X15.  The viewer shows what the updaters wrote.  Every line of a
    change log of the worker or of the script is the text of a record;
    when [json.loads] reads that record back, the viewer shows the line
    with the status it was written with, under its label, and with the
    table of its manifest entry. *)
Theorem viewer_shows_what_the_updaters_wrote
    (sde : gmap (list N) (list (list N))) (response : list pystr) (l : pystr) :
  In l (MainWindow.change_log sde response) \/ In l (EveSDE.change_log sde response) ->
  exists entry fields v,
    In entry response
    /\ loads entry = Some (JObj fields)
    /\ l = dumps v
    /\ (loads l = Some v ->
        exists c st label,
          ChangeLogViewer.load_line l = Some c
          /\ In (st, label)
                [(lit "added", [26032; 22686]);
                 (lit "changed", [20462; 25913]);
                 (lit "removed", [21024; 38500])]
          /\ ChangeLogViewer.status c = JStr st
          /\ ChangeLogViewer.translate_status (ChangeLogViewer.status c) = JStr label
          /\ ChangeLogViewer.source c = default JNull (dict_get (lit "_key") fields)).
Proof.
  intros (entry & fields & Hentry & Hl & Hw)%change_log_line.
  exists entry, fields.
  destruct Hw as [(rid & ->)|(st & rec & Hst & ->)].
  - eexists. split; [done|]. split; [done|]. split; [reflexivity|].
    intros Hback. rewrite (load_line_removed _ _ _ Hback).
    eexists _, (lit "removed"), _. split; [reflexivity|].
    split; [right; right; left; reflexivity|]. done.
  - eexists. split; [done|]. split; [done|]. split; [reflexivity|].
    intros Hback.
    destruct (load_line_tagged _ _ _ _ Hback) as (c & Hc & Hstatus & Hsource & _).
    exists c, st. rewrite Hstatus, Hsource.
    destruct Hst as [-> | ->].
    + eexists. split; [done|]. split; [left; reflexivity|]. done.
    + eexists. split; [done|]. split; [right; left; reflexivity|]. done.
Qed.

Lemma old_record_line key changed_set f_line l :
  In l (SearchGuiUpdate.record_lines key changed_set f_line) ->
  exists fields, l = dumps (JObj (dict_set (lit "_source_table") key fields)).
Proof.
  unfold SearchGuiUpdate.record_lines.
  destruct (loads f_line) as [data|]; [| done]. cbn [mbind option_bind].
  destruct (get data (lit "_key") JNull) as [i|]; [| done]. cbn [mbind option_bind].
  destruct (set_in i changed_set) as [[]|]; cbn [mbind option_bind];
    destruct data; try done.
  intros [<-|[]]. by exists fields.
Qed.

(** X16.  Logs of the first updater.  The first [get_SDE_update] of the
    search window wrote the changed records only, with their table and
    without a status; the viewer shows such a line as changed, with the
    table of its manifest entry. *)
Theorem viewer_shows_old_logs_as_changed
    (sde : gmap (list N) (list (list N))) (response : list pystr) (l : pystr) :
  In l (SearchGuiUpdate.change_log sde response) ->
  exists entry fields record,
    let key := default JNull (dict_get (lit "_key") fields) in
    let v := JObj (dict_set (lit "_source_table") key record) in
    In entry response
    /\ loads entry = Some (JObj fields)
    /\ truthy (default (JArr []) (dict_get (lit "changed") fields)) = true
    /\ l = dumps v
    /\ (loads l = Some v ->
        dict_get (lit "_status") record = None ->
        exists c,
          ChangeLogViewer.load_line l = Some c
          /\ ChangeLogViewer.status c = JStr (lit "changed")
          /\ ChangeLogViewer.translate_status (ChangeLogViewer.status c)
             = JStr [20462; 25913]
          /\ ChangeLogViewer.source c = key).
Proof.
  unfold SearchGuiUpdate.change_log.
  intros (entry & Hentry & Hin)%in_flat_map.
  destruct entry as [|ch entry]; [done|].
  unfold SearchGuiUpdate.entry_lines in Hin.
  destruct (loads (ch :: entry)) as [[| | | | | |fields]|] eqn:Hl; try done.
  cbn [get mbind option_bind] in Hin.
  destruct (py_eqb _ (JStr (lit "_meta"))); [done|].
  destruct (truthy (default (JArr []) (dict_get (lit "changed") fields))) eqn:Ht;
    [| done].
  cbn [negb] in Hin.
  destruct (SearchGuiUpdate.len _) as [n|]; [| done]. cbn [mbind option_bind] in Hin.
  destruct (sde !! _) as [f|]; [| done].
  destruct (set _) as [changed_set|]; [| done]. cbn [mbind option_bind] in Hin.
  cbn [from_option id] in Hin.
  apply in_flat_map in Hin as (f_line & _ & Hin).
  apply old_record_line in Hin as (record & ->).
  exists (ch :: entry), fields, record. cbv zeta.
  split; [done|]. split; [done|]. split; [done|]. split; [done|].
  intros Hback Hstatus. unfold ChangeLogViewer.load_line. rewrite Hback.
  cbn [get mbind option_bind]. eexists. split; [reflexivity|].
  cbn [ChangeLogViewer.status ChangeLogViewer.source].
  rewrite dict_get_set_eq, (dict_get_set_ne (lit "_source_table")) by done.
  by rewrite Hstatus.
Qed.

Lemma split_sep_app sep cur p q :
  DetailWindow.split_sep sep cur (p ++ sep :: q)
  = DetailWindow.split_sep sep cur p ++ DetailWindow.split_sep sep [] q.
Proof.
  revert cur. induction p as [|c p IH]; intros cur; cbn.
  - by rewrite N.eqb_refl.
  - destruct (c =? sep); [| apply IH]. by rewrite IH.
Qed.

Lemma walk_null keys : DetailWindow.walk JNull keys = JNull.
Proof. by destruct keys. Qed.

Lemma walk_app data keys1 keys2 :
  DetailWindow.walk data (keys1 ++ keys2)
  = DetailWindow.walk (DetailWindow.walk data keys1) keys2.
Proof.
  revert data. induction keys1 as [|k keys1 IH]; intros data; [done|].
  cbn [app DetailWindow.walk].
  destruct data; try by rewrite walk_null.
  destruct (dict_get k fields); [apply IH | by rewrite walk_null].
Qed.

(** X17.  Paths of the detail window compose: the value at [p.q] is the
    value at [q] of the value at [p]; a step that fails (a missing key,
    a value that is no dict) and a JSON null both give [None], and
    [None] stays [None] along the rest of the path. *)
Theorem get_value_composes (data : json) (p q : pystr) :
  DetailWindow.get_value data (p ++ lit "." ++ q)
  = DetailWindow.get_value (DetailWindow.get_value data p) q
  /\ forall path, DetailWindow.get_value JNull path = JNull.
Proof.
  unfold DetailWindow.get_value. split.
  - change (lit "." ++ q) with (46 :: q). by rewrite split_sep_app, walk_app.
  - intros path. destruct (DetailWindow.split_sep 46 [] path) eqn:E; [| done].
    exfalso. revert E. generalize (@nil N).
    induction path as [|c path IH]; intros cur; cbn; [done|].
    destruct (c =? 46); [done | apply IH].
Qed.

End Windows.

Section WindowsSamples.
Import Py World.
#[local] Existing Instance Demo.process.
#[local] Existing Instance Demo2.process.
#[local] Existing Instance Demo.platform.

Lemma viewer_shows_witness :
  exists entry fields v,
    In entry [Demo.to_text Demo.manifest_entry]
    /\ loads (Runtime := Demo2.runtime) entry = Some (JObj fields)
    /\ Demo.to_text Demo2.added_1 = Demo.to_text v
    /\ (loads (Runtime := Demo2.runtime) (Demo.to_text Demo2.added_1) = Some v ->
        exists c st label,
          ChangeLogViewer.load_line (H := Demo2.runtime) (Demo.to_text Demo2.added_1)
          = Some c
          /\ In (st, label)
                [(lit "added", [26032; 22686]);
                 (lit "changed", [20462; 25913]);
                 (lit "removed", [21024; 38500])]
          /\ ChangeLogViewer.status c = JStr st
          /\ ChangeLogViewer.translate_status (ChangeLogViewer.status c) = JStr label
          /\ ChangeLogViewer.source c = default JNull (dict_get (lit "_key") fields)).
Proof.
  apply (viewer_shows_what_the_updaters_wrote (H := Demo2.runtime)
           Demo.updated_snapshot [Demo.to_text Demo.manifest_entry]
           (Demo.to_text Demo2.added_1)).
  left. vm_compute. right. left. reflexivity.
Defined.

Lemma viewer_shows_old_logs_witness :
  exists entry fields record,
    let key := default JNull (dict_get (lit "_key") fields) in
    let v := JObj (dict_set (lit "_source_table") key record) in
    In entry [Demo.to_text Demo2.manifest_changed]
    /\ loads (Runtime := Demo2.runtime) entry = Some (JObj fields)
    /\ truthy (default (JArr []) (dict_get (lit "changed") fields)) = true
    /\ Demo.to_text Demo2.old_changed_3 = Demo.to_text v
    /\ (loads (Runtime := Demo2.runtime) (Demo.to_text Demo2.old_changed_3) = Some v ->
        dict_get (lit "_status") record = None ->
        exists c,
          ChangeLogViewer.load_line (H := Demo2.runtime)
            (Demo.to_text Demo2.old_changed_3)
          = Some c
          /\ ChangeLogViewer.status c = JStr (lit "changed")
          /\ ChangeLogViewer.translate_status (ChangeLogViewer.status c)
             = JStr [20462; 25913]
          /\ ChangeLogViewer.source c = key).
Proof.
  apply (viewer_shows_old_logs_as_changed (H := Demo2.runtime)
           Demo.updated_snapshot [Demo.to_text Demo2.manifest_changed]
           (Demo.to_text Demo2.old_changed_3)).
  vm_compute. left. reflexivity.
Defined.

End WindowsSamples.

(** ** The update history *)

Section History.
Import Py Os World.
Context `{Runtime} `{!Process} `{Platform}.

Lemma str_leb_total a b :
  UpdateHistoryWindow.str_leb a b = true \/ UpdateHistoryWindow.str_leb b a = true.
Proof.
  revert b. induction a as [|c a IH]; intros [|d b]; cbn; auto.
  destruct (N.lt_trichotomy c d) as [Hlt|[->|Hgt]].
  - left. apply N.ltb_lt in Hlt. by rewrite Hlt.
  - rewrite N.ltb_irrefl, N.eqb_refl. cbn. apply IH.
  - right. apply N.ltb_lt in Hgt. by rewrite Hgt.
Qed.

Lemma str_leb_trans a b c :
  UpdateHistoryWindow.str_leb a b = true ->
  UpdateHistoryWindow.str_leb b c = true ->
  UpdateHistoryWindow.str_leb a c = true.
Proof.
  revert b c. induction a as [|x a IH]; intros [|y b] [|z c]; cbn; try done.
  rewrite !orb_true_iff, !andb_true_iff, !N.ltb_lt, !N.eqb_eq.
  intros [Hxy|[-> Hab]] [Hyz|[-> Hbc]].
  - left. lia.
  - by left.
  - by left.
  - right. split; [done|]. by eapply IH.
Qed.

#[local] Instance str_ge_total : Total UpdateHistoryWindow.str_ge.
Proof. intros a b. unfold UpdateHistoryWindow.str_ge. apply str_leb_total. Qed.

#[local] Instance str_ge_trans : Transitive UpdateHistoryWindow.str_ge.
Proof.
  intros a b c Hab Hbc. unfold UpdateHistoryWindow.str_ge in *.
  by eapply str_leb_trans.
Qed.

Lemma endswith_app p a : endswith p (a ++ p) = true.
Proof.
  unfold endswith. rewrite rev_app_distr. apply startswith_spec. by eexists.
Qed.

Lemma refresh_logs_elem (dir : gmap (list N) (list (list N))) name :
  name ∈ UpdateHistoryWindow.refresh_logs (Some dir)
  <-> endswith (lit ".jsonl") name = true /\ is_Some (dir !! name).
Proof.
  unfold UpdateHistoryWindow.refresh_logs, UpdateHistoryWindow.sort_reverse.
  rewrite merge_sort_Permutation, list_elem_of_filter, list_elem_of_fmap.
  split.
  - intros (Hend & [n f] & -> & Hin). split; [done|].
    rewrite (listdir_Permutation dir) in Hin.
    apply elem_of_map_to_list in Hin. by exists f.
  - intros (Hend & f & Hf). split; [done|]. exists (name, f).
    split; [done|]. rewrite (listdir_Permutation dir).
    by apply elem_of_map_to_list.
Qed.

(** X18.  The history window lists what a run has written.  After a run
    of the worker that returns, the change log of the run is an item of
    the list of the history window, the item opens the viewer, and the
    file holds the change log of the snapshot the run has left.  The
    list is in descending order of the names, so that of two release
    dates the later one comes first, and every item of the list opens
    the viewer. *)
Theorem history_lists_the_written_log (u : upstream) (d : disk) :
  (MainWindow.UpdateWorker_run u d).1 = Some () ->
  let after := (MainWindow.UpdateWorker_run u d).2 in
  let items := UpdateHistoryWindow.refresh_logs (Some (eve_sde_update after)) in
  (exists k b date,
     MainWindow.read_SDE_latest_info u = Some (k, b, JStr date)
     /\ let name := lit "eve_sde_changes_" ++ replace_char 58 45 date ++ lit ".jsonl" in
        name ∈ items
        /\ eve_sde_update after !! name
           = Some (MainWindow.change_log (default ∅ (eve_sde_jsonl after))
                     (changes_jsonl u (str b))))
  /\ StronglySorted UpdateHistoryWindow.str_ge items
  /\ Forall (fun item => UpdateHistoryWindow.open_log item = Some item) items.
Proof.
  intros Hrun after items. split; [| split].
  - subst items after. revert Hrun. rewrite UpdateWorker_run_unfold.
    destruct (MainWindow.read_SDE_latest_info u) as [[[k b] r]|]; [| done].
    cbv zeta. destruct r as [| | | |date| |]; try done.
    destruct (creatable _); [| done]. intros _.
    exists k, b, date. split; [done|]. cbn [snd eve_sde_update eve_sde_jsonl].
    split.
    + apply refresh_logs_elem. split.
      * rewrite (app_assoc _ _ (lit ".jsonl")). apply endswith_app.
      * rewrite lookup_insert_eq. by eexists.
    + by rewrite lookup_insert_eq.
  - apply (StronglySorted_merge_sort _).
  - apply Forall_forall. intros item [Hend _]%refresh_logs_elem.
    unfold UpdateHistoryWindow.open_log. by rewrite Hend.
Qed.

End History.

Section HistorySamples.
Import Py World.
#[local] Existing Instance Demo.process.
#[local] Existing Instance Demo2.process.
#[local] Existing Instance Demo.platform.

Lemma history_lists_witness :
  let after :=
    (MainWindow.UpdateWorker_run (H := Demo2.runtime) Demo2.publisher
       Demo2.local_disk).2 in
  let items := UpdateHistoryWindow.refresh_logs (Some (eve_sde_update after)) in
  (exists k b date,
     MainWindow.read_SDE_latest_info (H := Demo2.runtime) Demo2.publisher
     = Some (k, b, JStr date)
     /\ let name := lit "eve_sde_changes_" ++ replace_char 58 45 date ++ lit ".jsonl" in
        name ∈ items
        /\ eve_sde_update after !! name
           = Some (MainWindow.change_log (H := Demo2.runtime)
                     (default ∅ (eve_sde_jsonl after))
                     (changes_jsonl Demo2.publisher (str (H := Demo2.runtime) b))))
  /\ StronglySorted UpdateHistoryWindow.str_ge items
  /\ Forall (fun item => UpdateHistoryWindow.open_log item = Some item) items.
Proof.
  apply (history_lists_the_written_log (H := Demo2.runtime) Demo2.publisher
           Demo2.local_disk).
  vm_compute. reflexivity.
Defined.

End HistorySamples.

(** ** Running an updater again *)

Section Runs.
Import Py Os World.
Context `{Runtime} `{Platform}.








End Runs.

Section RunsOfTheWorker.
Import Py Os World.
Context `{Runtime} `{!Process} `{Platform}.

(** X20.  The worker of the window run a second time, in the process
    of the window, against the same publisher: it leaves the disk, the
    snapshot and every change log byte for byte, as the first run left
    it.  The change log of the release date is emptied and written
    anew with the same lines. *)
Theorem second_run_of_the_worker (u : upstream) (d : disk) :
  (MainWindow.UpdateWorker_run u (MainWindow.UpdateWorker_run u d).2).2
  = (MainWindow.UpdateWorker_run u d).2.
Proof.
  rewrite (UpdateWorker_run_unfold u d).
  destruct (MainWindow.read_SDE_latest_info u) as [[[k b] r]|] eqn:Hlatest.
  2: { by rewrite UpdateWorker_run_unfold, Hlatest. }
  destruct d as [sde0 files0].
  unfold MainWindow.local_buildNumber. cbn [eve_sde_jsonl eve_sde_update].
  destruct (py_eqb _ b) eqn:Heq; cbv zeta.
  - destruct r; try destruct (creatable _) eqn:Hc; cbn [snd];
      rewrite UpdateWorker_run_unfold, Hlatest;
      unfold MainWindow.local_buildNumber; cbn [eve_sde_jsonl eve_sde_update];
      rewrite Heq; cbv zeta; rewrite ?Hc; cbn [snd]; try done.
    by rewrite insert_insert_eq.
  - destruct r; try destruct (creatable _) eqn:Hc; cbn [snd];
      rewrite UpdateWorker_run_unfold, Hlatest;
      cbn [eve_sde_jsonl eve_sde_update from_option id];
      destruct (py_eqb (MainWindow.local_buildNumber _) b); cbv zeta;
      rewrite ?Hc; cbn [snd from_option id];
      rewrite ?extractall_twice, ?insert_insert_eq; done.
Qed.

End RunsOfTheWorker.
